(** * Code2Flow: a shallow embedding of the flowchart pipeline and its web API

    The development follows the two Python modules of the repository:

    - [thisworks.py]: language detection, structure extraction over a
      tree-sitter parse tree, the complexity estimate, the chunk planner,
      per-chunk diagram generation (with the language model as an oracle),
      the diagram combiner and the renderer URL;
    - [apicodenew2.py]: the in-memory session store, the process-wide
      "current diagram" globals and the HTTP handlers, as state-passing
      functions that return either a response or a raised exception;

    and, of the page [frontbe4.py], the three requests and the generate
    button.

    Python [str] values are modelled as lists of Unicode code points, Python
    [bytes] as lists of numbers below 256, Python [int] as [Z], dictionaries
    used as maps as [gmap], and exceptions as a sum type.  The one recursion
    of the code that nothing bounds, [find_calls], is cut off by the
    interpreter's recursion limit, which the model takes from outside with
    the parsers. *)

From Stdlib Require Import ZArith NArith List String Ascii Lia Bool DecimalString.
From stdpp Require Import base option list gmap.
Import ListNotations.
Local Open Scope Z_scope.

(** ** Python strings *)

(** A Python [str] is a sequence of code points. *)
Abbreviation pystr := (list N).

(** A source-code string literal (ASCII only). *)
Definition lit (s : string) : pystr :=
  map N_of_ascii (list_ascii_of_string s).

(** The double-quote character, kept apart from the literals. *)
Definition dq : pystr := [34%N].

(** [len(s)] *)
Definition len {A} (l : list A) : Z := Z.of_nat (length l).

(** [s == t] *)
Definition str_eqb (s t : pystr) : bool := bool_decide (s = t).

(** [s.startswith(p)] *)
Fixpoint startswith (p s : pystr) : bool :=
  match p, s with
  | [], _ => true
  | _ :: _, [] => false
  | a :: p', b :: s' => (a =? b)%N && startswith p' s'
  end.

(** [s.startswith((p1, p2, ...))]: a tuple of prefixes. *)
Definition startswith_any (ps : list pystr) (s : pystr) : bool :=
  existsb (fun p => startswith p s) ps.

(** The first index [>= i] at which [sub] occurs in [s]; [i] is the index of
    the head of [s] in the whole string. *)
Fixpoint find_aux (sub s : pystr) (i : nat) : option nat :=
  if startswith sub s then Some i
  else match s with
       | [] => None
       | _ :: t => find_aux sub t (S i)
       end.

(** [s.find(sub, start)]: the lowest index at or after [start] where [sub]
    occurs, [-1] when there is none.  A negative [start] counts from the
    end, as Python's slice arguments do. *)
Definition str_find (s sub : pystr) (start : Z) : Z :=
  let start' := if start <? 0 then Z.max 0 (start + len s) else start in
  if len s <? start' then -1
  else match find_aux sub (drop (Z.to_nat start') s) (Z.to_nat start') with
       | Some i => Z.of_nat i
       | None => -1
       end.

(** [sub in s] *)
Definition contains (sub s : pystr) : bool :=
  match find_aux sub s 0 with Some _ => true | None => false end.

(** The scan of [str.count]: left to right, and after a match the scan
    resumes behind the matched text ([skip] characters are still covered by
    the last match). *)
Fixpoint count_aux (sub s : pystr) (skip : nat) : Z :=
  match s with
  | [] => 0
  | _ :: t =>
      match skip with
      | S k => count_aux sub t k
      | O => if startswith sub s
             then 1 + count_aux sub t (length sub - 1)
             else count_aux sub t 0
      end
  end.

(** [s.count(sub)]: the number of non-overlapping occurrences of [sub]; the
    empty string occurs between all characters. *)
Definition str_count (s sub : pystr) : Z :=
  match sub with
  | [] => len s + 1
  | _ => count_aux sub s 0
  end.

(** [c.isspace()] for one code point (the Unicode White_Space set that
    CPython uses for [str.strip] and [str.split]). *)
Definition isspace (c : N) : bool :=
  ((9 <=? c) && (c <=? 13) || (28 <=? c) && (c <=? 32)
   || (c =? 133) || (c =? 160) || (c =? 5760)
   || (8192 <=? c) && (c <=? 8202)
   || (c =? 8232) || (c =? 8233) || (c =? 8239) || (c =? 8287)
   || (c =? 12288))%N.

Fixpoint lstrip (s : pystr) : pystr :=
  match s with
  | [] => []
  | c :: t => if isspace c then lstrip t else s
  end.

Definition rstrip (s : pystr) : pystr := rev (lstrip (rev s)).

(** [s.strip()] *)
Definition strip (s : pystr) : pystr := rstrip (lstrip s).

(** Truth value of a string or of a list: non-empty. *)
Definition truthy {A} (l : list A) : bool :=
  match l with [] => false | _ => true end.

(** [s.split(sep)] for a one-character separator, with the current field
    accumulated in reverse. *)
Fixpoint split_aux (sep : N) (cur : pystr) (s : pystr) : list pystr :=
  match s with
  | [] => [rev cur]
  | c :: t => if (c =? sep)%N then rev cur :: split_aux sep [] t
              else split_aux sep (c :: cur) t
  end.

Definition split_on (s : pystr) (sep : N) : list pystr := split_aux sep [] s.

(** The line feed, the separator of [split('\n')] and ['\n'.join]. *)
Definition nl : N := 10%N.

(** [sep.join(l)] *)
Fixpoint join (sep : pystr) (l : list pystr) : pystr :=
  match l with
  | [] => []
  | [x] => x
  | x :: rest => x ++ sep ++ join sep rest
  end.

(** [s.replace(a, b)] for one-character [a] and [b]. *)
Definition replace_char (a b : N) (s : pystr) : pystr :=
  map (fun c => if (c =? a)%N then b else c) s.

(** The line boundaries of [str.splitlines] other than the carriage return,
    which is handled with its optional line feed. *)
Definition is_linebreak (c : N) : bool :=
  ((c =? 10) || (c =? 11) || (c =? 12) || (c =? 28) || (c =? 29) || (c =? 30)
   || (c =? 133) || (c =? 8232) || (c =? 8233))%N.

(** [s.splitlines()]: no empty last line after a final line boundary. *)
Fixpoint splitlines_aux (cur : pystr) (s : pystr) : list pystr :=
  match s with
  | [] => match cur with [] => [] | _ => [rev cur] end
  | c :: t =>
      if (c =? 13)%N then
        match t with
        | d :: t' => if (d =? 10)%N then rev cur :: splitlines_aux [] t'
                     else rev cur :: splitlines_aux [] t
        | [] => rev cur :: splitlines_aux [] t
        end
      else if is_linebreak c then rev cur :: splitlines_aux [] t
      else splitlines_aux (c :: cur) t
  end.

Definition splitlines (s : pystr) : list pystr := splitlines_aux [] s.

(** [s[a:b]] for [0 <= a]; an end before the start gives the empty string. *)
Definition slice (s : pystr) (a b : Z) : pystr :=
  take (Z.to_nat (b - a)) (drop (Z.to_nat a) s).

(** [str(n)] for an integer. *)
Definition str_of_Z (n : Z) : pystr :=
  lit (NilZero.string_of_int (Z.to_int n)).

(** [chr(i)]: defined on the code points [0 .. 0x10FFFF], a [ValueError]
    elsewhere (here [None]). *)
Definition chr (i : Z) : option N :=
  if (0 <=? i) && (i <? 1114112) then Some (Z.to_N i) else None.

(** ** Exceptions and results *)

(** The exceptions that the modelled code raises or lets through. *)
Inductive exn : Type :=
| HTTPException (status_code : Z) (detail : pystr)
| IndexError
| ValueError
| UnicodeEncodeError
| KeyError (key : pystr)
| RecursionError
| ExternalError (msg : pystr).

(** A computation either returns a value or raises. *)
Inductive result (A : Type) : Type :=
| Ok (a : A)
| Raise (e : exn).
Arguments Ok {A} a.
Arguments Raise {A} e.

Definition rbind {A B} (r : result A) (k : A -> result B) : result B :=
  match r with
  | Ok a => k a
  | Raise e => Raise e
  end.

Notation "x <- r ;;; k" := (rbind r (fun x => k))
  (at level 100, r at next level, right associativity).

(** [str(e)]: Starlette's [HTTPException] prints as ["<status>: <detail>"],
    the others as their message (that of the encoding error without the
    character and position it names). *)
Definition exn_str (e : exn) : pystr :=
  match e with
  | HTTPException c d => str_of_Z c ++ lit ": " ++ d
  | IndexError => lit "list index out of range"
  | ValueError => lit "chr() arg not in range(0x110000)"
  | UnicodeEncodeError => lit "'utf-8' codec can't encode character: surrogates not allowed"
  | KeyError k => lit "'" ++ k ++ lit "'"
  | RecursionError => lit "maximum recursion depth exceeded"
  | ExternalError m => m
  end.

(** ** UTF-8 and URL-safe base64 *)

(** Python [bytes]: every element is below 256. *)
Abbreviation pybytes := (list N).

(** The UTF-8 encoding of one code point; surrogates (and numbers that are
    no code points) cannot be encoded. *)
Definition utf8_encode_cp (c : N) : option pybytes :=
  (if c <? 128 then Some [c]
   else if c <? 2048 then Some [192 + c / 64; 128 + c mod 64]
   else if c <? 65536 then
     if (55296 <=? c) && (c <=? 57343) then None
     else Some [224 + c / 4096; 128 + (c / 64) mod 64; 128 + c mod 64]
   else if c <? 1114112 then
     Some [240 + c / 262144; 128 + (c / 4096) mod 64;
           128 + (c / 64) mod 64; 128 + c mod 64]
   else None)%N.

(** [s.encode('utf-8')] *)
Fixpoint utf8_encode (s : pystr) : result pybytes :=
  match s with
  | [] => Ok []
  | c :: t =>
      match utf8_encode_cp c with
      | None => Raise UnicodeEncodeError
      | Some bs => rest <- utf8_encode t ;;; Ok (bs ++ rest)
      end
  end.

(** The URL-safe base64 alphabet of RFC 4648, section 5. *)
Definition b64_alphabet : pystr :=
  lit "ABCDEFGHIJKLMNOPQRSTUVWXYZabcdefghijklmnopqrstuvwxyz0123456789-_".

(** The character of a 6-bit value. *)
Definition b64_char (i : N) : N := nth (N.to_nat i) b64_alphabet 0%N.

(** The padding character [=]. *)
Definition b64_pad : N := 61%N.

(** [base64.urlsafe_b64encode(bs)]: three bytes give four characters; a last
    group of one or two bytes is padded with [=]. *)
Fixpoint urlsafe_b64encode (bs : pybytes) : pybytes :=
  (match bs with
   | [] => []
   | [b0] => [b64_char (b0 / 4); b64_char ((b0 mod 4) * 16); b64_pad; b64_pad]
   | [b0; b1] =>
       [b64_char (b0 / 4); b64_char ((b0 mod 4) * 16 + b1 / 16);
        b64_char ((b1 mod 16) * 4); b64_pad]
   | b0 :: b1 :: b2 :: rest =>
       b64_char (b0 / 4) :: b64_char ((b0 mod 4) * 16 + b1 / 16)
       :: b64_char ((b1 mod 16) * 4 + b2 / 64) :: b64_char (b2 mod 64)
       :: urlsafe_b64encode rest
   end)%N.

(** The 6-bit value of a character of the URL-safe alphabet. *)
Definition b64_value (c : N) : option N :=
  (if (65 <=? c) && (c <=? 90) then Some (c - 65)
   else if (97 <=? c) && (c <=? 122) then Some (c - 97 + 26)
   else if (48 <=? c) && (c <=? 57) then Some (c - 48 + 52)
   else if c =? 45 then Some 62
   else if c =? 95 then Some 63
   else None)%N.

(** [base64.urlsafe_b64decode] on padded input: four characters give three
    bytes; [=] may only close the last group. *)
Fixpoint urlsafe_b64decode (cs : pybytes) : option pybytes :=
  (match cs with
   | [] => Some []
   | c0 :: c1 :: c2 :: c3 :: rest =>
       v0 ← b64_value c0; v1 ← b64_value c1;
       if c3 =? b64_pad then
         match rest with
         | [] =>
             if c2 =? b64_pad then Some [v0 * 4 + v1 / 16]
             else v2 ← b64_value c2;
                  Some [v0 * 4 + v1 / 16; (v1 mod 16) * 16 + v2 / 4]
         | _ => None
         end
       else
         v2 ← b64_value c2; v3 ← b64_value c3;
         tl ← urlsafe_b64decode rest;
         Some (v0 * 4 + v1 / 16 :: (v1 mod 16) * 16 + v2 / 4
               :: (v2 mod 4) * 64 + v3 :: tl)
   | _ => None
   end)%N.

(** [bs.decode('utf-8')] on ASCII bytes, as base64 text is: each byte is its
    own code point. *)
Definition ascii_decode (bs : pybytes) : pystr := bs.

(** The path prefix of the rendering service. *)
Definition svg_prefix : pystr := lit "https://mermaid.ink/svg/".

(** The renderer URL of a diagram text:
    [f"https://mermaid.ink/svg/{urlsafe_b64encode(text.encode('utf-8')).decode('utf-8')}"] *)
Definition svg_url_of (mermaid_code : pystr) : result pystr :=
  bs <- utf8_encode mermaid_code ;;;
  Ok (svg_prefix ++ ascii_decode (urlsafe_b64encode bs)).

(** ** thisworks.py: static analysis *)

(** [detect_language(code)] *)
Definition detect_language (code : pystr) : pystr :=
  let s := strip code in
  if startswith_any [lit "def "; lit "class "; lit "import "; lit "from ";
                     lit "async "] s
  then lit "python"
  else if startswith (lit "#include") s || contains (lit " main(") s
  then lit "c"
  else if contains (lit "function ") s || contains (lit "const ") s
          || contains (lit "=>") s || contains (lit "class ") s
  then lit "javascript"
  else lit "python".

(** [FunctionInfo.calculate_complexity], on the [code] attribute. *)
Definition calculate_complexity (code : pystr) : Z :=
  let complexity := 1 in
  let complexity := complexity + str_count code (lit "if ") in
  let complexity := complexity + str_count code (lit "elif ") in
  let complexity := complexity + str_count code (lit "for ") in
  let complexity := complexity + str_count code (lit "while ") in
  let complexity := complexity + str_count code (lit "and ") in
  let complexity := complexity + str_count code (lit "or ") in
  complexity.

(** [class FunctionInfo] *)
Record FunctionInfo : Type := mkFunctionInfo {
  f_name : pystr;
  f_start_line : Z;
  f_end_line : Z;
  f_code : pystr;
  f_has_loops : bool;
  f_has_conditionals : bool;
  f_calls : list pystr;
  f_complexity : Z
}.

(** [FunctionInfo.__init__]: the complexity is computed once, from the code. *)
Definition FunctionInfo_init (name : pystr) (start_line end_line : Z)
    (code : pystr) (has_loops has_conditionals : bool) (calls : list pystr)
    : FunctionInfo :=
  {| f_name := name; f_start_line := start_line; f_end_line := end_line;
     f_code := code; f_has_loops := has_loops;
     f_has_conditionals := has_conditionals; f_calls := calls;
     f_complexity := calculate_complexity code |}.

(** A node of the parse tree that the tree-sitter parser returns.  [n_text]
    is the node's source text, [code_bytes[start_byte:end_byte].decode()];
    the rows are [start_point[0]] and [end_point[0]]. *)
#[warnings="-register-all"]
Inductive node : Type :=
  Node (n_type : pystr) (n_named : bool) (n_start_row n_end_row : Z)
       (n_text : pystr) (n_children : list node).

Definition n_type (n : node) : pystr := let 'Node t _ _ _ _ _ := n in t.
Definition is_named (n : node) : bool := let 'Node _ b _ _ _ _ := n in b.
Definition start_row (n : node) : Z := let 'Node _ _ r _ _ _ := n in r.
Definition end_row (n : node) : Z := let 'Node _ _ _ r _ _ := n in r.
Definition n_text (n : node) : pystr := let 'Node _ _ _ _ x _ := n in x.
Definition children (n : node) : list node := let 'Node _ _ _ _ _ c := n in c.

(** [t in (a, b, ...)] for strings. *)
Definition str_in (t : pystr) (l : list pystr) : bool :=
  existsb (str_eqb t) l.

(** The callee names that [find_calls] skips. *)
Definition builtin_calls : list pystr :=
  [lit "print"; lit "len"; lit "range"; lit "str"; lit "int"; lit "float"].

(** The inner function [find_calls] of [extract_function_node_info], with the
    list it appends to returned: the names of the [identifier] and
    [attribute] children of every [call] node of the subtree, in visit
    order.  The function calls itself once for every level of the subtree
    and nothing bounds the depth, so the interpreter's recursion limit does:
    [room] is the number of nested calls that the limit still allows, and a
    call without room raises [RecursionError]. *)
Fixpoint find_calls (room : nat) (n : node) : result (list pystr) :=
  match room with
  | O => Raise RecursionError
  | S room' =>
      match n with
      | Node t _ _ _ _ cs =>
          let calls :=
            if str_eqb t (lit "call")
            then filter (fun call_name => negb (str_in call_name builtin_calls))
                   (map n_text
                      (filter (fun c => str_in (n_type c)
                                          [lit "identifier"; lit "attribute"])
                              cs))
            else [] in
          (fix visit (l : list node) (calls : list pystr)
               : result (list pystr) :=
             match l with
             | [] => Ok calls
             | child :: l' =>
                 match find_calls room' child with
                 | Ok found => visit l' (calls ++ found)
                 | Raise e => Raise e
                 end
             end) cs calls
      end
  end.

(** The name loop of [extract_function_node_info]: the text of the first
    [identifier] or [property_identifier] child. *)
Fixpoint first_identifier (cs : list node) (name : pystr) : pystr :=
  match cs with
  | [] => name
  | child :: cs' =>
      if str_eqb (n_type child) (lit "identifier")
         || str_eqb (n_type child) (lit "property_identifier")
      then n_text child
      else first_identifier cs' name
  end.

(** [extract_function_node_info(node, code_bytes, lang)], with the room that
    the recursion limit leaves to [find_calls]. *)
Definition extract_function_node_info (room : nat) (n : node)
    : result FunctionInfo :=
  let name := first_identifier (children n) (lit "unknown") in
  let start_line := start_row n in
  let end_line := end_row n in
  let code := n_text n in
  let has_loops :=
    existsb (fun c => str_in (n_type c)
                        [lit "for_statement"; lit "while_statement";
                         lit "for_in_statement"]) (children n) in
  let has_conditionals :=
    existsb (fun c => str_eqb (n_type c) (lit "if_statement")) (children n) in
  calls <- find_calls room n ;;;
  Ok (FunctionInfo_init name start_line end_line code has_loops
        has_conditionals calls).

(** The two lists that [traverse] appends to. *)
Record extraction : Type := mkExtraction {
  x_functions : list FunctionInfo;
  x_main_code : list pystr
}.

(** The inner function [traverse] of [analyze_code_structure], with the two
    lists threaded through.  [room] is the room for [find_calls] at depth 0;
    every level of [traverse] is one more call in progress and takes one
    from it. *)
Fixpoint traverse (room : nat) (n : node) (depth : Z) (acc : extraction)
    : result extraction :=
  match n with
  | Node t _ _ _ txt cs =>
      if depth >? 20 then Ok acc
      else
        match
          (if str_in t [lit "function_definition"; lit "function_declaration";
                        lit "method_definition"]
           then
             match extract_function_node_info (room - Z.to_nat depth) n with
             | Ok func_info =>
                 Ok {| x_functions := x_functions acc ++ [func_info];
                       x_main_code := x_main_code acc |}
             | Raise e => Raise e
             end
           else if str_in t [lit "expression_statement"; lit "assignment"]
                   && (depth <=? 2)
           then Ok {| x_functions := x_functions acc;
                      x_main_code :=
                        x_main_code acc ++ [take 80 (hd [] (split_on txt nl))] |}
           else Ok acc)
        with
        | Raise e => Raise e
        | Ok acc =>
            (fix visit (l : list node) (acc : extraction) : result extraction :=
               match l with
               | [] => Ok acc
               | child :: l' =>
                   match (if is_named child
                          then traverse room child (depth + 1) acc
                          else Ok acc) with
                   | Ok acc => visit l' acc
                   | Raise e => Raise e
                   end
               end) cs acc
        end
  end.

(** What the analysis takes from outside the module.  The three parsers
    [p_py], [p_js], [p_c] are external, total functions from the encoded
    text to a tree.  [recursion_room] is the number of nested calls of
    [find_calls] that the interpreter still allows when [traverse] meets a
    function at depth 0: its recursion limit ([sys.getrecursionlimit()],
    1000 unless it was changed) less the calls in progress at that point.
    The calls of bounded nesting are taken to have room. *)
Record parsers : Type := mkParsers {
  p_py : pybytes -> node;
  p_js : pybytes -> node;
  p_c : pybytes -> node;
  recursion_room : nat
}.

(** The kinds of chunk, the ['type'] entry of a chunk dictionary. *)
Inductive chunk_type : Type := full | function | main.

Definition chunk_type_str (t : chunk_type) : pystr :=
  match t with
  | full => lit "full"
  | function => lit "function"
  | main => lit "main"
  end.

(** A chunk dictionary; the last three keys exist in per-function chunks
    only. *)
Record chunk : Type := mkChunk {
  c_type : chunk_type;
  c_code : pystr;
  c_name : pystr;
  c_complexity : Z;
  c_calls : option (list pystr);
  c_has_loops : option bool;
  c_has_conditionals : option bool
}.

(** The dictionary that [analyze_code_structure] returns; the orchestrator
    adds the ['chunks'] key later. *)
Record structure : Type := mkStructure {
  functions : list FunctionInfo;
  main_code : list pystr;
  total_lines : Z;
  function_count : Z;
  chunks : option (list chunk)
}.

(** [analyze_code_structure(code, lang)] *)
Definition analyze_code_structure (ps : parsers) (code lang : pystr)
    : result structure :=
  code_bytes <- utf8_encode code ;;;
  let tree :=
    if str_eqb lang (lit "python") then p_py ps code_bytes
    else if str_eqb lang (lit "javascript") then p_js ps code_bytes
    else if str_eqb lang (lit "c") then p_c ps code_bytes
    else p_py ps code_bytes in
  r <- traverse (recursion_room ps) tree 0
         {| x_functions := []; x_main_code := [] |} ;;;
  Ok {| functions := x_functions r;
        main_code := x_main_code r;
        total_lines := len (split_on code nl);
        function_count := len (x_functions r);
        chunks := None |}.

(** ** thisworks.py: chunking *)

(** [sum(...)] over integers. *)
Definition pysum (l : list Z) : Z := fold_left Z.add l 0.

(** [create_chunks(structure, code, max_chunk_size)] *)
Definition create_chunks (st : structure) (code : pystr) (max_chunk_size : Z)
    : list chunk :=
  let chunks : list chunk := [] in
  if total_lines st <=? max_chunk_size then
    let chunks :=
      chunks ++ [ {| c_type := full; c_code := code; c_name := lit "Main Flow";
                     c_complexity := pysum (map f_complexity (functions st));
                     c_calls := None; c_has_loops := None;
                     c_has_conditionals := None |} ] in
    chunks
  else
    let chunks :=
      fold_left
        (fun chunks func =>
           chunks ++ [ {| c_type := function; c_code := f_code func;
                          c_name := f_name func;
                          c_complexity := f_complexity func;
                          c_calls := Some (f_calls func);
                          c_has_loops := Some (f_has_loops func);
                          c_has_conditionals := Some (f_has_conditionals func) |} ])
        (functions st) chunks in
    let chunks :=
      if truthy (main_code st) then
        let main_chunk_code := join [nl] (main_code st) in
        chunks ++ [ {| c_type := main; c_code := main_chunk_code;
                       c_name := lit "Main Execution"; c_complexity := 1;
                       c_calls := None; c_has_loops := None;
                       c_has_conditionals := None |} ]
      else chunks in
    chunks.

(** The default of [max_chunk_size]. *)
Definition default_max_chunk_size : Z := 500.

(** ** thisworks.py: diagram generation for one chunk *)

(** The language model [llm.invoke(prompt).content]: an external call that
    returns a text or raises. *)
Definition llm_oracle : Type := pystr -> result pystr.

(** [chunk.get('has_loops')] and the like, as a condition. *)
Definition get_flag (o : option bool) : bool :=
  match o with Some b => b | None => false end.

(** [chunk.get('calls')] as a condition, and [chunk['calls']] after it. *)
Definition get_calls (o : option (list pystr)) : list pystr :=
  match o with Some l => l | None => [] end.

(** The [context] string of the prompt. *)
Definition prompt_context (c : chunk) : pystr :=
  let context : pystr := [] in
  let context :=
    if get_flag (c_has_loops c)
    then context ++ lit "This code contains loops - use proper loop back-edges. "
    else context in
  let context :=
    if get_flag (c_has_conditionals c)
    then context ++ lit "This code has conditionals - use diamond decision nodes. "
    else context in
  let context :=
    if truthy (get_calls (c_calls c))
    then context ++ lit "This calls: "
           ++ join (lit ", ") (take 5 (get_calls (c_calls c))) ++ lit ". "
    else context in
  context.

(** The prompt f-string.  Its one partial piece is [chr(65 + chunk_index)]. *)
Definition build_prompt (c : chunk) (chunk_index : Z) : result pystr :=
  let chunk_type := chunk_type_str (c_type c) in
  let chunk_name := c_name c in
  let code := c_code c in
  let context := prompt_context c in
  match chr (65 + chunk_index) with
  | None => Raise ValueError
  | Some letter =>
      Ok (join [nl]
        [ lit "You are an expert flowchart generator. Convert this code into a Mermaid flowchart.";
          [];
          lit "CODE CONTEXT:";
          lit "- Function/Section: " ++ chunk_name;
          lit "- Type: " ++ chunk_type;
          lit "- Complexity: " ++ str_of_Z (c_complexity c);
          lit "- " ++ context;
          [];
          lit "CRITICAL MERMAID RULES:";
          lit "1. Start with: graph TD";
          lit "2. Use UNIQUE node IDs starting with " ++ [letter]
            ++ lit " (e.g., A1, A2, B1, B2)";
          lit "3. Node shapes:";
          lit "   - Start/End: ID([Label])";
          lit "   - Process: ID[Label]";
          lit "   - Decision: ID{" ++ dq ++ lit "Label?" ++ dq ++ lit "}";
          lit "   - Loop: ID[/" ++ dq ++ lit "Label" ++ dq ++ lit "/]";
          lit "4. For loops: MUST show back-edge (LoopEnd --> LoopStart)";
          lit "5. For if/else: Show TRUE and FALSE branches with |Yes| and |No| labels";
          lit "6. Keep labels SHORT (max 40 chars)";
          lit "7. Show all important logic flow";
          [];
          lit "EXAMPLE for loop:";
          lit "```mermaid";
          lit "graph TD";
          lit "    A1([Start Loop])";
          lit "    A2{" ++ dq ++ lit "i < 10?" ++ dq ++ lit "}";
          lit "    A3[Process i]";
          lit "    A4[i++]";
          lit "    A5([End])";
          lit "    ";
          lit "    A1 --> A2";
          lit "    A2 -->|Yes| A3";
          lit "    A3 --> A4";
          lit "    A4 --> A2";
          lit "    A2 -->|No| A5";
          lit "```";
          [];
          lit "CODE TO CONVERT:";
          lit "```";
          code;
          lit "```";
          [];
          lit "Generate ONLY the mermaid code (no explanations):" ])
  end.

(** The body of the [try] block after the model has answered: cut out the
    fenced block and make sure that a directive leads. *)
Definition extract_mermaid (content : pystr) : pystr :=
  let result := strip content in
  let result :=
    if contains (lit "```mermaid") result then
      let start := str_find result (lit "```mermaid") 0 + 10 in
      let end_ := str_find result (lit "```") start in
      if negb (end_ =? -1) then strip (slice result start end_) else result
    else if contains (lit "```") result then
      let start := str_find result (lit "```") 0 + 3 in
      let end_ := str_find result (lit "```") start in
      if negb (end_ =? -1) then strip (slice result start end_) else result
    else result in
  let result :=
    if negb (startswith (lit "graph TD") result)
       && negb (startswith (lit "flowchart TD") result)
    then lit "graph TD" ++ [nl] ++ result
    else result in
  strip result.

(** The diagram that the [except] branch returns. *)
Definition error_diagram (chunk_name : pystr) : pystr :=
  lit "graph TD" ++ [nl] ++ lit "    ERR[Error: " ++ chunk_name ++ lit "]".

(** [generate_flowchart_for_chunk(chunk, chunk_index, total_chunks)]: the
    prompt is built before the [try]; the [try] covers the model call and
    the clean-up of its answer. *)
Definition generate_flowchart_for_chunk (llm : llm_oracle) (c : chunk)
    (chunk_index total_chunks : Z) : result pystr :=
  let chunk_name := c_name c in
  prompt <- build_prompt c chunk_index ;;;
  match llm prompt with
  | Ok content => Ok (extract_mermaid content)
  | Raise e => Ok (error_diagram chunk_name)
  end.

(** ** thisworks.py: combining and rendering *)

(** [range(n)] *)
Definition range (n : Z) : list Z := map Z.of_nat (seq 0 (Z.to_nat n)).

(** The list comprehension of [combine_flowcharts]: the lines of a fragment
    that are not blank and do not start, once stripped, with [graph] or
    [flowchart]. *)
Definition chunk_lines_of (flowchart : pystr) : list pystr :=
  filter (fun line =>
            truthy (strip line)
            && negb (startswith_any [lit "graph"; lit "flowchart"] (strip line)))
         (split_on flowchart nl).

(** One turn of the subgraph loop: [i] is the counter of [enumerate]. *)
Definition add_subgraph (acc : Z * list pystr) (cf : chunk * pystr)
    : Z * list pystr :=
  let '(i, lines) := acc in
  let '(chunk, flowchart) := cf in
  let chunk_name := replace_char 32 95 (c_name chunk) in
  let chunk_lines := chunk_lines_of flowchart in
  let lines := lines ++ [lit "    subgraph SUB" ++ str_of_Z i ++ lit "["
                           ++ c_name chunk ++ lit "]"] in
  let lines := lines ++ map (fun line => lit "    " ++ line) chunk_lines in
  let lines := lines ++ [lit "    end"] in
  (i + 1, lines).

(** The lines of the master flowchart, for more or fewer than one fragment. *)
Definition combine_lines (cs : list chunk) (chunk_flowcharts : list pystr)
    : list pystr :=
  let lines := [lit "graph TD"] in
  let lines := lines ++ [lit "    START([Program Start])"] in
  let lines := snd (fold_left add_subgraph (zip cs chunk_flowcharts) (0, lines)) in
  let lines := lines ++ [lit "    START --> SUB0"] in
  let lines :=
    fold_left (fun lines i =>
                 lines ++ [lit "    SUB" ++ str_of_Z i ++ lit " --> SUB"
                             ++ str_of_Z (i + 1)])
              (range (len chunk_flowcharts - 1)) lines in
  let lines := lines ++ [lit "    SUB" ++ str_of_Z (len chunk_flowcharts - 1)
                           ++ lit " --> END([Program End])"] in
  lines.

(** [combine_flowcharts(chunk_flowcharts, structure)] *)
Definition combine_flowcharts (chunk_flowcharts : list pystr) (st : structure)
    : result pystr :=
  match chunk_flowcharts with
  | [flowchart] => Ok flowchart
  | _ =>
      match chunks st with
      | None => Raise (KeyError (lit "chunks"))
      | Some cs => Ok (join [nl] (combine_lines cs chunk_flowcharts))
      end
  end.

(** The HTML that the renderer returns, by its content: the image box with
    its URL, or the red error box with its message. *)
Inductive html : Type :=
| HtmlImage (url : pystr)
| HtmlError (msg : pystr).

(** The module globals of thisworks.py. *)
Record tw_state : Type := mkTwState {
  tw_current_svg_url : pystr;
  tw_current_mermaid_code : pystr
}.

(** [mermaid_to_svg(mermaid_code)]: sets the module's [current_svg_url]; an
    exception becomes the error box. *)
Definition mermaid_to_svg (mermaid_code : pystr) (g : tw_state)
    : html * tw_state :=
  match svg_url_of mermaid_code with
  | Ok url =>
      (HtmlImage url,
       {| tw_current_svg_url := url;
          tw_current_mermaid_code := tw_current_mermaid_code g |})
  | Raise e => (HtmlError (exn_str e), g)
  end.

(** [l[0]] *)
Definition index0 {A} (l : list A) : result A :=
  match l with
  | [] => Raise IndexError
  | x :: _ => Ok x
  end.

(** The generation loop of both orchestrators:
    [for i, chunk in enumerate(chunks): ... chunk_flowcharts.append(...)].
    The [i]-th call of the model is [llm i]. *)
Fixpoint generate_all (llm : Z -> llm_oracle) (cs : list chunk) (i total : Z)
    (chunk_flowcharts : list pystr) : result (list pystr) :=
  match cs with
  | [] => Ok chunk_flowcharts
  | chunk :: cs' =>
      flowchart <- generate_flowchart_for_chunk (llm i) chunk i total ;;;
      generate_all llm cs' (i + 1) total (chunk_flowcharts ++ [flowchart])
  end.

(** [structure['chunks'] = chunks] *)
Definition set_chunks (st : structure) (cs : list chunk) : structure :=
  {| functions := functions st; main_code := main_code st;
     total_lines := total_lines st; function_count := function_count st;
     chunks := Some cs |}.

(** What steps 1 to 5 leave in the local variables of an orchestrator. *)
Record built : Type := mkBuilt {
  b_structure : structure;
  b_chunks : list chunk;
  b_lang : pystr;
  b_final_mermaid : pystr
}.

(** Step 1 of both orchestrators:
    [lang = language if language != "auto" else detect_language(code)] *)
Definition resolve_language (code language : pystr) : pystr :=
  if negb (str_eqb language (lit "auto")) then language
  else detect_language code.

(** Steps 1 to 5 of both orchestrators, which touch no global: resolve the
    language, analyse, chunk, generate and combine. *)
Definition build_diagram (ps : parsers) (llm : Z -> llm_oracle)
    (code language : pystr) : result built :=
  let lang := resolve_language code language in
  structure <- analyze_code_structure ps code lang ;;;
  let chunks := create_chunks structure code default_max_chunk_size in
  let structure := set_chunks structure chunks in
  chunk_flowcharts <- generate_all llm chunks 0 (len chunks) [] ;;;
  final_mermaid <-
    (if len chunks >? 1 then combine_flowcharts chunk_flowcharts structure
     else index0 chunk_flowcharts) ;;;
  Ok {| b_structure := structure; b_chunks := chunks; b_lang := lang;
        b_final_mermaid := final_mermaid |}.

(** What [process_production_code] returns: the notice for blank code, the
    rendered diagram with its source, or the error message of the [except]
    branch. *)
Inductive production_outcome : Type :=
| NoCode
| Produced (html_svg : html) (final_mermaid : pystr)
| Failed (error_msg : pystr).

(** [process_production_code(code, lang_choice)]: the whole run is inside a
    [try]; any exception becomes an error message. *)
Definition process_production_code (ps : parsers) (llm : Z -> llm_oracle)
    (code lang_choice : pystr) (g : tw_state) : production_outcome * tw_state :=
  if negb (truthy (strip code)) then (NoCode, g)
  else
    match build_diagram ps llm code lang_choice with
    | Raise e => (Failed ([10060%N] ++ lit " Error: " ++ exn_str e), g)
    | Ok b =>
        let final_mermaid := b_final_mermaid b in
        let g := {| tw_current_svg_url := tw_current_svg_url g;
                    tw_current_mermaid_code := final_mermaid |} in
        let '(html_svg, g) := mermaid_to_svg final_mermaid g in
        (Produced html_svg final_mermaid, g)
    end.

(** ** apicodenew2.py: state *)

(** An entry of [code_storage]: [{"code": ..., "language": ...}]. *)
Record session : Type := mkSession {
  s_code : pystr;
  s_language : pystr
}.

(** The module globals of apicodenew2.py, with those of thisworks.py, which
    it imports. *)
Record api_state : Type := mkApiState {
  code_storage : gmap pystr session;
  current_svg_url : pystr;
  current_mermaid_code : pystr;
  tw_globals : tw_state
}.

(** The state at process start. *)
Definition initial_state : api_state :=
  {| code_storage := ∅; current_svg_url := []; current_mermaid_code := [];
     tw_globals := {| tw_current_svg_url := []; tw_current_mermaid_code := [] |} |}.

Definition set_code_storage (s : api_state) (m : gmap pystr session) : api_state :=
  {| code_storage := m; current_svg_url := current_svg_url s;
     current_mermaid_code := current_mermaid_code s;
     tw_globals := tw_globals s |}.

Definition set_current_mermaid_code (s : api_state) (x : pystr) : api_state :=
  {| code_storage := code_storage s; current_svg_url := current_svg_url s;
     current_mermaid_code := x; tw_globals := tw_globals s |}.

Definition set_current_svg_url (s : api_state) (x : pystr) : api_state :=
  {| code_storage := code_storage s; current_svg_url := x;
     current_mermaid_code := current_mermaid_code s;
     tw_globals := tw_globals s |}.

Definition set_tw_globals (s : api_state) (g : tw_state) : api_state :=
  {| code_storage := code_storage s; current_svg_url := current_svg_url s;
     current_mermaid_code := current_mermaid_code s; tw_globals := g |}.

(** ** apicodenew2.py: responses *)

Record submit_response : Type := mkSubmitResponse {
  sr_success : bool;
  sr_session_id : pystr;
  sr_message : pystr;
  sr_code_length : Z;
  sr_lines : Z
}.

Record language_response : Type := mkLanguageResponse {
  lr_success : bool;
  lr_session_id : pystr;
  lr_language : pystr;
  lr_message : pystr
}.

Record session_response : Type := mkSessionResponse {
  gr_session_id : pystr;
  gr_has_code : bool;
  gr_language : pystr;
  gr_code_length : Z;
  gr_lines : Z
}.

Record delete_response : Type := mkDeleteResponse {
  dr_success : bool;
  dr_message : pystr
}.

Record current_response : Type := mkCurrentResponse {
  cr_svg_url : pystr;
  cr_mermaid_code : pystr
}.

(** The [analysis] dictionary of a run. *)
Record analysis : Type := mkAnalysis {
  a_total_complexity : Z;
  a_function_count : Z;
  a_total_lines : Z;
  a_chunks : Z;
  a_language : pystr
}.

(** The result of a run ([FlowchartResponse]); the status trace, a text for
    the reader built next to the computation, is left out. *)
Record flowchart_response : Type := mkFlowchartResponse {
  fr_success : bool;
  fr_html_svg : html;
  fr_mermaid_code : pystr;
  fr_svg_url : pystr;
  fr_analysis : analysis;
  fr_session_id : pystr
}.

Definition set_session_id (r : flowchart_response) (sid : pystr)
    : flowchart_response :=
  {| fr_success := fr_success r; fr_html_svg := fr_html_svg r;
     fr_mermaid_code := fr_mermaid_code r; fr_svg_url := fr_svg_url r;
     fr_analysis := fr_analysis r; fr_session_id := sid |}.

(** ** apicodenew2.py: handlers *)

(** A handler returns a response or raises, and leaves a state. *)
Definition handler (A : Type) : Type := api_state -> result A * api_state.

(** [try: body  except Exception as e: raise HTTPException(500, prefix + str(e))]:
    every exception of the body, an [HTTPException] too, is caught. *)
Definition except_Exception_500 {A} (prefix : pystr)
    (r : result A * api_state) : result A * api_state :=
  match r with
  | (Raise e, s) => (Raise (HTTPException 500 (prefix ++ exn_str e)), s)
  | ok => ok
  end.

(** [try: body  except HTTPException: raise
    except Exception as e: raise HTTPException(500, prefix + str(e))] *)
Definition except_HTTPException_reraise_500 {A} (prefix : pystr)
    (r : result A * api_state) : result A * api_state :=
  match r with
  | (Raise (HTTPException c d), s) => (Raise (HTTPException c d), s)
  | (Raise e, s) => (Raise (HTTPException 500 (prefix ++ exn_str e)), s)
  | ok => ok
  end.

(** [not code or not code.strip()] *)
Definition is_blank (code : pystr) : bool :=
  negb (truthy code) || negb (truthy (strip code)).

(** [submit_code(code)]; [fresh_id] is what [generate_session_id()], a
    random UUID, returns in this call. *)
Definition submit_code (fresh_id : pystr) (code : pystr)
    : handler submit_response :=
  fun s =>
    except_Exception_500 (lit "Error submitting code: ")
      (if is_blank code
       then (Raise (HTTPException 400 (lit "Code cannot be empty")), s)
       else
         let session_id := fresh_id in
         let s := set_code_storage s
                    (<[session_id := {| s_code := code; s_language := lit "auto" |}]>
                       (code_storage s)) in
         (Ok {| sr_success := true; sr_session_id := session_id;
                sr_message := lit "Code submitted successfully";
                sr_code_length := len code;
                sr_lines := len (splitlines code) |}, s)).

Definition valid_languages : list pystr :=
  [lit "auto"; lit "python"; lit "javascript"; lit "c"].

(** [set_language(session_id, language)] *)
Definition set_language (session_id language : pystr)
    : handler language_response :=
  fun s =>
    match code_storage s !! session_id with
    | None => (Raise (HTTPException 404 (lit "Session not found")), s)
    | Some entry =>
        if negb (str_in language valid_languages)
        then (Raise (HTTPException 400
                       (lit "Invalid language. Choose from: "
                          ++ join (lit ", ") valid_languages)), s)
        else
          let s := set_code_storage s
                     (<[session_id := {| s_code := s_code entry;
                                         s_language := language |}]>
                        (code_storage s)) in
          (Ok {| lr_success := true; lr_session_id := session_id;
                 lr_language := language;
                 lr_message := lit "Language set successfully" |}, s)
    end.

(** [get_session(session_id)] *)
Definition get_session (session_id : pystr) : handler session_response :=
  fun s =>
    match code_storage s !! session_id with
    | None => (Raise (HTTPException 404 (lit "Session not found")), s)
    | Some session_data =>
        (Ok {| gr_session_id := session_id;
               gr_has_code := truthy (s_code session_data);
               gr_language := s_language session_data;
               gr_code_length := len (s_code session_data);
               gr_lines := len (splitlines (s_code session_data)) |}, s)
    end.

(** [delete_session(session_id)] *)
Definition delete_session (session_id : pystr) : handler delete_response :=
  fun s =>
    match code_storage s !! session_id with
    | None => (Raise (HTTPException 404 (lit "Session not found")), s)
    | Some _ =>
        let s := set_code_storage s (delete session_id (code_storage s)) in
        (Ok {| dr_success := true;
               dr_message := lit "Session deleted successfully" |}, s)
    end.

(** [get_current()] *)
Definition get_current : handler current_response :=
  fun s =>
    if negb (truthy (current_svg_url s))
    then (Raise (HTTPException 404 (lit "No flowchart generated yet")), s)
    else (Ok {| cr_svg_url := current_svg_url s;
                cr_mermaid_code := current_mermaid_code s |}, s).

(** [process_code_internal(code, language)]: the diagram is built, stored in
    [current_mermaid_code], rendered, and only then encoded into the URL
    that [current_svg_url] receives.  The audit record written to the log
    directory is left out; its own [try] keeps its failures inside. *)
Definition process_code_internal (ps : parsers) (llm : Z -> llm_oracle)
    (code language : pystr) : handler flowchart_response :=
  fun s =>
    match build_diagram ps llm code language with
    | Raise e => (Raise e, s)
    | Ok b =>
        let structure := b_structure b in
        let chunks := b_chunks b in
        let lang := b_lang b in
        let final_mermaid := b_final_mermaid b in
        let s := set_current_mermaid_code s final_mermaid in
        let '(html_svg, g) := mermaid_to_svg final_mermaid (tw_globals s) in
        let s := set_tw_globals s g in
        match utf8_encode final_mermaid with
        | Raise e => (Raise e, s)
        | Ok bs =>
            let encoded := ascii_decode (urlsafe_b64encode bs) in
            let s := set_current_svg_url s (svg_prefix ++ encoded) in
            let total_complexity := pysum (map c_complexity chunks) in
            let analysis :=
              {| a_total_complexity := total_complexity;
                 a_function_count := function_count structure;
                 a_total_lines := total_lines structure;
                 a_chunks := len chunks;
                 a_language := lang |} in
            (Ok {| fr_success := true; fr_html_svg := html_svg;
                   fr_mermaid_code := final_mermaid;
                   fr_svg_url := current_svg_url s;
                   fr_analysis := analysis;
                   fr_session_id := [] |}, s)
        end
    end.

(** [generate_flowchart_by_session(session_id)] *)
Definition generate_flowchart_by_session (ps : parsers) (llm : Z -> llm_oracle)
    (session_id : pystr) : handler flowchart_response :=
  fun s =>
    match code_storage s !! session_id with
    | None =>
        (Raise (HTTPException 404 (lit "Session not found. Submit code first.")), s)
    | Some session_data =>
        let code := s_code session_data in
        let language := s_language session_data in
        except_Exception_500 (lit "Error generating flowchart: ")
          (match process_code_internal ps llm code language s with
           | (Ok r, s) => (Ok (set_session_id r session_id), s)
           | (Raise e, s) => (Raise e, s)
           end)
    end.

(** [generate_flowchart(code, language)], the all-in-one endpoint. *)
Definition generate_flowchart (ps : parsers) (llm : Z -> llm_oracle)
    (code language : pystr) : handler flowchart_response :=
  fun s =>
    except_HTTPException_reraise_500 (lit "Error processing code: ")
      (if is_blank code
       then (Raise (HTTPException 400 (lit "Code cannot be empty")), s)
       else
         match process_code_internal ps llm code language s with
         | (Ok r, s) => (Ok (set_session_id r (lit "direct")), s)
         | (Raise e, s) => (Raise e, s)
         end).

(** ** The server as a state machine *)

(** The requests that the handlers above serve, with the outside values each
    one consumes (the fresh identifier, the parsers and the model). *)
Inductive request : Type :=
| SubmitCode (fresh_id code : pystr)
| SetLanguage (session_id language : pystr)
| GenerateBySession (ps : parsers) (llm : Z -> llm_oracle) (session_id : pystr)
| Generate (ps : parsers) (llm : Z -> llm_oracle) (code language : pystr)
| GetSession (session_id : pystr)
| DeleteSession (session_id : pystr)
| GetCurrent.

(** The state after a request. *)
Definition step (s : api_state) (r : request) : api_state :=
  match r with
  | SubmitCode fresh_id code => snd (submit_code fresh_id code s)
  | SetLanguage sid language => snd (set_language sid language s)
  | GenerateBySession ps llm sid => snd (generate_flowchart_by_session ps llm sid s)
  | Generate ps llm code language => snd (generate_flowchart ps llm code language s)
  | GetSession sid => snd (get_session sid s)
  | DeleteSession sid => snd (delete_session sid s)
  | GetCurrent => snd (get_current s)
  end.

(** The state after a sequence of requests, served one after the other. *)
Definition run (s : api_state) (rs : list request) : api_state :=
  fold_left step rs s.

(** The diagram and URL of a request that is a successful generation. *)
Definition generated (s : api_state) (r : request) : option (pystr * pystr) :=
  match r with
  | GenerateBySession ps llm sid =>
      match fst (generate_flowchart_by_session ps llm sid s) with
      | Ok resp => Some (fr_mermaid_code resp, fr_svg_url resp)
      | Raise _ => None
      end
  | Generate ps llm code language =>
      match fst (generate_flowchart ps llm code language s) with
      | Ok resp => Some (fr_mermaid_code resp, fr_svg_url resp)
      | Raise _ => None
      end
  | _ => None
  end.

(** The diagram and URL of the most recent successful generation among the
    requests [rs], served from state [s]; [last] is the one known so far. *)
Fixpoint last_generated (s : api_state) (rs : list request)
    (last : option (pystr * pystr)) : option (pystr * pystr) :=
  match rs with
  | [] => last
  | r :: rs' =>
      last_generated (step s r) rs'
        (match generated s r with Some g => Some g | None => last end)
  end.

(** ** Definitions that the statements below use *)

(** The sum of the complexities of the extracted functions, by recursion on
    the list. *)
Fixpoint total_complexity (fs : list FunctionInfo) : Z :=
  match fs with
  | [] => 0
  | f :: fs' => f_complexity f + total_complexity fs'
  end.

(** The per-function chunk of an extracted function: it carries the unit's
    code, name, complexity, calls and flags. *)
Definition is_function_chunk (f : FunctionInfo) (c : chunk) : Prop :=
  c_type c = function /\ c_code c = f_code f /\ c_name c = f_name f
  /\ c_complexity c = f_complexity f /\ c_calls c = Some (f_calls f)
  /\ c_has_loops c = Some (f_has_loops f)
  /\ c_has_conditionals c = Some (f_has_conditionals f).

(** The aggregate chunk of the top-level snippets. *)
Definition is_aggregate_chunk (snippets : list pystr) (c : chunk) : Prop :=
  c_type c = main /\ c_code c = join [nl] snippets /\ c_complexity c = 1.

(** The keywords that the complexity estimate looks for, without the
    character that bounds them. *)
Definition keywords : list pystr :=
  [lit "if"; lit "elif"; lit "for"; lit "while"; lit "and"; lit "or"].

(** [kw] occurs at the head of [s] and the character behind it is a
    bounding character. *)
Definition bounded_at (bound : N -> bool) (kw s : pystr) : bool :=
  startswith kw s
  && match drop (length kw) s with c :: _ => bound c | [] => false end.

(** The number of positions of [s] at which [kw] occurs bounded. *)
Fixpoint bounded_count (bound : N -> bool) (kw s : pystr) : Z :=
  match s with
  | [] => 0
  | _ :: t => (if bounded_at bound kw s then 1 else 0) + bounded_count bound kw t
  end.

(** One plus one for each bounded occurrence of each keyword. *)
Definition keyword_complexity (bound : N -> bool) (s : pystr) : Z :=
  1 + foldr Z.add 0 (map (fun kw => bounded_count bound kw s) keywords).

(** The space character U+0020, the bound that the code asks for. *)
Definition is_space (c : N) : bool := (c =? 32)%N.

(** The number of positions of [s] at which [sub] occurs. *)
Fixpoint pos_count (sub s : pystr) : Z :=
  match s with
  | [] => 0
  | _ :: t => (if startswith sub s then 1 else 0) + pos_count sub t
  end.

(** No proper, non-empty suffix of [sub] is a prefix of [sub]: two
    occurrences of such a text cannot overlap. *)
Definition unbordered (sub : pystr) : bool :=
  forallb (fun j => negb (startswith (drop j sub) sub))
          (seq 1 (length sub - 1)).

(** Example inputs. *)
Definition example_function : FunctionInfo :=
  FunctionInfo_init (lit "f") 0 2
    (lit "def f(x):" ++ [nl] ++ lit "    if x and x: return 1" ++ [nl]
       ++ lit "    return 0")
    false true [].

Definition example_small : structure :=
  {| functions := [example_function]; main_code := [lit "y = f(1)"];
     total_lines := 4; function_count := 1; chunks := None |}.

Definition example_large : structure :=
  {| functions := [example_function; example_function];
     main_code := [lit "y = f(1)"; lit "z = f(2)"];
     total_lines := 501; function_count := 2; chunks := None |}.

(** The first line of the subgraph block number [i] with label [label]. *)
Definition subgraph_header (i : Z) (label : pystr) : pystr :=
  lit "    subgraph SUB" ++ str_of_Z i ++ lit "[" ++ label ++ lit "]".

(** One more level of indentation: four spaces in front of a line. *)
Definition indent (line : pystr) : pystr := lit "    " ++ line.

(** The subgraph block number [i], with label [label], of the fragment
    [flowchart]: the header, the kept lines of the fragment with one more
    level of indentation, and the closing line. *)
Definition subgraph_block (i : Z) (label flowchart : pystr) : list pystr :=
  [subgraph_header i label]
  ++ map indent (chunk_lines_of flowchart)
  ++ [lit "    end"].

(** The blocks of a list of chunks and fragments, numbered from [i]. *)
Fixpoint blocks_from (i : Z) (cfs : list (chunk * pystr)) : list (list pystr) :=
  match cfs with
  | [] => []
  | (c, f) :: cfs' => subgraph_block i (c_name c) f :: blocks_from (i + 1) cfs'
  end.

(** The edge from subgraph [i] to the next one. *)
Definition chain_edge (i : Z) : pystr :=
  lit "    SUB" ++ str_of_Z i ++ lit " --> SUB" ++ str_of_Z (i + 1).

(** The chain of edges over [n] subgraphs: from the start node, from each
    subgraph to the next, and to the end node. *)
Definition chain_edges (n : Z) : list pystr :=
  [lit "    START --> SUB0"]
  ++ map chain_edge (range (n - 1))
  ++ [lit "    SUB" ++ str_of_Z (n - 1) ++ lit " --> END([Program End])"].

(** Two chunks and two fragments. *)
Definition example_chunk (name : pystr) : chunk :=
  {| c_type := function; c_code := lit "pass"; c_name := name;
     c_complexity := 1; c_calls := Some []; c_has_loops := Some false;
     c_has_conditionals := Some false |}.

Definition example_combined : structure :=
  {| functions := []; main_code := []; total_lines := 600;
     function_count := 0;
     chunks := Some [example_chunk (lit "load data");
                     example_chunk (lit "Main Execution")] |}.

Definition example_fragments : list pystr :=
  [lit "graph TD" ++ [nl] ++ lit "    A1([Start]) --> A2[Load]";
   lit "flowchart TD" ++ [nl] ++ [nl] ++ lit "  B1[Run]" ++ [nl]
     ++ lit "  graphics1[Draw]"].

(** The payload of a renderer URL: what follows the service's path prefix. *)
Definition url_payload (url : pystr) : option pystr :=
  if startswith svg_prefix url then Some (drop (length svg_prefix) url)
  else None.

(** A Unicode scalar value: a code point that is no surrogate. *)
Definition scalar_value (c : N) : bool :=
  ((c <? 55296) || (57343 <? c) && (c <? 1114112))%N.

(** A submission of one comment line and 501 empty lines, the tree that a
    parser returns for it (a module whose one child is the comment), and a
    model that answers every prompt with a one-node diagram.  In this
    example and the next ones the interpreter is 900 calls away from its
    recursion limit. *)
Definition example_comment_code : pystr := lit "#" ++ repeat nl 501.

Definition example_comment_tree : node :=
  Node (lit "module") true 0 501 example_comment_code
    [Node (lit "comment") true 0 0 (lit "#") []].

Definition example_parsers : parsers :=
  {| p_py := fun _ => example_comment_tree;
     p_js := fun _ => example_comment_tree;
     p_c := fun _ => example_comment_tree;
     recursion_room := 900 |}.

Definition example_llm : Z -> llm_oracle :=
  fun _ _ => Ok (lit "graph TD" ++ [nl] ++ lit "    A1([Start])").

(** The submission [x = 1] and the tree of the Python parser for it: a
    module with one expression statement, which is an assignment of an
    integer to an identifier. *)
Definition example_assignment_code : pystr := lit "x = 1".

Definition example_assignment_tree : node :=
  Node (lit "module") true 0 0 example_assignment_code
    [Node (lit "expression_statement") true 0 0 example_assignment_code
       [Node (lit "assignment") true 0 0 example_assignment_code
          [Node (lit "identifier") true 0 0 (lit "x") [];
           Node (lit "=") false 0 0 (lit "=") [];
           Node (lit "integer") true 0 0 (lit "1") []]]].

Definition example_assignment_parsers : parsers :=
  {| p_py := fun _ => example_assignment_tree;
     p_js := fun _ => example_assignment_tree;
     p_c := fun _ => example_assignment_tree;
     recursion_room := 900 |}.

(** A model whose answer is the lone surrogate U+D800, a text that Python
    holds but cannot encode. *)
Definition example_surrogate_llm : Z -> llm_oracle :=
  fun _ _ => Ok [55296%N].

(** What a generation request hands to [process_code_internal], when it gets
    that far: the direct endpoint passes its body on unless the code is
    blank, the session endpoint passes the stored entry on. *)
Definition request_input (s : api_state) (r : request)
    : option (parsers * (Z -> llm_oracle) * pystr * pystr) :=
  match r with
  | Generate ps llm code language =>
      if is_blank code then None else Some (ps, llm, code, language)
  | GenerateBySession ps llm session_id =>
      match code_storage s !! session_id with
      | Some e => Some (ps, llm, s_code e, s_language e)
      | None => None
      end
  | _ => None
  end.

(** The diagram that the request builds, if it builds one, has a UTF-8
    encoding. *)
Definition diagram_encodable (s : api_state) (r : request) : Prop :=
  match request_input s r with
  | Some (ps, llm, code, language) =>
      match build_diagram ps llm code language with
      | Ok b => exists bs, utf8_encode (b_final_mermaid b) = Ok bs
      | Raise _ => True
      end
  | None => True
  end.

(** The same for every request of a sequence served from [s]. *)
Fixpoint diagrams_encodable (s : api_state) (rs : list request) : Prop :=
  match rs with
  | [] => True
  | r :: rs' => diagram_encodable s r /\ diagrams_encodable (step s r) rs'
  end.

(** The tree of the Python parser for a function that prints the result of
    a call, followed by an assignment at top level. *)
Definition example_program_code : pystr :=
  lit "def f(x):" ++ [nl] ++ lit "    print(g(x))" ++ [nl] ++ lit "y = f(1)".

Definition example_program_tree : node :=
  Node (lit "module") true 0 2 example_program_code
    [Node (lit "function_definition") true 0 1
       (lit "def f(x):" ++ [nl] ++ lit "    print(g(x))")
       [Node (lit "def") false 0 0 (lit "def") [];
        Node (lit "identifier") true 0 0 (lit "f") [];
        Node (lit "parameters") true 0 0 (lit "(x)")
          [Node (lit "identifier") true 0 0 (lit "x") []];
        Node (lit "block") true 1 1 (lit "print(g(x))")
          [Node (lit "expression_statement") true 1 1 (lit "print(g(x))")
             [Node (lit "call") true 1 1 (lit "print(g(x))")
                [Node (lit "identifier") true 1 1 (lit "print") [];
                 Node (lit "argument_list") true 1 1 (lit "(g(x))")
                   [Node (lit "call") true 1 1 (lit "g(x)")
                      [Node (lit "identifier") true 1 1 (lit "g") [];
                       Node (lit "argument_list") true 1 1 (lit "(x)")
                         [Node (lit "identifier") true 1 1 (lit "x") []]]]]]]];
     Node (lit "expression_statement") true 2 2 (lit "y = f(1)")
       [Node (lit "assignment") true 2 2 (lit "y = f(1)")
          [Node (lit "identifier") true 2 2 (lit "y") [];
           Node (lit "call") true 2 2 (lit "f(1)")
             [Node (lit "identifier") true 2 2 (lit "f") [];
              Node (lit "argument_list") true 2 2 (lit "(1)")
                [Node (lit "integer") true 2 2 (lit "1") []]]]]].

Definition example_program_parsers : parsers :=
  {| p_py := fun _ => example_program_tree;
     p_js := fun _ => example_program_tree;
     p_c := fun _ => example_program_tree;
     recursion_room := 900 |}.

(** What holds of every snippet that [traverse] records: at most 80
    characters and no line feed. *)
Definition snippet_ok (snippet : pystr) : Prop :=
  (length snippet <= 80)%nat /\ nl ∉ snippet.

(** What holds of every function that [traverse] extracts: its complexity
    is the estimate of its code, at least 1, and none of its calls is one of
    the excluded names. *)
Definition function_ok (f : FunctionInfo) : Prop :=
  f_complexity f = calculate_complexity (f_code f)
  /\ 1 <= f_complexity f
  /\ (forall name, name ∈ f_calls f -> name ∉ builtin_calls).

(** The text with the default directive line in front, unless it starts
    with a directive already: the last step of the clean-up of a model
    answer. *)
Definition with_directive (result : pystr) : pystr :=
  if negb (startswith (lit "graph TD") result)
     && negb (startswith (lit "flowchart TD") result)
  then lit "graph TD" ++ [nl] ++ result
  else result.

(** The backquote, the character of a code fence. *)
Definition backquote : N := 96%N.

(** The exceptions that a run lets through: the encoding error of a text
    with a surrogate, the [ValueError] of [chr], the [IndexError] of an
    empty fragment list, the [RecursionError] of [find_calls] in a tree that
    is too deep. *)
Definition run_error (e : exn) : Prop :=
  e = UnicodeEncodeError \/ e = ValueError \/ e = IndexError
  \/ e = RecursionError.

(** ** apicodenew2.py: health *)

Record health_response : Type := mkHealthResponse {
  hr_status : pystr;
  hr_version : pystr;
  hr_active_sessions : Z
}.

(** [health_check()] *)
Definition health_check : handler health_response :=
  fun s =>
    (Ok {| hr_status := lit "healthy"; hr_version := lit "4.0.0";
           hr_active_sessions := Z.of_nat (size (code_storage s)) |}, s).

(** The session store after a request: only a successful submission, a
    successful choice of language and a deletion change it. *)
Definition storage_after (m : gmap pystr session) (r : request)
    : gmap pystr session :=
  match r with
  | SubmitCode fresh_id code =>
      if is_blank code then m
      else <[fresh_id := {| s_code := code; s_language := lit "auto" |}]> m
  | SetLanguage session_id language =>
      match m !! session_id with
      | Some e =>
          if str_in language valid_languages
          then <[session_id := {| s_code := s_code e; s_language := language |}]> m
          else m
      | None => m
      end
  | DeleteSession session_id => delete session_id m
  | _ => m
  end.

(** By how much a request changes the number of stored sessions. *)
Definition sessions_delta (m : gmap pystr session) (r : request) : Z :=
  match r with
  | SubmitCode fresh_id code =>
      if is_blank code then 0
      else match m !! fresh_id with Some _ => 0 | None => 1 end
  | DeleteSession session_id =>
      match m !! session_id with Some _ => -1 | None => 0 end
  | _ => 0
  end.

(** What holds of every stored session: its code is not blank and its
    language is one of the allowed ones. *)
Definition session_ok (e : session) : Prop :=
  is_blank (s_code e) = false /\ s_language e ∈ valid_languages.

(** The request neither deletes the session nor submits code under its
    identifier. *)
Definition keeps_session (session_id : pystr) (r : request) : Prop :=
  match r with
  | SubmitCode fresh_id _ => fresh_id <> session_id
  | DeleteSession sid => sid <> session_id
  | _ => True
  end.

(** ** apicodenew2.py: utility functions *)

(** [s.replace(a, b)] for a one-character [a] and any [b]. *)
Definition replace_with (a : N) (b : pystr) (s : pystr) : pystr :=
  flat_map (fun c => if (c =? a)%N then b else [c]) s.

(** [sanitize_code_to_json_string(raw_code)]: five replacements, one after
    the other, the backslash first. *)
Definition sanitize_code_to_json_string (raw_code : pystr) : pystr :=
  let json_safe := replace_with 92 [92; 92]%N raw_code in
  let json_safe := replace_with 34 [92; 34]%N json_safe in
  let json_safe := replace_with 10 [92; 110]%N json_safe in
  let json_safe := replace_with 13 [92; 114]%N json_safe in
  let json_safe := replace_with 9 [92; 116]%N json_safe in
  json_safe.

(** The payload dictionary [{"code": ..., "language": ...}]. *)
Record json_payload : Type := mkJsonPayload {
  jp_code : pystr;
  jp_language : pystr
}.

(** [create_json_payload(code_str, language)] *)
Definition create_json_payload (code_str language : pystr) : json_payload :=
  {| jp_code := code_str; jp_language := language |}.

(** The escape of one character: backslash, double quote, line feed,
    carriage return and tab get a backslash and a letter, all others stand
    for themselves. *)
Definition json_escape (c : N) : pystr :=
  (if c =? 92 then [92; 92]
   else if c =? 34 then [92; 34]
   else if c =? 10 then [92; 110]
   else if c =? 13 then [92; 114]
   else if c =? 9 then [92; 116]
   else [c])%N.

(** The character that a backslash and [x] stand for in a JSON string
    (RFC 8259, without the [\u] form). *)
Definition json_escaped (x : N) : option N :=
  (if x =? 92 then Some 92
   else if x =? 34 then Some 34
   else if x =? 47 then Some 47
   else if x =? 98 then Some 8
   else if x =? 102 then Some 12
   else if x =? 110 then Some 10
   else if x =? 114 then Some 13
   else if x =? 116 then Some 9
   else None)%N.

(** The text that the inside of a JSON string literal stands for: a double
    quote or a control character below U+0020 must not stand unescaped. *)
Fixpoint json_unescape (s : pystr) : option pystr :=
  match s with
  | [] => Some []
  | c :: t =>
      if (c =? 92)%N then
        match t with
        | [] => None
        | x :: t' =>
            c' ← json_escaped x; r ← json_unescape t'; Some (c' :: r)
        end
      else if (c =? 34)%N || (c <? 32)%N then None
      else r ← json_unescape t; Some (c :: r)
  end.

(** A character that the escaping leaves JSON able to read: no control
    character except tab, line feed and carriage return. *)
Definition json_plain (c : N) : bool :=
  ((32 <=? c) || (c =? 9) || (c =? 10) || (c =? 13))%N.

(** ** thisworks.py: opening the diagram *)

(** [open_in_browser()]: the message it returns and the URL it hands to
    [webbrowser.open], if any. *)
Definition open_in_browser (g : tw_state) : pystr * option pystr :=
  if truthy (tw_current_svg_url g)
  then ([9989%N] ++ lit " Opened in browser!", Some (tw_current_svg_url g))
  else ([9888%N; 65039%N] ++ lit " Generate flowchart first!", None).

(** A character that can stand in a URL path as it is and that URL-safe
    base64 writes: a letter, a digit, [-], [_], or the padding [=]. *)
Definition url_safe_char (c : N) : bool :=
  ((65 <=? c) && (c <=? 90) || (97 <=? c) && (c <=? 122)
   || (48 <=? c) && (c <=? 57) || (c =? 45) || (c =? 95) || (c =? 61))%N.

(** ** frontbe4.py: the page's requests and its generate button *)

Module frontbe4.

(** [response.raise_for_status(); return response.json()] inside
    [try ... except Exception: return None], for a request that the server
    received: the body of the answer of the route's handler, [None] when the
    handler raised (an [HTTPException] gives its status code, any other
    exception 500, and [raise_for_status] raises on both).  A server that
    cannot be reached, which gives [None] too, is not modelled. *)
Definition json_or_None {A} (r : result A * api_state)
    : option A * api_state :=
  match r with
  | (Ok body, s) => (Some body, s)
  | (Raise _, s) => (None, s)
  end.

(** [submit_code(code)]: the form field is sent UTF-8 encoded; a text that
    cannot be encoded raises inside [requests.post], before anything is
    sent.  The handler named on the right is the server's. *)
Definition submit_code (fresh_id code : pystr) (s : api_state)
    : option submit_response * api_state :=
  match utf8_encode code with
  | Raise _ => (None, s)
  | Ok _ => json_or_None (submit_code fresh_id code s)
  end.

(** [set_language(session_id, language)] *)
Definition set_language (session_id language : pystr) (s : api_state)
    : option language_response * api_state :=
  json_or_None (set_language session_id language s).

(** [generate_flowchart(session_id)] *)
Definition generate_flowchart (ps : parsers) (llm : Z -> llm_oracle)
    (session_id : pystr) (s : api_state)
    : option flowchart_response * api_state :=
  json_or_None (generate_flowchart_by_session ps llm session_id s).

(** The options of the language select box. *)
Definition language_options : list pystr :=
  [lit "auto"; lit "python"; lit "javascript"; lit "c"; lit "typescript"].

(** The entries of [st.session_state] that the generate button writes; the
    status trace is left out, as in [flowchart_response]. *)
Record session_state : Type := mkSessionState {
  st_session_id : option pystr;
  st_flowchart_generated : bool;
  st_svg_url : option pystr;
  st_mermaid_code : option pystr;
  st_analysis : option analysis
}.

(** The message that a click on the generate button ends with. *)
Inductive message : Type :=
| PleaseEnterCode
| FailedToSubmitCode
| FailedToSetLanguage
| FailedToGenerateFlowchart
| GeneratedSuccessfully.

(** [if generate_btn: ...]: the three requests in turn, each one made only
    when the one before gave a body with a true [success]. *)
Definition generate_btn (fresh_id : pystr) (ps : parsers)
    (llm : Z -> llm_oracle) (code_input language : pystr)
    (st : session_state) (s : api_state)
    : message * session_state * api_state :=
  if negb (truthy (strip code_input)) then (PleaseEnterCode, st, s)
  else
    match submit_code fresh_id code_input s with
    | (Some result, s) =>
        if sr_success result then
          let session_id := sr_session_id result in
          let st := {| st_session_id := Some session_id;
                       st_flowchart_generated := st_flowchart_generated st;
                       st_svg_url := st_svg_url st;
                       st_mermaid_code := st_mermaid_code st;
                       st_analysis := st_analysis st |} in
          match set_language session_id language s with
          | (Some lang_result, s) =>
              if lr_success lang_result then
                match generate_flowchart ps llm session_id s with
                | (Some flowchart_result, s) =>
                    if fr_success flowchart_result then
                      (GeneratedSuccessfully,
                       {| st_session_id := st_session_id st;
                          st_flowchart_generated := true;
                          st_svg_url := Some (fr_svg_url flowchart_result);
                          st_mermaid_code :=
                            Some (fr_mermaid_code flowchart_result);
                          st_analysis :=
                            Some (fr_analysis flowchart_result) |}, s)
                    else (FailedToGenerateFlowchart, st, s)
                | (None, s) => (FailedToGenerateFlowchart, st, s)
                end
              else (FailedToSetLanguage, st, s)
          | (None, s) => (FailedToSetLanguage, st, s)
          end
        else (FailedToSubmitCode, st, s)
    | (None, s) => (FailedToSubmitCode, st, s)
    end.

End frontbe4.

(** ** The depth of a parse tree *)

(** The number of nodes on the longest path from a node down to a leaf: the
    number of nested calls that [find_calls] makes on the node. *)
Fixpoint height (n : node) : nat :=
  match n with
  | Node _ _ _ _ _ cs =>
      S ((fix deepest (l : list node) : nat :=
            match l with
            | [] => 0%nat
            | c :: l' => Nat.max (height c) (deepest l')
            end) cs)
  end.

(** The tree that [analyze_code_structure] walks for a language tag. *)
Definition parsed_tree (ps : parsers) (lang : pystr) (code_bytes : pybytes)
    : node :=
  if str_eqb lang (lit "javascript") then p_js ps code_bytes
  else if str_eqb lang (lit "c") then p_c ps code_bytes
  else p_py ps code_bytes.

(** The node types that [traverse] takes for a function. *)
Definition function_types : list pystr :=
  [lit "function_definition"; lit "function_declaration";
   lit "method_definition"].

(** Whether every function that [traverse] meets, from a node at a depth
    on, is no deeper than the room that is left at its depth. *)
Fixpoint functions_fit (room : nat) (n : node) (depth : Z) : bool :=
  match n with
  | Node t _ _ _ _ cs =>
      (depth >? 20)
      || ((negb (str_in t function_types)
           || (height n <=? room - Z.to_nat depth)%nat)
          && (fix all (l : list node) : bool :=
                match l with
                | [] => true
                | c :: l' =>
                    (negb (is_named c) || functions_fit room c (depth + 1))
                    && all l'
                end) cs)
  end.




(** ** Diagram lines *)

(** A top-level directive line of a diagram: once stripped, the word
    [graph] or [flowchart], alone or followed by white space. *)
Definition directive_line (line : pystr) : bool :=
  existsb (fun word =>
             str_eqb (strip line) word
             || (startswith word (strip line)
                 && match drop (length word) (strip line) with
                    | c :: _ => isspace c
                    | [] => false
                    end))
          [lit "graph"; lit "flowchart"].

(** * Theorems *)

(** ** The chunk planner *)

Lemma pysum_from (l : list Z) (a : Z) :
  fold_left Z.add l a = a + fold_left Z.add l 0.
Proof.
  revert a. induction l as [|x l IH]; intros a; simpl; [lia|].
  rewrite (IH (a + x)), (IH (0 + x)). lia.
Qed.

Lemma pysum_total_complexity (fs : list FunctionInfo) :
  pysum (map f_complexity fs) = total_complexity fs.
Proof.
  unfold pysum. induction fs as [|f fs IH]; simpl; [reflexivity|].
  rewrite pysum_from, IH. reflexivity.
Qed.

(** The per-function loop appends one chunk per function, in order. *)
Lemma function_chunks_fold (fs : list FunctionInfo) (acc : list chunk) :
  exists out,
    fold_left
      (fun chunks func =>
         chunks ++ [ {| c_type := function; c_code := f_code func;
                        c_name := f_name func;
                        c_complexity := f_complexity func;
                        c_calls := Some (f_calls func);
                        c_has_loops := Some (f_has_loops func);
                        c_has_conditionals := Some (f_has_conditionals func) |} ])
      fs acc = acc ++ out
    /\ Forall2 is_function_chunk fs out.
Proof.
  revert acc. induction fs as [|f fs IH]; intros acc; simpl.
  - exists []. split; [by rewrite app_nil_r | constructor].
  - destruct (IH (acc ++ [ {| c_type := function; c_code := f_code f;
                             c_name := f_name f;
                             c_complexity := f_complexity f;
                             c_calls := Some (f_calls f);
                             c_has_loops := Some (f_has_loops f);
                             c_has_conditionals := Some (f_has_conditionals f) |} ]))
      as (out & Hout & Hall).
    eexists (_ :: out). split.
    + rewrite Hout, <- app_assoc. reflexivity.
    + constructor; [|exact Hall]. repeat split.
Qed.

Lemma split_aux_length (sep : N) (cur s : pystr) :
  len (split_aux sep cur s) = 1 + str_count s [sep].
Proof.
  unfold str_count, len. revert cur.
  induction s as [|c s IH]; intros cur; [reflexivity|].
  cbn [split_aux count_aux startswith length Nat.sub].
  rewrite andb_true_r, (N.eqb_sym sep c).
  destruct (c =? sep)%N; [cbn [length]|]; rewrite ?Nat2Z.inj_succ, IH; lia.
Qed.

(** [analyze_code_structure] step by step: encode, parse, walk, report. *)
Lemma analyze_code_structure_eq (ps : parsers) (code lang : pystr) :
  analyze_code_structure ps code lang
  = (code_bytes <- utf8_encode code ;;;
     r <- traverse (recursion_room ps) (parsed_tree ps lang code_bytes) 0
            {| x_functions := []; x_main_code := [] |} ;;;
     Ok {| functions := x_functions r;
           main_code := x_main_code r;
           total_lines := len (split_on code nl);
           function_count := len (x_functions r);
           chunks := None |}).
Proof.
  unfold analyze_code_structure, parsed_tree.
  destruct (utf8_encode code) as [bs|e]; cbn [rbind]; [|reflexivity].
  unfold str_eqb.
  destruct (bool_decide_reflect (lang = lit "python")) as [->|_];
    reflexivity.
Qed.

(** The report of the structure extractor: the line count is one more than
    the number of line feeds of the text, whatever the parser found, and the
    function count is the number of extracted functions. *)
Lemma analyze_code_structure_report (ps : parsers) (code lang : pystr)
    (st : structure) :
  analyze_code_structure ps code lang = Ok st ->
  total_lines st = 1 + str_count code [nl]
  /\ function_count st = len (functions st)
  /\ chunks st = None.
Proof.
  rewrite analyze_code_structure_eq.
  destruct (utf8_encode code) as [bs|e]; cbn [rbind]; [|discriminate].
  destruct (traverse _ _ _ _) as [r|e]; cbn [rbind]; [|discriminate].
  intros [= <-]. simpl. repeat split. apply split_aux_length.
Qed.

(** C1. With the default threshold of 500, [create_chunks] returns, for a
    reported line count of at most 500, exactly one full-submission chunk
    whose complexity is the sum of the complexities of the extracted
    functions; for a larger line count it returns one per-function chunk per
    extracted function, in extraction order, followed by the aggregate chunk
    of complexity 1 when top-level snippets were recorded and by nothing
    otherwise, so that an aggregate chunk is present if and only if a
    snippet was recorded. *)
Theorem create_chunks_plan (st : structure) (code : pystr) :
  let out := create_chunks st code default_max_chunk_size in
  (total_lines st <= 500 ->
     exists c, out = [c] /\ c_type c = full /\ c_code c = code
               /\ c_complexity c = total_complexity (functions st))
  /\ (500 < total_lines st ->
        exists per_function tail,
          out = per_function ++ tail
          /\ Forall2 is_function_chunk (functions st) per_function
          /\ (main_code st <> [] ->
                exists c, tail = [c] /\ is_aggregate_chunk (main_code st) c)
          /\ (main_code st = [] -> tail = [])
          /\ ((exists c, c ∈ out /\ c_type c = main) <-> main_code st <> [])).
Proof.
  unfold create_chunks, default_max_chunk_size. split; intros Hlines.
  - apply Z.leb_le in Hlines. rewrite Hlines. simpl.
    eexists. split; [reflexivity|]. simpl.
    rewrite pysum_total_complexity. done.
  - apply Z.leb_gt in Hlines. rewrite Hlines.
    destruct (function_chunks_fold (functions st) []) as (pf & Hpf & Hall).
    rewrite Hpf. simpl.
    assert (Hnomain : forall c, c ∈ pf -> c_type c <> main).
    { intros c Hc. apply list_elem_of_lookup in Hc as [i Hi].
      destruct (Forall2_lookup_r _ _ _ _ _ Hall Hi) as (f & _ & Hf).
      destruct Hf as (Ht & _). rewrite Ht. discriminate. }
    destruct (main_code st) as [|sn sns] eqn:Hmc; simpl.
    + exists pf, []. rewrite app_nil_r. repeat split; try done.
      * intros (c & Hc & Ht). exfalso. exact (Hnomain c Hc Ht).
    + eexists pf, [_]. repeat split; try done.
      * intros _. eexists. split; [reflexivity|]. repeat split.
      * intros _. eexists. split; [apply elem_of_app; right; apply list_elem_of_singleton; reflexivity|].
        reflexivity.
Qed.

(** ** Strings: prefixes and occurrences *)

Lemma startswith_true (p s : pystr) :
  startswith p s = true <-> exists r, s = p ++ r.
Proof.
  revert s. induction p as [|a p IH]; intros s; simpl.
  - split; [intros _; by exists s | done].
  - destruct s as [|b s].
    + split; [done | intros [r Hr]; discriminate].
    + rewrite andb_true_iff, N.eqb_eq, IH. split.
      * intros [-> [r ->]]. by exists r.
      * intros [r Hr]. injection Hr as -> ->. split; [done | by exists r].
Qed.

Lemma startswith_app (a b s : pystr) :
  startswith (a ++ b) s = startswith a s && startswith b (drop (length a) s).
Proof.
  revert s. induction a as [|x a IH]; intros s; simpl.
  - by rewrite drop_0.
  - destruct s as [|y s]; simpl.
    + by destruct (a ++ b).
    + rewrite IH. by rewrite andb_assoc.
Qed.

Lemma startswith_one (c : N) (s : pystr) :
  startswith [c] s = match s with d :: _ => (c =? d)%N | [] => false end.
Proof. destruct s as [|d s]; simpl; [done | by rewrite andb_true_r]. Qed.

(** A text that starts [a ++ r] and is as long as [p] allows makes [a] a
    prefix of [p]. *)
Lemma startswith_shorter (p a r : pystr) :
  startswith p (a ++ r) = true -> (length a <= length p)%nat ->
  startswith a p = true.
Proof.
  revert p. induction a as [|x a IH]; intros p Hp Hlen; simpl; [done|].
  destruct p as [|y p]; simpl in *; [lia|].
  apply andb_true_iff in Hp as [Hxy Hp]. apply N.eqb_eq in Hxy as ->.
  rewrite N.eqb_refl. simpl. apply IH; [done | lia].
Qed.

Lemma unbordered_spec (sub : pystr) (j : nat) :
  unbordered sub = true -> (0 < j < length sub)%nat ->
  startswith (drop j sub) sub = false.
Proof.
  unfold unbordered. rewrite forallb_forall. intros H Hj.
  specialize (H j). rewrite negb_true_iff in H. apply H.
  apply in_seq. lia.
Qed.

(** Occurrences of an unbordered text do not overlap. *)
Lemma unbordered_no_overlap (sub s : pystr) (j : nat) :
  unbordered sub = true -> startswith sub s = true ->
  (0 < j < length sub)%nat -> startswith sub (drop j s) = false.
Proof.
  intros Hu Hs Hj. apply startswith_true in Hs as [r ->].
  rewrite drop_app_le by lia.
  destruct (startswith sub (drop j sub ++ r)) eqn:E; [|done].
  apply startswith_shorter in E; [|rewrite length_drop; lia].
  rewrite unbordered_spec in E; done.
Qed.

(** The scan of [str.count], once the positions still covered by the last
    match hold no occurrence, counts the positions of the occurrences. *)
Lemma count_aux_pos_count (sub s : pystr) (skip : nat) :
  unbordered sub = true ->
  (forall i, (i < skip)%nat -> startswith sub (drop i s) = false) ->
  count_aux sub s skip = pos_count sub s.
Proof.
  intros Hu. revert skip. induction s as [|c t IH]; intros skip Hskip; simpl.
  - done.
  - destruct skip as [|k].
    + destruct (startswith sub (c :: t)) eqn:E.
      * f_equal. apply IH. intros i Hi.
        apply (unbordered_no_overlap sub (c :: t) (S i) Hu E). lia.
      * rewrite Z.add_0_l. apply IH. intros i Hi. lia.
    + pose proof (Hskip 0%nat ltac:(lia)) as H0. rewrite drop_0 in H0.
      rewrite H0, Z.add_0_l. apply IH. intros i Hi.
      apply (Hskip (S i)). lia.
Qed.

(** [str.count] of a non-empty unbordered text is the number of positions at
    which it occurs. *)
Lemma str_count_pos_count (s sub : pystr) :
  sub <> [] -> unbordered sub = true -> str_count s sub = pos_count sub s.
Proof.
  intros Hne Hu. unfold str_count. destruct sub as [|a sub]; [done|].
  apply count_aux_pos_count; [done | intros i Hi; lia].
Qed.

Lemma bounded_at_is_space (kw s : pystr) :
  bounded_at is_space kw s = startswith (kw ++ [32%N]) s.
Proof.
  unfold bounded_at, is_space. rewrite startswith_app, startswith_one.
  f_equal. destruct (drop (length kw) s); [done | apply N.eqb_sym].
Qed.

Lemma bounded_count_is_space (kw s : pystr) :
  bounded_count is_space kw s = pos_count (kw ++ [32%N]) s.
Proof.
  induction s as [|c t IH]; simpl; [done|].
  rewrite IH. f_equal. rewrite <- bounded_at_is_space. reflexivity.
Qed.

Lemma pos_count_nonneg (sub s : pystr) : 0 <= pos_count sub s.
Proof.
  induction s as [|c t IH]; simpl; [lia|].
  destruct (startswith sub (c :: t)); lia.
Qed.

Lemma find_aux_None (sub s : pystr) (i : nat) :
  find_aux sub s i = None -> pos_count sub s = 0.
Proof.
  revert i. induction s as [|c t IH]; intros i; simpl; [reflexivity|].
  destruct sub as [|a sub]; simpl; [discriminate|].
  destruct ((a =? c)%N && startswith sub t); [discriminate|].
  intros H. by rewrite (IH _ H).
Qed.

Lemma contains_false_pos_count (sub s : pystr) :
  contains sub s = false -> pos_count sub s = 0.
Proof.
  unfold contains. destruct (find_aux sub s 0) eqn:E; [done|].
  intros _. by apply find_aux_None in E.
Qed.

(** Case analysis over the six keywords: [tac] closes each case. *)
Ltac each_keyword H tac :=
  unfold keywords in H;
  repeat (apply elem_of_cons in H as [-> | H]; [tac|]);
  by apply elem_of_nil in H.

(** The count of [str.count] for each of the six literals of
    [calculate_complexity]. *)
Lemma keyword_count (code kw : pystr) :
  kw ∈ keywords ->
  str_count code (kw ++ [32%N]) = bounded_count is_space kw code.
Proof.
  intros Hkw. rewrite bounded_count_is_space.
  apply str_count_pos_count.
  - by destruct kw.
  - each_keyword Hkw ltac:(reflexivity).
Qed.

Lemma calculate_complexity_keywords (code : pystr) :
  calculate_complexity code = keyword_complexity is_space code.
Proof.
  unfold calculate_complexity, keyword_complexity, keywords.
  cbn [map foldr].
  rewrite <- !keyword_count by (unfold keywords; set_solver).
  change (lit "if" ++ [32%N]) with (lit "if ").
  change (lit "elif" ++ [32%N]) with (lit "elif ").
  change (lit "for" ++ [32%N]) with (lit "for ").
  change (lit "while" ++ [32%N]) with (lit "while ").
  change (lit "and" ++ [32%N]) with (lit "and ").
  change (lit "or" ++ [32%N]) with (lit "or ").
  lia.
Qed.

Lemma create_chunks_plan_witness :
  (exists c, create_chunks example_small (lit "x") default_max_chunk_size = [c]
             /\ c_type c = full /\ c_code c = lit "x"
             /\ c_complexity c = total_complexity (functions example_small))
  /\ (exists per_function tail,
        create_chunks example_large (lit "x") default_max_chunk_size
        = per_function ++ tail
        /\ Forall2 is_function_chunk (functions example_large) per_function
        /\ (main_code example_large <> [] ->
              exists c, tail = [c]
                        /\ is_aggregate_chunk (main_code example_large) c)
        /\ (main_code example_large = [] -> tail = [])
        /\ ((exists c, c ∈ create_chunks example_large (lit "x")
                             default_max_chunk_size /\ c_type c = main)
            <-> main_code example_large <> [])).
Proof.
  split.
  - apply (proj1 (create_chunks_plan example_small (lit "x"))). simpl. lia.
  - apply (proj2 (create_chunks_plan example_large (lit "x"))). simpl. lia.
Defined.

(** ** The complexity estimate *)

Lemma contains_prefix_false (a b s : pystr) :
  contains a s = false -> contains (a ++ b) s = false.
Proof.
  unfold contains. generalize 0%nat as i.
  induction s as [|c t IH]; intros i; simpl.
  - rewrite startswith_app. destruct (startswith a []); [discriminate|].
    reflexivity.
  - rewrite startswith_app. destruct (startswith a (c :: t)); [discriminate|].
    simpl. apply IH.
Qed.

Lemma calculate_complexity_one (code : pystr) :
  (forall kw, kw ∈ keywords -> contains (kw ++ [32%N]) code = false) ->
  calculate_complexity code = 1.
Proof.
  intros Hnone. rewrite calculate_complexity_keywords.
  unfold keyword_complexity, keywords. cbn [map foldr].
  rewrite !bounded_count_is_space.
  rewrite !contains_false_pos_count
    by (apply Hnone; unfold keywords; set_solver).
  reflexivity.
Qed.

Lemma calculate_complexity_mono (code code' : pystr) :
  (forall kw, kw ∈ keywords ->
     bounded_count is_space kw code <= bounded_count is_space kw code') ->
  calculate_complexity code <= calculate_complexity code'.
Proof.
  intros Hle. rewrite !calculate_complexity_keywords.
  unfold keyword_complexity, keywords. cbn [map foldr].
  pose proof (Hle (lit "if") ltac:(unfold keywords; set_solver)).
  pose proof (Hle (lit "elif") ltac:(unfold keywords; set_solver)).
  pose proof (Hle (lit "for") ltac:(unfold keywords; set_solver)).
  pose proof (Hle (lit "while") ltac:(unfold keywords; set_solver)).
  pose proof (Hle (lit "and") ltac:(unfold keywords; set_solver)).
  pose proof (Hle (lit "or") ltac:(unfold keywords; set_solver)).
  lia.
Qed.

(** C2, as amended.  The complexity estimate is one plus, for each of the
    six keywords, the number of positions at which the keyword occurs
    immediately followed by one space character (U+0020); such occurrences
    of one keyword never overlap, the comparison is case-sensitive, and the
    character in front of the keyword is not looked at.  It is 1 for every
    text in which no keyword is followed by a space, and a text with at
    least as many such occurrences of each keyword has at least the same
    estimate. *)
Theorem calculate_complexity_estimate (code : pystr) :
  calculate_complexity code = keyword_complexity is_space code
  /\ ((forall kw, kw ∈ keywords -> contains (kw ++ [32%N]) code = false) ->
      calculate_complexity code = 1)
  /\ (forall code',
        (forall kw, kw ∈ keywords ->
           bounded_count is_space kw code <= bounded_count is_space kw code') ->
        calculate_complexity code <= calculate_complexity code').
Proof.
  split; [apply calculate_complexity_keywords|]. split.
  - apply calculate_complexity_one.
  - intros code'. apply calculate_complexity_mono.
Qed.

Lemma calculate_complexity_estimate_witness :
  calculate_complexity (lit "x = 1") = 1
  /\ calculate_complexity (lit "x = 1")
     <= calculate_complexity (lit "if x or y: pass").
Proof.
  destruct (calculate_complexity_estimate (lit "x = 1")) as (_ & Hone & Hmono).
  split.
  - apply Hone. intros kw Hkw. each_keyword Hkw ltac:(reflexivity).
  - apply Hmono. intros kw Hkw.
    each_keyword Hkw ltac:(apply Z.leb_le; reflexivity).
Defined.

(** The text [a or], a line feed, [b]: the keyword is bounded by white
    space, yet it is not followed by a space, and the estimate stays 1. *)
Lemma calculate_complexity_whitespace_counterexample :
  keyword_complexity isspace (lit "a or" ++ [nl] ++ lit "b") = 2
  /\ calculate_complexity (lit "a or" ++ [nl] ++ lit "b") = 1.
Proof. split; reflexivity. Qed.

(** Two occurrences of a keyword with its space never overlap: behind the
    start of one, no other starts before its space is passed. *)
Lemma keyword_occurrences_disjoint (kw s : pystr) (j : nat) :
  kw ∈ keywords -> bounded_at is_space kw s = true ->
  (0 < j <= length kw)%nat -> bounded_at is_space kw (drop j s) = false.
Proof.
  intros Hkw Hs Hj. rewrite bounded_at_is_space in *.
  apply unbordered_no_overlap; [|done|rewrite length_app; simpl; lia].
  each_keyword Hkw ltac:(reflexivity).
Qed.

(** The comparison looks at the text from the keyword on only: [elif] with
    its space is counted as [if] with its space too, and [for] as [or]. *)
Lemma calculate_complexity_inner_keywords :
  calculate_complexity (lit "elif x:") = 3
  /\ calculate_complexity (lit "for x in y:") = 3
  /\ calculate_complexity (lit "IF x AND y") = 1.
Proof. repeat split; reflexivity. Qed.

(** A text without any of the keywords has the estimate 1. *)
Lemma calculate_complexity_no_keyword (code : pystr) :
  (forall kw, kw ∈ keywords -> contains kw code = false) ->
  calculate_complexity code = 1.
Proof.
  intros H. apply calculate_complexity_one.
  intros kw Hkw. apply contains_prefix_false, H, Hkw.
Qed.

(** The estimate never decreases when text is appended. *)
Lemma pos_count_app (sub s t : pystr) :
  pos_count sub s <= pos_count sub (s ++ t).
Proof.
  induction s as [|c s IH]; simpl; [apply pos_count_nonneg|].
  destruct (startswith sub (c :: s)) eqn:E.
  - apply startswith_true in E as [r E].
    assert (startswith sub (c :: s ++ t) = true) as ->; [|lia].
    apply startswith_true. exists (r ++ t).
    change (c :: s ++ t) with ((c :: s) ++ t). rewrite E.
    by rewrite app_assoc.
  - destruct (startswith sub (c :: s ++ t)); lia.
Qed.

Lemma calculate_complexity_app (code more : pystr) :
  calculate_complexity code <= calculate_complexity (code ++ more).
Proof.
  apply calculate_complexity_mono. intros kw _.
  rewrite !bounded_count_is_space. apply pos_count_app.
Qed.

(** ** The diagram combiner *)

Lemma fold_add_subgraph (cfs : list (chunk * pystr)) (i : Z) (lines : list pystr) :
  fold_left add_subgraph cfs (i, lines)
  = (i + len cfs, lines ++ concat (blocks_from i cfs)).
Proof.
  revert i lines. induction cfs as [|[c f] cfs IH]; intros i lines.
  - simpl. unfold len. simpl. by rewrite Z.add_0_r, app_nil_r.
  - cbn [fold_left add_subgraph blocks_from concat]. rewrite IH.
    f_equal.
    + unfold len. simpl length. lia.
    + unfold subgraph_block, subgraph_header, indent.
      rewrite <- !app_assoc. reflexivity.
Qed.

Lemma fold_append_map {A B} (g : A -> B) (l : list A) (acc : list B) :
  fold_left (fun lines i => lines ++ [g i]) l acc = acc ++ map g l.
Proof.
  revert acc. induction l as [|x l IH]; intros acc; simpl.
  - by rewrite app_nil_r.
  - rewrite IH, <- app_assoc. reflexivity.
Qed.

(** The lines that [combine_flowcharts] joins: the two leading lines, the
    blocks and the chain. *)
Lemma combine_lines_shape (cs : list chunk) (fcs : list pystr) :
  combine_lines cs fcs
  = [lit "graph TD"; lit "    START([Program Start])"]
    ++ concat (blocks_from 0 (zip cs fcs)) ++ chain_edges (len fcs).
Proof.
  unfold combine_lines. rewrite fold_add_subgraph. cbn [snd].
  rewrite (fold_append_map chain_edge).
  unfold chain_edges. rewrite <- !app_assoc. reflexivity.
Qed.

Lemma blocks_from_length (i : Z) (cfs : list (chunk * pystr)) :
  length (blocks_from i cfs) = length cfs.
Proof.
  revert i. induction cfs as [|[c f] cfs IH]; intros i; simpl; [done|].
  by rewrite IH.
Qed.

Lemma blocks_from_lookup (i : Z) (cfs : list (chunk * pystr)) (k : nat)
    (c : chunk) (f : pystr) :
  cfs !! k = Some (c, f) ->
  blocks_from i cfs !! k = Some (subgraph_block (i + Z.of_nat k) (c_name c) f).
Proof.
  revert i k. induction cfs as [|[c' f'] cfs IH]; intros i k Hk; [done|].
  destruct k as [|k].
  - simpl in *. injection Hk as -> ->. by rewrite Z.add_0_r.
  - cbn [blocks_from]. rewrite lookup_cons_ne_0 by done.
    rewrite lookup_cons_ne_0 in Hk by done. simpl pred in *.
    rewrite (IH (i + 1) k Hk). do 2 f_equal. lia.
Qed.

Lemma range_length (n : Z) : length (range n) = Z.to_nat n.
Proof. unfold range. by rewrite length_map, length_seq. Qed.

Lemma range_lookup (n : Z) (i : nat) :
  (i < Z.to_nat n)%nat -> range n !! i = Some (Z.of_nat i).
Proof.
  intros Hi. unfold range. rewrite list_lookup_fmap.
  rewrite lookup_seq_lt by done. reflexivity.
Qed.

Lemma chain_edges_length (n : Z) :
  1 <= n -> length (chain_edges n) = S (Z.to_nat n).
Proof.
  intros Hn. unfold chain_edges.
  rewrite !length_app, length_map, range_length. simpl. lia.
Qed.

Lemma chain_edges_first (n : Z) :
  chain_edges n !! 0%nat = Some (lit "    START --> SUB0").
Proof. reflexivity. Qed.

Lemma chain_edges_middle (n : Z) (i : nat) :
  (S i < Z.to_nat n)%nat ->
  chain_edges n !! S i = Some (chain_edge (Z.of_nat i)).
Proof.
  intros Hi. unfold chain_edges. 
  rewrite lookup_app_r by (simpl; lia). simpl length.
  rewrite lookup_app_l by (rewrite length_map, range_length; lia).
  rewrite list_lookup_fmap, range_lookup by lia.
  replace (S i - 1)%nat with i by lia. reflexivity.
Qed.

Lemma chain_edges_last (n : Z) :
  1 <= n ->
  chain_edges n !! Z.to_nat n
  = Some (lit "    SUB" ++ str_of_Z (n - 1) ++ lit " --> END([Program End])").
Proof.
  intros Hn. unfold chain_edges.
  rewrite lookup_app_r by (simpl; lia). simpl length.
  rewrite lookup_app_r by (rewrite length_map, range_length; lia).
  rewrite length_map, range_length.
  replace (Z.to_nat n - 1 - Z.to_nat (n - 1))%nat with 0%nat by lia.
  reflexivity.
Qed.

Lemma combine_flowcharts_many (fcs : list pystr) (cs : list chunk)
    (st : structure) :
  chunks st = Some cs -> length fcs <> 1%nat ->
  combine_flowcharts fcs st
  = Ok (join [nl]
          ([lit "graph TD"; lit "    START([Program Start])"]
           ++ concat (blocks_from 0 (zip cs fcs)) ++ chain_edges (len fcs))).
Proof.
  intros Hcs Hlen. unfold combine_flowcharts. rewrite Hcs.
  rewrite combine_lines_shape.
  destruct fcs as [|f1 [|f2 fcs]]; simpl in Hlen; done.
Qed.

(** The generation loop returns one fragment per chunk. *)
Lemma generate_all_length (llm : Z -> llm_oracle) (cs : list chunk)
    (i total : Z) (acc out : list pystr) :
  generate_all llm cs i total acc = Ok out ->
  length out = (length acc + length cs)%nat.
Proof.
  revert i acc. induction cs as [|c cs IH]; intros i acc; simpl.
  - intros [= <-]. lia.
  - destruct (generate_flowchart_for_chunk (llm i) c i total) as [fc|e];
      simpl; [|discriminate].
    intros H. apply IH in H. rewrite length_app in H. simpl in H. lia.
Qed.

(** [join] with a line feed, written out: every line after the first one
    follows a line feed. *)
Lemma join_nl_text (x : pystr) (rest : list pystr) :
  join [nl] (x :: rest) = x ++ concat (map (cons nl) rest).
Proof.
  revert x. induction rest as [|y rest IH]; intros x.
  - simpl. by rewrite app_nil_r.
  - change (join [nl] (x :: y :: rest)) with (x ++ [nl] ++ join [nl] (y :: rest)).
    rewrite IH. reflexivity.
Qed.

(** The text that [combine_flowcharts] returns for more or fewer than one
    fragment. *)
Lemma combine_flowcharts_text (fcs : list pystr) (cs : list chunk)
    (st : structure) :
  chunks st = Some cs -> length fcs <> 1%nat ->
  combine_flowcharts fcs st
  = Ok (lit "graph TD"
        ++ concat (map (cons nl)
                     (lit "    START([Program Start])"
                      :: concat (blocks_from 0 (zip cs fcs))
                      ++ chain_edges (len fcs)))).
Proof.
  intros Hcs Hlen. rewrite (combine_flowcharts_many fcs cs st Hcs Hlen).
  f_equal. apply (join_nl_text (lit "graph TD")).
Qed.

Lemma blocks_from_lookup_0 (cs : list chunk) (fcs : list pystr) (i : nat)
    (c : chunk) (f : pystr) :
  cs !! i = Some c -> fcs !! i = Some f ->
  blocks_from 0 (zip cs fcs) !! i
  = Some (subgraph_block (Z.of_nat i) (c_name c) f).
Proof.
  intros Hc Hf. rewrite (blocks_from_lookup 0 (zip cs fcs) i c f).
  - by rewrite Z.add_0_l.
  - apply lookup_zip_with_Some. by exists c, f.
Qed.

Lemma chain_edges_final (n : Z) :
  last (chain_edges n)
  = Some (lit "    SUB" ++ str_of_Z (n - 1) ++ lit " --> END([Program End])").
Proof. unfold chain_edges. rewrite !app_assoc. apply last_snoc. Qed.

(** C3. [combine_flowcharts] returns a single fragment unchanged.  Given
    [N > 1] fragments, with their [N] chunks in the structure, its output is
    the text of these lines, each after the first one behind a line feed:
    the two leading lines, [N] subgraph blocks and [N + 1] edges.  Block [i]
    is the subgraph numbered [i], labelled with the name of chunk [i] and
    made from fragment [i]; the edges lead from the start node to subgraph
    0, from each subgraph to the next one, and from the last subgraph to
    the end node. *)
Theorem combine_flowcharts_chain :
  (forall (f : pystr) (st : structure), combine_flowcharts [f] st = Ok f)
  /\ (forall (fcs : list pystr) (cs : list chunk) (st : structure),
        chunks st = Some cs -> length cs = length fcs ->
        (1 < length fcs)%nat ->
        exists blocks edges,
          combine_flowcharts fcs st
          = Ok (lit "graph TD"
                ++ concat (map (cons nl)
                             (lit "    START([Program Start])"
                              :: concat blocks ++ edges)))
          /\ length blocks = length fcs
          /\ (forall (i : nat) (c : chunk) (f : pystr),
                cs !! i = Some c -> fcs !! i = Some f ->
                blocks !! i
                = Some ([lit "    subgraph SUB" ++ str_of_Z (Z.of_nat i)
                           ++ lit "[" ++ c_name c ++ lit "]"]
                        ++ map (fun line => lit "    " ++ line)
                             (chunk_lines_of f)
                        ++ [lit "    end"]))
          /\ length edges = S (length fcs)
          /\ edges !! 0%nat = Some (lit "    START --> SUB0")
          /\ (forall i : nat,
                (S i < length fcs)%nat ->
                edges !! S i
                = Some (lit "    SUB" ++ str_of_Z (Z.of_nat i) ++ lit " --> SUB"
                          ++ str_of_Z (Z.of_nat i + 1)))
          /\ edges !! length fcs
             = Some (lit "    SUB" ++ str_of_Z (len fcs - 1)
                       ++ lit " --> END([Program End])")).
Proof.
  split; [reflexivity|].
  intros fcs cs st Hcs Hlen HN.
  exists (blocks_from 0 (zip cs fcs)), (chain_edges (len fcs)).
  assert (Hn : Z.to_nat (len fcs) = length fcs) by (unfold len; lia).
  split; [apply combine_flowcharts_text; [done | lia]|].
  split; [rewrite blocks_from_length, length_zip_with; lia|].
  split; [intros i c f Hc Hf; by apply blocks_from_lookup_0|].
  split; [rewrite chain_edges_length; unfold len; lia|].
  split; [apply chain_edges_first|].
  split.
  - intros i Hi. apply chain_edges_middle. lia.
  - rewrite <- Hn. apply chain_edges_last. unfold len. lia.
Qed.

Lemma combine_flowcharts_chain_witness :
  combine_flowcharts example_fragments example_combined
  = Ok (lit "graph TD" ++ [nl]
        ++ lit "    START([Program Start])" ++ [nl]
        ++ lit "    subgraph SUB0[load data]" ++ [nl]
        ++ lit "        A1([Start]) --> A2[Load]" ++ [nl]
        ++ lit "    end" ++ [nl]
        ++ lit "    subgraph SUB1[Main Execution]" ++ [nl]
        ++ lit "      B1[Run]" ++ [nl]
        ++ lit "    end" ++ [nl]
        ++ lit "    START --> SUB0" ++ [nl]
        ++ lit "    SUB0 --> SUB1" ++ [nl]
        ++ lit "    SUB1 --> END([Program End])").
Proof.
  destruct (proj2 combine_flowcharts_chain example_fragments
              [example_chunk (lit "load data");
               example_chunk (lit "Main Execution")]
              example_combined eq_refl eq_refl)
    as (blocks & edges & Hout & Hb & Hblock & He & He0 & Hmid & Hlast).
  - simpl. lia.
  - rewrite Hout.
    destruct blocks as [|b0 [|b1 [|b2 blocks]]]; try discriminate Hb.
    destruct edges as [|e0 [|e1 [|e2 [|e3 edges]]]]; try discriminate He.
    pose proof (Hblock 0%nat _ _ eq_refl eq_refl) as H0.
    pose proof (Hblock 1%nat _ _ eq_refl eq_refl) as H1.
    pose proof (Hmid 0%nat ltac:(simpl; lia)) as Hm.
    injection H0 as ->. injection H1 as ->. injection He0 as ->.
    injection Hm as ->. injection Hlast as ->.
    vm_compute. reflexivity.
Defined.

(** The block of fragment [i], where it stands in the output: behind the
    header with the subgraph identifier and the chunk's name as it is, the
    lines that the comprehension keeps, and the closing line. *)
Lemma combine_flowcharts_block (fcs : list pystr) (cs : list chunk)
    (st : structure) (i : nat) (c : chunk) (f : pystr) :
  chunks st = Some cs -> (1 < length fcs)%nat ->
  cs !! i = Some c -> fcs !! i = Some f ->
  exists before after,
    combine_flowcharts fcs st
    = Ok (lit "graph TD"
          ++ concat (map (cons nl)
                       (before
                        ++ [lit "    subgraph SUB" ++ str_of_Z (Z.of_nat i)
                              ++ lit "[" ++ c_name c ++ lit "]"]
                        ++ map (fun line => lit "    " ++ line)
                             (chunk_lines_of f)
                        ++ [lit "    end"]
                        ++ after))).
Proof.
  intros Hcs HN Hc Hf.
  rewrite (combine_flowcharts_text fcs cs st Hcs) by lia.
  pose proof (blocks_from_lookup_0 cs fcs i c f Hc Hf) as Hb.
  rewrite <- (take_drop_middle _ _ _ Hb), concat_app, concat_cons.
  exists (lit "    START([Program Start])"
          :: concat (take i (blocks_from 0 (zip cs fcs)))),
         (concat (drop (S i) (blocks_from 0 (zip cs fcs)))
          ++ chain_edges (len fcs)).
  unfold subgraph_block, subgraph_header, indent.
  do 3 f_equal. rewrite <- !app_assoc. reflexivity.
Qed.

(** The comprehension keeps no line that starts, once stripped, with
    [graph] or [flowchart], whether the line is a directive or not. *)
Lemma chunk_lines_of_prefixed (f line : pystr) :
  startswith_any [lit "graph"; lit "flowchart"] (strip line) = true ->
  line ∉ chunk_lines_of f.
Proof.
  intros Hp Hin. unfold chunk_lines_of in Hin.
  apply list_elem_of_filter in Hin as [Hkeep _].
  rewrite Hp in Hkeep. by destruct (truthy (strip line)).
Qed.

(** C7, the code at a fragment with a node whose identifier begins with
    [graph].  The second fragment of the example holds the line
    [graphics1[Draw]]: it is not blank and it is no directive line, since
    the word [graph] is neither alone on it nor followed by white space.
    The comprehension tests the prefix only, so the line is missing from
    the block, while its neighbour [B1[Run]] is there.  The header of the
    block carries the chunk's name [Main Execution] as it is: the name with
    its space replaced, which the loop computes, occurs nowhere. *)
Theorem combine_flowcharts_drops_node_line :
  let line := lit "  graphics1[Draw]" in
  let fragment :=
    lit "flowchart TD" ++ [nl] ++ [nl] ++ lit "  B1[Run]" ++ [nl] ++ line in
  let first := lit "graph TD" ++ [nl] ++ lit "    A1([Start]) --> A2[Load]" in
  let st :=
    {| functions := []; main_code := []; total_lines := 600;
       function_count := 0;
       chunks := Some [example_chunk (lit "load data");
                       example_chunk (lit "Main Execution")] |} in
  In line (split_on fragment nl)
  /\ truthy (strip line) = true
  /\ directive_line line = false
  /\ startswith_any [lit "graph"; lit "flowchart"] (strip line) = true
  /\ exists out,
       combine_flowcharts [first; fragment] st = Ok out
       /\ out = lit "graph TD" ++ [nl]
                ++ lit "    START([Program Start])" ++ [nl]
                ++ lit "    subgraph SUB0[load data]" ++ [nl]
                ++ lit "        A1([Start]) --> A2[Load]" ++ [nl]
                ++ lit "    end" ++ [nl]
                ++ lit "    subgraph SUB1[Main Execution]" ++ [nl]
                ++ lit "      B1[Run]" ++ [nl]
                ++ lit "    end" ++ [nl]
                ++ lit "    START --> SUB0" ++ [nl]
                ++ lit "    SUB0 --> SUB1" ++ [nl]
                ++ lit "    SUB1 --> END([Program End])"
       /\ contains (lit "B1[Run]") out = true
       /\ contains (lit "graphics1[Draw]") out = false
       /\ contains (replace_char 32 95 (lit "Main Execution")) out = false.
Proof.
  cbv zeta. split; [vm_compute; tauto|].
  split; [reflexivity|]. split; [reflexivity|]. split; [reflexivity|].
  eexists. split; [reflexivity|].
  split; [vm_compute; reflexivity|].
  repeat split; vm_compute; reflexivity.
Qed.

(** ** UTF-8 and base64 *)

Ltac Zify.zify_post_hook ::= Z.to_euclidean_division_equations.

Lemma b64_value_char (i : N) : (i < 64)%N -> b64_value (b64_char i) = Some i.
Proof.
  intros Hi.
  assert (H : forallb (fun k => bool_decide
                        (b64_value (b64_char (N.of_nat k)) = Some (N.of_nat k)))
                (seq 0 64) = true) by (vm_compute; reflexivity).
  rewrite forallb_forall in H. specialize (H (N.to_nat i)).
  rewrite N2Nat.id in H. apply bool_decide_eq_true in H; [done|].
  apply in_seq. lia.
Qed.

Lemma b64_char_not_pad (i : N) : (i < 64)%N -> (b64_char i =? b64_pad)%N = false.
Proof.
  intros Hi.
  assert (H : forallb (fun k => negb (b64_char (N.of_nat k) =? b64_pad)%N)
                (seq 0 64) = true) by (vm_compute; reflexivity).
  rewrite forallb_forall in H. specialize (H (N.to_nat i)).
  rewrite N2Nat.id in H. apply negb_true_iff, H, in_seq. lia.
Qed.

(** Induction over a list three elements at a time. *)
Lemma list_ind3 {A} (P : list A -> Prop) :
  P [] -> (forall a, P [a]) -> (forall a b, P [a; b]) ->
  (forall a b c l, P l -> P (a :: b :: c :: l)) ->
  forall l, P l.
Proof.
  intros H0 H1 H2 H3.
  assert (H : forall l, P l /\ (forall a, P (a :: l)) /\ (forall a b, P (a :: b :: l))).
  { induction l as [|x l (IH0 & IH1 & IH2)]; [by auto|].
    split; [apply IH1|]. split; [intros; apply IH2|]. intros a b. by apply H3. }
  intros l. apply H.
Qed.

(** Decoding undoes encoding, for bytes. *)
Lemma urlsafe_b64_roundtrip (bs : pybytes) :
  Forall (fun b => (b < 256)%N) bs ->
  urlsafe_b64decode (urlsafe_b64encode bs) = Some bs.
Proof.
  induction bs as [|b0|b0 b1|b0 b1 b2 rest IH] using list_ind3; intros Hall.
  - reflexivity.
  - apply Forall_cons in Hall as [H0 _].
    cbn [urlsafe_b64encode urlsafe_b64decode].
    rewrite !b64_value_char by lia. cbn [mbind option_bind].
    rewrite !N.eqb_refl. do 2 f_equal. lia.
  - apply Forall_cons in Hall as [H0 Hall].
    apply Forall_cons in Hall as [H1 _].
    cbn [urlsafe_b64encode urlsafe_b64decode].
    rewrite !b64_value_char by lia. cbn [mbind option_bind].
    rewrite N.eqb_refl, b64_char_not_pad by lia.
    do 2 f_equal; [lia|]. f_equal. lia.
  - apply Forall_cons in Hall as [H0 Hall].
    apply Forall_cons in Hall as [H1 Hall].
    apply Forall_cons in Hall as [H2 Hall].
    cbn [urlsafe_b64encode urlsafe_b64decode].
    rewrite !b64_value_char by lia. cbn [mbind option_bind].
    rewrite b64_char_not_pad by lia.
    rewrite (IH Hall). cbn [mbind option_bind].
    do 2 f_equal; [lia|]. f_equal; [lia|]. f_equal. lia.
Qed.

Lemma utf8_encode_cp_bytes (c : N) (bs : pybytes) :
  utf8_encode_cp c = Some bs -> Forall (fun b => (b < 256)%N) bs.
Proof.
  unfold utf8_encode_cp.
  destruct (N.ltb_spec c 128); [intros [= <-]; repeat constructor; lia|].
  destruct (N.ltb_spec c 2048); [intros [= <-]; repeat constructor; lia|].
  destruct (N.ltb_spec c 65536).
  { destruct ((55296 <=? c)%N && (c <=? 57343)%N); [discriminate|].
    intros [= <-]; repeat constructor; lia. }
  destruct (N.ltb_spec c 1114112); [|discriminate].
  intros [= <-]; repeat constructor; lia.
Qed.

(** The encoder produces bytes. *)
Lemma utf8_encode_bytes (s : pystr) (bs : pybytes) :
  utf8_encode s = Ok bs -> Forall (fun b => (b < 256)%N) bs.
Proof.
  revert bs. induction s as [|c s IH]; intros bs; simpl.
  - intros [= <-]. constructor.
  - destruct (utf8_encode_cp c) as [cb|] eqn:Ec; [|discriminate].
    destruct (utf8_encode s) as [rest|e]; simpl; [|discriminate].
    intros [= <-]. apply Forall_app. split.
    + by apply utf8_encode_cp_bytes in Ec.
    + by apply IH.
Qed.

Lemma utf8_encode_cp_total (c : N) :
  scalar_value c = true -> exists bs, utf8_encode_cp c = Some bs.
Proof.
  unfold scalar_value, utf8_encode_cp. intros H.
  destruct (N.ltb_spec c 128); [by eexists|].
  destruct (N.ltb_spec c 2048); [by eexists|].
  destruct (N.ltb_spec c 65536).
  - destruct (N.leb_spec 55296 c), (N.leb_spec c 57343); simpl;
      try (by eexists).
    destruct (N.ltb_spec c 55296); [lia|].
    destruct (N.ltb_spec 57343 c); [lia|]. discriminate.
  - destruct (N.ltb_spec c 1114112); [by eexists|].
    destruct (N.ltb_spec c 55296); [lia|].
    destruct (N.ltb_spec 57343 c); discriminate.
Qed.

(** Every text of scalar values has a UTF-8 encoding. *)
Lemma utf8_encode_total (s : pystr) :
  forallb scalar_value s = true -> exists bs, utf8_encode s = Ok bs.
Proof.
  induction s as [|c s IH]; simpl; [by eexists|].
  intros H. apply andb_true_iff in H as [Hc Hs].
  destruct (utf8_encode_cp_total c Hc) as [cb ->].
  destruct (IH Hs) as [rest ->]. simpl. by eexists.
Qed.

Lemma url_payload_prefix (payload : pystr) :
  url_payload (svg_prefix ++ payload) = Some payload.
Proof.
  unfold url_payload.
  assert (startswith svg_prefix (svg_prefix ++ payload) = true) as ->.
  { apply startswith_true. by exists payload. }
  by rewrite drop_app_length.
Qed.

(** The payload of the URL of a text decodes to the text's UTF-8 bytes. *)
Lemma svg_url_of_roundtrip (text url : pystr) :
  svg_url_of text = Ok url ->
  exists payload bs,
    url_payload url = Some payload /\ utf8_encode text = Ok bs
    /\ urlsafe_b64decode payload = Some bs.
Proof.
  unfold svg_url_of. destruct (utf8_encode text) as [bs|e] eqn:E; simpl;
    [|discriminate].
  intros [= <-]. exists (urlsafe_b64encode bs), bs.
  split; [apply url_payload_prefix|]. split; [done|].
  unfold ascii_decode. apply urlsafe_b64_roundtrip.
  by apply utf8_encode_bytes in E.
Qed.

(** A successful run returns the URL of the diagram source it returns. *)
Lemma process_code_internal_url (ps : parsers) (llm : Z -> llm_oracle)
    (code language : pystr) (s s' : api_state) (r : flowchart_response) :
  process_code_internal ps llm code language s = (Ok r, s') ->
  svg_url_of (fr_mermaid_code r) = Ok (fr_svg_url r)
  /\ current_svg_url s' = fr_svg_url r
  /\ current_mermaid_code s' = fr_mermaid_code r.
Proof.
  unfold process_code_internal.
  destruct (build_diagram ps llm code language) as [b|e]; [|discriminate].
  destruct (mermaid_to_svg (b_final_mermaid b) _) as [h g].
  unfold svg_url_of.
  destruct (utf8_encode (b_final_mermaid b)) as [bs|e] eqn:E; [|discriminate].
  intros [= <- <-]. simpl. rewrite E. done.
Qed.

(** C8. The encoding of the renderer can be undone: the payload of the URL
    that [mermaid_to_svg] puts into its image box, and of the URL that a
    run of [process_code_internal] returns, decodes with URL-safe base64 to
    the UTF-8 bytes of the diagram text; and every diagram text of Unicode
    scalar values gets such a URL. *)
Theorem svg_url_roundtrip :
  (forall (mermaid_code url : pystr) (g g' : tw_state),
     mermaid_to_svg mermaid_code g = (HtmlImage url, g') ->
     exists payload bs,
       url_payload url = Some payload /\ utf8_encode mermaid_code = Ok bs
       /\ urlsafe_b64decode payload = Some bs)
  /\ (forall (ps : parsers) (llm : Z -> llm_oracle) (code language : pystr)
             (s s' : api_state) (r : flowchart_response),
        process_code_internal ps llm code language s = (Ok r, s') ->
        exists payload bs,
          url_payload (fr_svg_url r) = Some payload
          /\ utf8_encode (fr_mermaid_code r) = Ok bs
          /\ urlsafe_b64decode payload = Some bs)
  /\ (forall (mermaid_code : pystr) (g : tw_state),
        forallb scalar_value mermaid_code = true ->
        exists url, fst (mermaid_to_svg mermaid_code g) = HtmlImage url).
Proof.
  split; [|split].
  - intros mermaid_code url g g'. unfold mermaid_to_svg.
    destruct (svg_url_of mermaid_code) as [u|e] eqn:E; [|discriminate].
    intros [= <- _]. by apply svg_url_of_roundtrip.
  - intros ps llm code language s s' r H.
    apply process_code_internal_url in H as (H & _).
    by apply svg_url_of_roundtrip in H.
  - intros mermaid_code g Hs. unfold mermaid_to_svg, svg_url_of.
    destruct (utf8_encode_total mermaid_code Hs) as [bs ->]. simpl.
    by eexists.
Qed.

Lemma svg_url_roundtrip_witness :
  exists payload bs,
    url_payload (lit "https://mermaid.ink/svg/Z3JhcGggVEQ=") = Some payload
    /\ utf8_encode (lit "graph TD") = Ok bs
    /\ urlsafe_b64decode payload = Some bs.
Proof.
  apply (proj1 svg_url_roundtrip (lit "graph TD")
           (lit "https://mermaid.ink/svg/Z3JhcGggVEQ=")
           (tw_globals initial_state)
           {| tw_current_svg_url := lit "https://mermaid.ink/svg/Z3JhcGggVEQ=";
              tw_current_mermaid_code := [] |}).
  reflexivity.
Defined.

(** ** Blank submissions *)

Lemma lstrip_nil (s : pystr) : lstrip s = [] <-> forallb isspace s = true.
Proof.
  induction s as [|c s IH]; simpl; [done|].
  destruct (isspace c); simpl; [exact IH | done].
Qed.

Lemma lstrip_all (s : pystr) :
  forallb isspace (lstrip s) = true -> forallb isspace s = true.
Proof.
  induction s as [|c s IH]; simpl; [done|].
  destruct (isspace c) eqn:E; simpl; [exact IH|].
  by rewrite E.
Qed.

Lemma forallb_rev {A} (p : A -> bool) (l : list A) :
  forallb p (rev l) = forallb p l.
Proof.
  induction l as [|x l IH]; simpl; [done|].
  rewrite forallb_app, IH. simpl. rewrite andb_true_r. apply andb_comm.
Qed.

Lemma strip_nil (s : pystr) : strip s = [] <-> forallb isspace s = true.
Proof.
  unfold strip, rstrip. split.
  - intros H. apply (f_equal (@rev N)) in H. rewrite rev_involutive in H.
    simpl in H. apply lstrip_nil in H. rewrite forallb_rev in H.
    by apply lstrip_all.
  - intros H. apply lstrip_nil in H. by rewrite H.
Qed.

(** A code text is rejected as blank exactly when it is empty or holds
    nothing but white space. *)
Lemma is_blank_spec (code : pystr) :
  is_blank code = true <-> forallb isspace code = true.
Proof.
  unfold is_blank. rewrite orb_true_iff, !negb_true_iff. split.
  - intros [H|H].
    + by destruct code.
    + apply strip_nil. by destruct (strip code).
  - intros H. right. apply strip_nil in H. by rewrite H.
Qed.

(** Blank code at [/submit-code]: the [HTTPException] with status 400 is
    raised inside the [try], whose [except Exception] turns it into status
    500; the store is not touched. *)
Lemma submit_code_blank (fresh_id code : pystr) (s : api_state) :
  is_blank code = true ->
  submit_code fresh_id code s
  = (Raise (HTTPException 500
              (lit "Error submitting code: 400: Code cannot be empty")), s).
Proof. intros H. unfold submit_code. rewrite H. reflexivity. Qed.

(** Blank code at [/generate]: status 400, and no global is touched. *)
Lemma generate_flowchart_blank (ps : parsers) (llm : Z -> llm_oracle)
    (code language : pystr) (s : api_state) :
  is_blank code = true ->
  generate_flowchart ps llm code language s
  = (Raise (HTTPException 400 (lit "Code cannot be empty")), s).
Proof. intros H. unfold generate_flowchart. rewrite H. reflexivity. Qed.

(** C4, the code at a blank submission.  For the code text of three spaces,
    [/submit-code] answers with status 500, the generic server error, where
    [/generate] answers the same text with status 400; neither changes the
    state. *)
Theorem submit_code_blank_is_server_error (fresh_id : pystr)
    (ps : parsers) (llm : Z -> llm_oracle) (language : pystr) (s : api_state) :
  (exists detail,
     submit_code fresh_id (lit "   ") s = (Raise (HTTPException 500 detail), s))
  /\ generate_flowchart ps llm (lit "   ") language s
     = (Raise (HTTPException 400 (lit "Code cannot be empty")), s).
Proof.
  split.
  - eexists. by apply submit_code_blank.
  - by apply generate_flowchart_blank.
Qed.

(** ** Diagram generation for one chunk *)

(** With an index whose letter exists, the call returns a diagram whatever
    the model does. *)
Lemma generate_flowchart_for_chunk_returns (llm : llm_oracle) (c : chunk)
    (chunk_index total_chunks : Z) :
  0 <= 65 + chunk_index < 1114112 ->
  exists out,
    generate_flowchart_for_chunk llm c chunk_index total_chunks = Ok out.
Proof.
  intros Hi. unfold generate_flowchart_for_chunk, build_prompt, chr.
  destruct (Z.leb_spec 0 (65 + chunk_index)); [|lia].
  destruct (Z.ltb_spec (65 + chunk_index) 1114112); [|lia].
  simpl. destruct (llm _); by eexists.
Qed.

(** A failure of the model is answered with the error diagram that carries
    the chunk's name. *)
Lemma generate_flowchart_for_chunk_degrades (llm : llm_oracle) (c : chunk)
    (chunk_index total_chunks : Z) (prompt : pystr) (e : exn) :
  build_prompt c chunk_index = Ok prompt -> llm prompt = Raise e ->
  generate_flowchart_for_chunk llm c chunk_index total_chunks
  = Ok (lit "graph TD" ++ [nl] ++ lit "    ERR[Error: " ++ c_name c ++ lit "]").
Proof.
  intros Hp He. unfold generate_flowchart_for_chunk. rewrite Hp. simpl.
  by rewrite He.
Qed.

(** C6, the code at chunk index 1114047.  The letter of the prompt is
    [chr(65 + chunk_index)], computed before the [try]; at index 1114047 it
    is [chr(1114112)], which raises [ValueError], and the call raises it to
    its caller whatever the chunk and whatever the model would answer. *)
Theorem generate_flowchart_for_chunk_raises (llm : llm_oracle) (c : chunk) :
  generate_flowchart_for_chunk llm c 1114047 1114048 = Raise ValueError.
Proof. reflexivity. Qed.

(** ** The run without chunks *)

Lemma generate_flowchart_unblank (ps : parsers) (llm : Z -> llm_oracle)
    (code language : pystr) (s : api_state) (e : exn) :
  is_blank code = false ->
  process_code_internal ps llm code language s = (Raise e, s) ->
  (forall c d, e <> HTTPException c d) ->
  generate_flowchart ps llm code language s
  = (Raise (HTTPException 500 (lit "Error processing code: " ++ exn_str e)), s).
Proof.
  intros Hb Hp Hne. unfold generate_flowchart. rewrite Hb, Hp.
  destruct e; try reflexivity. by destruct (Hne status_code detail).
Qed.

(** C9. A submission whose line count is above 500 and that yields no
    function and no top-level snippet makes [create_chunks] return no chunk;
    the generation loop then returns no fragment, and the orchestrator
    raises [IndexError] at [chunk_flowcharts[0]]: [process_code_internal]
    raises it with the globals untouched, [/generate] and
    [/generate-flowchart/{session_id}] answer with status 500, and
    [process_production_code] returns its error message. *)
Theorem empty_chunks_index_error (ps : parsers) (llm : Z -> llm_oracle)
    (code language : pystr) (st : structure) (s : api_state) (g : tw_state) :
  analyze_code_structure ps code (resolve_language code language) = Ok st ->
  500 < total_lines st -> functions st = [] -> main_code st = [] ->
  create_chunks st code default_max_chunk_size = []
  /\ generate_all llm [] 0 0 [] = Ok []
  /\ build_diagram ps llm code language = Raise IndexError
  /\ process_code_internal ps llm code language s = (Raise IndexError, s)
  /\ (is_blank code = false ->
      generate_flowchart ps llm code language s
      = (Raise (HTTPException 500
                  (lit "Error processing code: list index out of range")), s))
  /\ (is_blank code = false ->
      process_production_code ps llm code language g
      = (Failed ([10060%N] ++ lit " Error: list index out of range"), g))
  /\ (forall session_id : pystr,
        code_storage s !! session_id
        = Some {| s_code := code; s_language := language |} ->
        generate_flowchart_by_session ps llm session_id s
        = (Raise (HTTPException 500
                    (lit "Error generating flowchart: list index out of range")),
           s)).
Proof.
  intros Hst Hlines Hf Hm.
  assert (Hc : create_chunks st code default_max_chunk_size = []).
  { unfold create_chunks, default_max_chunk_size.
    apply Z.leb_gt in Hlines. rewrite Hlines, Hf, Hm. reflexivity. }
  assert (Hb : build_diagram ps llm code language = Raise IndexError).
  { unfold build_diagram. rewrite Hst. simpl. rewrite Hc. reflexivity. }
  assert (Hp : process_code_internal ps llm code language s
               = (Raise IndexError, s)).
  { unfold process_code_internal. by rewrite Hb. }
  repeat split; try done.
  - intros Hblank.
    by rewrite (generate_flowchart_unblank ps llm code language s IndexError).
  - intros Hblank. unfold process_production_code.
    unfold is_blank in Hblank. apply orb_false_iff in Hblank as [_ Hblank].
    rewrite Hblank, Hb. reflexivity.
  - intros session_id Hsid. unfold generate_flowchart_by_session.
    rewrite Hsid. simpl. rewrite Hp. reflexivity.
Qed.

Lemma empty_chunks_index_error_witness :
  process_code_internal example_parsers example_llm example_comment_code
    (lit "auto") initial_state
  = (Raise IndexError, initial_state)
  /\ generate_flowchart example_parsers example_llm example_comment_code
       (lit "auto") initial_state
     = (Raise (HTTPException 500
                 (lit "Error processing code: list index out of range")),
        initial_state).
Proof.
  destruct (empty_chunks_index_error example_parsers example_llm
              example_comment_code (lit "auto")
              {| functions := []; main_code := []; total_lines := 502;
                 function_count := 0; chunks := None |}
              initial_state (tw_globals initial_state))
    as (_ & _ & _ & Hp & Hg & _).
  - vm_compute. reflexivity.
  - simpl. lia.
  - reflexivity.
  - reflexivity.
  - split; [exact Hp|]. apply Hg. vm_compute. reflexivity.
Defined.

(** ** The session store *)

Lemma str_in_spec (t : pystr) (l : list pystr) : str_in t l = true <-> t ∈ l.
Proof.
  unfold str_in, str_eqb. rewrite existsb_exists. split.
  - intros (x & Hx & Heq). apply bool_decide_eq_true in Heq as ->.
    by apply list_elem_of_In.
  - intros H. exists t. split; [by apply list_elem_of_In|].
    by apply bool_decide_eq_true.
Qed.

Lemma is_blank_false_truthy (code : pystr) :
  is_blank code = false -> truthy code = true.
Proof.
  unfold is_blank. intros H. apply orb_false_iff in H as [H _].
  by apply negb_false_iff in H.
Qed.

Lemma submit_code_stores (fresh_id code : pystr) (s : api_state) :
  is_blank code = false ->
  submit_code fresh_id code s
  = (Ok {| sr_success := true; sr_session_id := fresh_id;
           sr_message := lit "Code submitted successfully";
           sr_code_length := len code;
           sr_lines := len (splitlines code) |},
     set_code_storage s
       (<[fresh_id := {| s_code := code; s_language := lit "auto" |}]>
          (code_storage s))).
Proof. intros H. unfold submit_code. rewrite H. reflexivity. Qed.

Lemma get_session_present (session_id : pystr) (s : api_state) (e : session) :
  code_storage s !! session_id = Some e ->
  get_session session_id s
  = (Ok {| gr_session_id := session_id; gr_has_code := truthy (s_code e);
           gr_language := s_language e; gr_code_length := len (s_code e);
           gr_lines := len (splitlines (s_code e)) |}, s).
Proof. intros H. unfold get_session. by rewrite H. Qed.

Lemma set_language_valid (session_id language : pystr) (s : api_state)
    (e : session) :
  code_storage s !! session_id = Some e -> language ∈ valid_languages ->
  set_language session_id language s
  = (Ok {| lr_success := true; lr_session_id := session_id;
           lr_language := language;
           lr_message := lit "Language set successfully" |},
     set_code_storage s
       (<[session_id := {| s_code := s_code e; s_language := language |}]>
          (code_storage s))).
Proof.
  intros H Hl. unfold set_language. rewrite H.
  apply str_in_spec in Hl. by rewrite Hl.
Qed.

Lemma set_language_invalid (session_id language : pystr) (s : api_state)
    (e : session) :
  code_storage s !! session_id = Some e -> language ∉ valid_languages ->
  set_language session_id language s
  = (Raise (HTTPException 400
              (lit "Invalid language. Choose from: auto, python, javascript, c")),
     s).
Proof.
  intros H Hl. unfold set_language. rewrite H.
  destruct (str_in language valid_languages) eqn:E.
  - apply str_in_spec in E. done.
  - reflexivity.
Qed.

(** C5, as amended.  Create, for code that is not blank, stores the code
    with language [auto] under the generated identifier and leaves the other
    entries alone; the read that follows returns language [auto] and a
    summary of the stored code (that there is code, its length and its
    number of lines), not the code text.  Set-language on a stored
    identifier with one of [auto], [python], [javascript], [c] overwrites
    the language, and the read that follows shows it; with another language
    it fails with status 400 and changes nothing.  Read, set-language and
    delete on an absent identifier fail with status 404 and change nothing.
    Delete of a stored identifier removes it, and the read that follows
    fails with status 404. *)
Theorem session_store_contract :
  (forall (fresh_id code : pystr) (s : api_state),
     is_blank code = false ->
     exists s',
       submit_code fresh_id code s
       = (Ok {| sr_success := true; sr_session_id := fresh_id;
                sr_message := lit "Code submitted successfully";
                sr_code_length := len code;
                sr_lines := len (splitlines code) |}, s')
       /\ code_storage s' !! fresh_id
          = Some {| s_code := code; s_language := lit "auto" |}
       /\ (forall other : pystr,
             other <> fresh_id ->
             code_storage s' !! other = code_storage s !! other)
       /\ get_session fresh_id s'
          = (Ok {| gr_session_id := fresh_id; gr_has_code := true;
                   gr_language := lit "auto"; gr_code_length := len code;
                   gr_lines := len (splitlines code) |}, s'))
  /\ (forall (session_id language : pystr) (s : api_state) (e : session),
        code_storage s !! session_id = Some e ->
        language ∈ valid_languages ->
        exists s',
          set_language session_id language s
          = (Ok {| lr_success := true; lr_session_id := session_id;
                   lr_language := language;
                   lr_message := lit "Language set successfully" |}, s')
          /\ code_storage s' !! session_id
             = Some {| s_code := s_code e; s_language := language |}
          /\ get_session session_id s'
             = (Ok {| gr_session_id := session_id;
                      gr_has_code := truthy (s_code e);
                      gr_language := language;
                      gr_code_length := len (s_code e);
                      gr_lines := len (splitlines (s_code e)) |}, s'))
  /\ (forall (session_id language : pystr) (s : api_state) (e : session),
        code_storage s !! session_id = Some e ->
        language ∉ valid_languages ->
        exists detail,
          set_language session_id language s
          = (Raise (HTTPException 400 detail), s))
  /\ (forall (session_id language : pystr) (s : api_state),
        code_storage s !! session_id = None ->
        get_session session_id s
        = (Raise (HTTPException 404 (lit "Session not found")), s)
        /\ set_language session_id language s
           = (Raise (HTTPException 404 (lit "Session not found")), s)
        /\ delete_session session_id s
           = (Raise (HTTPException 404 (lit "Session not found")), s))
  /\ (forall (session_id : pystr) (s : api_state) (e : session),
        code_storage s !! session_id = Some e ->
        exists s',
          delete_session session_id s
          = (Ok {| dr_success := true;
                   dr_message := lit "Session deleted successfully" |}, s')
          /\ code_storage s' !! session_id = None
          /\ get_session session_id s'
             = (Raise (HTTPException 404 (lit "Session not found")), s')).
Proof.
  split; [|split; [|split; [|split]]].
  - intros fresh_id code s Hb. eexists.
    split; [by apply submit_code_stores|].
    split; [apply lookup_insert_eq|].
    split; [intros other Ho; by apply lookup_insert_ne|].
    erewrite get_session_present by apply lookup_insert_eq. simpl.
    by rewrite (is_blank_false_truthy code Hb).
  - intros session_id language s e He Hl. eexists.
    split; [by apply set_language_valid|].
    split; [apply lookup_insert_eq|].
    erewrite get_session_present by apply lookup_insert_eq. reflexivity.
  - intros session_id language s e He Hl. eexists.
    by apply (set_language_invalid session_id language s e).
  - intros session_id language s Hn.
    unfold get_session, set_language, delete_session. by rewrite Hn.
  - intros session_id s e He. eexists.
    split; [unfold delete_session; by rewrite He|].
    split; [apply lookup_delete_eq|].
    unfold get_session. simpl. by rewrite lookup_delete_eq.
Qed.

Lemma session_store_contract_witness :
  (exists s',
     submit_code (lit "id-1") (lit "x = 1") initial_state
     = (Ok {| sr_success := true; sr_session_id := lit "id-1";
              sr_message := lit "Code submitted successfully";
              sr_code_length := 5; sr_lines := 1 |}, s')
     /\ code_storage s' !! lit "id-1"
        = Some {| s_code := lit "x = 1"; s_language := lit "auto" |}
     /\ (forall other : pystr,
           other <> lit "id-1" ->
           code_storage s' !! other = code_storage initial_state !! other)
     /\ get_session (lit "id-1") s'
        = (Ok {| gr_session_id := lit "id-1"; gr_has_code := true;
                 gr_language := lit "auto"; gr_code_length := 5;
                 gr_lines := 1 |}, s'))
  /\ get_session (lit "id-2") initial_state
     = (Raise (HTTPException 404 (lit "Session not found")), initial_state).
Proof.
  destruct session_store_contract as (Hcreate & _ & _ & Habsent & _).
  split.
  - apply (Hcreate (lit "id-1") (lit "x = 1") initial_state). reflexivity.
  - apply (Habsent (lit "id-2") (lit "c") initial_state). reflexivity.
Defined.

(** Two different code texts of the same length and line count, created
    under the same identifier, are followed by the same read: the response
    does not carry the code. *)
Lemma get_session_code_counterexample :
  fst (get_session (lit "id-1")
         (snd (submit_code (lit "id-1") (lit "x = 1") initial_state)))
  = fst (get_session (lit "id-1")
           (snd (submit_code (lit "id-1") (lit "y = 2") initial_state)))
  /\ lit "x = 1" <> lit "y = 2".
Proof. split; [reflexivity | discriminate]. Qed.

(** ** The current diagram *)

Lemma svg_prefix_nonempty (payload : pystr) : svg_prefix ++ payload <> [].
Proof. discriminate. Qed.

(** What a run leaves in the globals: both on success; on failure the URL
    as it was, and the diagram as it was unless the run failed while
    encoding its diagram. *)
Lemma process_code_internal_globals (ps : parsers) (llm : Z -> llm_oracle)
    (code language : pystr) (s : api_state) :
  match process_code_internal ps llm code language s with
  | (Ok r, s') =>
      current_svg_url s' = fr_svg_url r
      /\ current_mermaid_code s' = fr_mermaid_code r
      /\ fr_svg_url r <> []
      /\ code_storage s' = code_storage s
  | (Raise e, s') =>
      current_svg_url s' = current_svg_url s
      /\ code_storage s' = code_storage s
      /\ (forall b, build_diagram ps llm code language = Ok b ->
                    (exists bs, utf8_encode (b_final_mermaid b) = Ok bs) ->
                    False)
      /\ (forall e', build_diagram ps llm code language = Raise e' -> s' = s)
  end.
Proof.
  unfold process_code_internal.
  destruct (build_diagram ps llm code language) as [b|e].
  - destruct (mermaid_to_svg (b_final_mermaid b) _) as [h g].
    destruct (utf8_encode (b_final_mermaid b)) as [bs|e] eqn:E; simpl.
    + split; [done|]. split; [done|]. split; [|done].
      apply svg_prefix_nonempty.
    + split; [done|]. split; [done|]. split; [|discriminate].
      intros b' [= <-] [bs Hbs]. congruence.
  - split; [done|]. split; [done|]. split; [discriminate|done].
Qed.

(** A request that is a successful generation sets both globals. *)
Lemma step_generated_Some (s : api_state) (r : request) (m u : pystr) :
  generated s r = Some (m, u) ->
  current_svg_url (step s r) = u /\ current_mermaid_code (step s r) = m
  /\ u <> [].
Proof.
  destruct r as [| |ps llm sid|ps llm code language| | |]; try discriminate;
    simpl.
  - unfold generate_flowchart_by_session.
    destruct (code_storage s !! sid) as [e|]; [|discriminate].
    pose proof (process_code_internal_globals ps llm (s_code e)
                  (s_language e) s) as H.
    destruct (process_code_internal ps llm (s_code e) (s_language e) s)
      as [[r|x] s']; simpl; [|discriminate].
    intros [= <- <-]. tauto.
  - unfold generate_flowchart. destruct (is_blank code); [discriminate|].
    pose proof (process_code_internal_globals ps llm code language s) as H.
    destruct (process_code_internal ps llm code language s) as [[r|x] s'];
      simpl; [|by destruct x].
    intros [= <- <-]. tauto.
Qed.

(** Any other request leaves the URL as it was. *)
Lemma step_generated_None (s : api_state) (r : request) :
  generated s r = None -> current_svg_url (step s r) = current_svg_url s.
Proof.
  destruct r as [fid code|sid lang|ps llm sid|ps llm code language|sid|sid|];
    simpl.
  - intros _. unfold submit_code. by destruct (is_blank code).
  - intros _. unfold set_language.
    destruct (code_storage s !! sid); [|done].
    by destruct (negb (str_in lang valid_languages)).
  - unfold generate_flowchart_by_session.
    destruct (code_storage s !! sid) as [e|]; [|done].
    pose proof (process_code_internal_globals ps llm (s_code e)
                  (s_language e) s) as H.
    destruct (process_code_internal ps llm (s_code e) (s_language e) s)
      as [[r|x] s']; simpl; [discriminate|]. intros _. tauto.
  - unfold generate_flowchart. destruct (is_blank code); [done|].
    pose proof (process_code_internal_globals ps llm code language s) as H.
    destruct (process_code_internal ps llm code language s) as [[r|x] s'];
      simpl; [discriminate|]. intros _. destruct x; simpl; tauto.
  - intros _. unfold get_session. by destruct (code_storage s !! sid).
  - intros _. unfold delete_session. by destruct (code_storage s !! sid).
  - intros _. unfold get_current. by destruct (negb _).
Qed.

(** A request that builds no diagram, or an encodable one, and that is no
    successful generation leaves the diagram as it was. *)
Lemma step_generated_None_mermaid (s : api_state) (r : request) :
  diagram_encodable s r -> generated s r = None ->
  current_mermaid_code (step s r) = current_mermaid_code s.
Proof.
  unfold diagram_encodable.
  destruct r as [fid code|sid lang|ps llm sid|ps llm code language|sid|sid|];
    simpl.
  - intros _ _. unfold submit_code. by destruct (is_blank code).
  - intros _ _. unfold set_language.
    destruct (code_storage s !! sid); [|done].
    by destruct (negb (str_in lang valid_languages)).
  - unfold generate_flowchart_by_session.
    destruct (code_storage s !! sid) as [e|]; [|done].
    pose proof (process_code_internal_globals ps llm (s_code e)
                  (s_language e) s) as H.
    destruct (process_code_internal ps llm (s_code e) (s_language e) s)
      as [[r|x] s']; simpl; [discriminate|].
    destruct H as (_ & _ & Hb & Hs).
    destruct (build_diagram ps llm (s_code e) (s_language e)) as [b|e'].
    + intros Henc _. destruct (Hb b eq_refl Henc).
    + intros _ _. by rewrite (Hs e' eq_refl).
  - unfold generate_flowchart. destruct (is_blank code); [done|].
    pose proof (process_code_internal_globals ps llm code language s) as H.
    destruct (process_code_internal ps llm code language s) as [[r|x] s'];
      simpl; [discriminate|].
    destruct H as (_ & _ & Hb & Hs).
    destruct (build_diagram ps llm code language) as [b|e'].
    + intros Henc _. destruct (Hb b eq_refl Henc).
    + intros _ _. rewrite (Hs e' eq_refl). by destruct x.
  - intros _ _. unfold get_session. by destruct (code_storage s !! sid).
  - intros _ _. unfold delete_session. by destruct (code_storage s !! sid).
  - intros _ _. unfold get_current. by destruct (negb _).
Qed.

(** The URL global is empty until a generation succeeds, and from then on it
    is the URL of the most recent successful generation. *)
Lemma run_current_svg_url (rs : list request) (s : api_state)
    (last : option (pystr * pystr)) :
  match last with
  | None => current_svg_url s = []
  | Some (m, u) => current_svg_url s = u /\ u <> []
  end ->
  match last_generated s rs last with
  | None => current_svg_url (run s rs) = []
  | Some (m, u) => current_svg_url (run s rs) = u /\ u <> []
  end.
Proof.
  revert s last. induction rs as [|r rs IH]; intros s last Hinv; [done|].
  simpl. apply IH.
  destruct (generated s r) as [[m u]|] eqn:E.
  - apply step_generated_Some in E. tauto.
  - rewrite (step_generated_None s r E). exact Hinv.
Qed.

Lemma run_current_mermaid_code (rs : list request) (s : api_state)
    (last : option (pystr * pystr)) :
  diagrams_encodable s rs ->
  match last with
  | None => True
  | Some (m, u) => current_mermaid_code s = m
  end ->
  match last_generated s rs last with
  | None => True
  | Some (m, u) => current_mermaid_code (run s rs) = m
  end.
Proof.
  revert s last. induction rs as [|r rs IH]; intros s last Henc Hinv; [done|].
  simpl. destruct Henc as [Hr Hrs]. apply IH; [done|].
  destruct (generated s r) as [[m u]|] eqn:E.
  - apply step_generated_Some in E. tauto.
  - rewrite (step_generated_None_mermaid s r Hr E). exact Hinv.
Qed.

(** X20. [/current] answers with status 404 exactly as long as no generation
    has succeeded, whatever other requests were served. *)
Lemma get_current_not_found (rs : list request) :
  fst (get_current (run initial_state rs))
  = Raise (HTTPException 404 (lit "No flowchart generated yet"))
  <-> last_generated initial_state rs None = None.
Proof.
  pose proof (run_current_svg_url rs initial_state None eq_refl) as H.
  unfold get_current.
  destruct (last_generated initial_state rs None) as [[m u]|].
  - destruct H as [Hu Hne]. rewrite Hu.
    destruct u; [done|]. simpl. split; discriminate.
  - rewrite H. simpl. done.
Qed.

(** X21. After a successful generation, [/current] returns the URL of the
    most recent one; it returns the diagram of that run as well when no run
    has failed while encoding its diagram. *)
Lemma get_current_latest (rs : list request) (m u : pystr) :
  last_generated initial_state rs None = Some (m, u) ->
  (exists m', fst (get_current (run initial_state rs))
              = Ok {| cr_svg_url := u; cr_mermaid_code := m' |})
  /\ (diagrams_encodable initial_state rs ->
      fst (get_current (run initial_state rs))
      = Ok {| cr_svg_url := u; cr_mermaid_code := m |}).
Proof.
  intros Hlast.
  pose proof (run_current_svg_url rs initial_state None eq_refl) as H.
  rewrite Hlast in H. destruct H as [Hu Hne].
  unfold get_current. rewrite Hu. destruct u as [|c u]; [done|]. simpl.
  split; [by eexists|].
  intros Henc.
  pose proof (run_current_mermaid_code rs initial_state None Henc I) as Hm.
  rewrite Hlast in Hm. by rewrite Hm.
Qed.

Lemma get_current_latest_witness :
  (exists m',
     fst (get_current
            (run initial_state
               [Generate example_assignment_parsers example_llm
                  example_assignment_code (lit "auto");
                GetSession (lit "id-1")]))
     = Ok {| cr_svg_url :=
               lit "https://mermaid.ink/svg/Z3JhcGggVEQKICAgIEExKFtTdGFydF0p";
             cr_mermaid_code := m' |})
  /\ (diagrams_encodable initial_state
        [Generate example_assignment_parsers example_llm
           example_assignment_code (lit "auto");
         GetSession (lit "id-1")] ->
      fst (get_current
             (run initial_state
                [Generate example_assignment_parsers example_llm
                   example_assignment_code (lit "auto");
                 GetSession (lit "id-1")]))
      = Ok {| cr_svg_url :=
                lit "https://mermaid.ink/svg/Z3JhcGggVEQKICAgIEExKFtTdGFydF0p";
              cr_mermaid_code :=
                lit "graph TD" ++ [nl] ++ lit "    A1([Start])" |}).
Proof.
  apply (get_current_latest
           [Generate example_assignment_parsers example_llm
              example_assignment_code (lit "auto");
            GetSession (lit "id-1")]
           (lit "graph TD" ++ [nl] ++ lit "    A1([Start])")
           (lit "https://mermaid.ink/svg/Z3JhcGggVEQKICAgIEExKFtTdGFydF0p")).
  vm_compute. reflexivity.
Defined.

(** C10, the code after a run that fails while its diagram is encoded.  A
    generation succeeds; a second one, whose model answers with the lone
    surrogate U+D800, stores its diagram in [current_mermaid_code] and then
    fails at the UTF-8 encoding, with status 500 and [current_svg_url] as it
    was.  [/current] then returns the URL of the first run with the diagram
    of the second, failed one. *)
Theorem get_current_after_failed_encoding :
  let first :=
    Generate example_assignment_parsers example_llm example_assignment_code
      (lit "auto") in
  let second :=
    Generate example_assignment_parsers example_surrogate_llm
      example_assignment_code (lit "auto") in
  let s1 := step initial_state first in
  let s2 := step s1 second in
  generated initial_state first
  = Some (lit "graph TD" ++ [nl] ++ lit "    A1([Start])",
          lit "https://mermaid.ink/svg/Z3JhcGggVEQKICAgIEExKFtTdGFydF0p")
  /\ (exists detail,
        fst (generate_flowchart example_assignment_parsers
               example_surrogate_llm example_assignment_code (lit "auto") s1)
        = Raise (HTTPException 500 detail))
  /\ last_generated initial_state [first; second] None
     = Some (lit "graph TD" ++ [nl] ++ lit "    A1([Start])",
             lit "https://mermaid.ink/svg/Z3JhcGggVEQKICAgIEExKFtTdGFydF0p")
  /\ fst (get_current s2)
     = Ok {| cr_svg_url :=
               lit "https://mermaid.ink/svg/Z3JhcGggVEQKICAgIEExKFtTdGFydF0p";
             cr_mermaid_code := lit "graph TD" ++ [nl] ++ [55296%N] |}.
Proof.
  split; [vm_compute; reflexivity|].
  split; [eexists; vm_compute; reflexivity|].
  split; vm_compute; reflexivity.
Qed.

(** ** White space around a text *)

Lemma lstrip_app (s t : pystr) :
  lstrip (s ++ t) = if forallb isspace s then lstrip t else lstrip s ++ t.
Proof.
  induction s as [|c s IH]; simpl; [done|].
  destruct (isspace c); simpl; [exact IH | done].
Qed.

Lemma lstrip_app_nonspace (s t : pystr) (c : N) :
  isspace c = false -> lstrip (s ++ c :: t) = lstrip s ++ c :: t.
Proof.
  intros Hc. rewrite lstrip_app.
  destruct (forallb isspace s) eqn:E; [|done].
  apply lstrip_nil in E. rewrite E. simpl. by rewrite Hc.
Qed.

Lemma lstrip_idempotent (s : pystr) : lstrip (lstrip s) = lstrip s.
Proof.
  induction s as [|c s IH]; simpl; [done|].
  destruct (isspace c) eqn:E; [exact IH|]. simpl. by rewrite E.
Qed.

Lemma rstrip_app_space (s post : pystr) :
  forallb isspace post = true -> rstrip (s ++ post) = rstrip s.
Proof.
  intros H. unfold rstrip. rewrite rev_app_distr, lstrip_app, forallb_rev, H.
  reflexivity.
Qed.

Lemma rstrip_cons_nonspace (c : N) (s : pystr) :
  isspace c = false -> rstrip (c :: s) = c :: rstrip s.
Proof.
  intros Hc. unfold rstrip. simpl rev.
  rewrite lstrip_app_nonspace by done.
  by rewrite rev_app_distr.
Qed.

Lemma rstrip_idempotent (s : pystr) : rstrip (rstrip s) = rstrip s.
Proof. unfold rstrip. by rewrite rev_involutive, lstrip_idempotent. Qed.

(** White space in front of and behind a text does not change what
    [strip] returns. *)
Lemma strip_surrounded (pre s post : pystr) :
  forallb isspace pre = true -> forallb isspace post = true ->
  strip (pre ++ s ++ post) = strip s.
Proof.
  intros Hpre Hpost. unfold strip.
  rewrite lstrip_app, Hpre, lstrip_app.
  destruct (forallb isspace s) eqn:E.
  - apply lstrip_nil in Hpost. rewrite Hpost.
    apply lstrip_nil in E. by rewrite E.
  - by apply rstrip_app_space.
Qed.

(** A stripped text has no white space left to strip. *)
Lemma strip_idempotent (s : pystr) : strip (strip s) = strip s.
Proof.
  unfold strip. destruct (lstrip s) as [|c u] eqn:E; [reflexivity|].
  assert (Hc : isspace c = false).
  { destruct s as [|d s]; [discriminate|].
    revert E. clear. revert d. induction s as [|e s IH]; intros d; simpl.
    - destruct (isspace d) eqn:Hd; [discriminate|]. by intros [= <- _].
    - destruct (isspace d) eqn:Hd; [|by intros [= <- _]].
      apply IH. }
  rewrite rstrip_cons_nonspace by done. simpl. rewrite Hc.
  rewrite rstrip_cons_nonspace by done. by rewrite rstrip_idempotent.
Qed.

(** ** Language detection *)

(** X1. [detect_language] looks at the text without the white space around
    it: white space added in front or behind never changes the tag; a text
    of white space only, the empty text included, gets the default
    [python]; and the tag is always one of [python], [c], [javascript]. *)
Theorem detect_language_surrounding_space (pre code post : pystr) :
  forallb isspace pre = true -> forallb isspace post = true ->
  detect_language (pre ++ code ++ post) = detect_language code
  /\ detect_language (pre ++ post) = lit "python"
  /\ detect_language code ∈ [lit "python"; lit "c"; lit "javascript"].
Proof.
  intros Hpre Hpost. split; [|split].
  - unfold detect_language. by rewrite strip_surrounded.
  - unfold detect_language.
    assert (strip (pre ++ post) = []) as ->; [|reflexivity].
    apply strip_nil. by rewrite forallb_app, Hpre, Hpost.
  - unfold detect_language.
    repeat match goal with
           | |- context [if ?b then _ else _] => destruct b
           end; set_solver.
Qed.

Lemma detect_language_surrounding_space_witness :
  detect_language ([32%N; nl] ++ lit "#include <stdio.h>" ++ [nl; 9%N])
  = detect_language (lit "#include <stdio.h>")
  /\ detect_language ([32%N; nl] ++ [nl; 9%N]) = lit "python"
  /\ detect_language (lit "#include <stdio.h>")
     ∈ [lit "python"; lit "c"; lit "javascript"].
Proof.
  apply (detect_language_surrounding_space [32%N; nl]
           (lit "#include <stdio.h>") [nl; 9%N]); reflexivity.
Defined.

(** ** Structure extraction *)

(** Induction over a parse tree, with the property known of all children. *)
Lemma node_ind_children (P : node -> Prop) :
  (forall t b r1 r2 x cs, Forall P cs -> P (Node t b r1 r2 x cs)) ->
  forall n, P n.
Proof.
  intros H.
  refine (fix IH (n : node) : P n :=
            match n with
            | Node t b r1 r2 x cs =>
                H t b r1 r2 x cs
                  ((fix go (l : list node) : Forall P l :=
                      match l with
                      | [] => @List.Forall_nil node P
                      | c :: l' => @List.Forall_cons node P c l' (IH c) (go l')
                      end) cs)
            end).
Qed.

Lemma calculate_complexity_ge_1 (code : pystr) : 1 <= calculate_complexity code.
Proof.
  rewrite calculate_complexity_keywords.
  unfold keyword_complexity, keywords. cbn [map foldr].
  rewrite !bounded_count_is_space.
  pose proof (pos_count_nonneg (lit "if" ++ [32%N]) code).
  pose proof (pos_count_nonneg (lit "elif" ++ [32%N]) code).
  pose proof (pos_count_nonneg (lit "for" ++ [32%N]) code).
  pose proof (pos_count_nonneg (lit "while" ++ [32%N]) code).
  pose proof (pos_count_nonneg (lit "and" ++ [32%N]) code).
  pose proof (pos_count_nonneg (lit "or" ++ [32%N]) code).
  lia.
Qed.

Lemma find_calls_no_builtin (room : nat) (n : node) (calls : list pystr) :
  find_calls room n = Ok calls ->
  forall name, name ∈ calls -> name ∉ builtin_calls.
Proof.
  revert n calls. induction room as [|room IH]; intros n calls;
    [discriminate|].
  destruct n as [t b r1 r2 x cs]. cbn [find_calls].
  set (own := if str_eqb t (lit "call") then _ else _).
  assert (Hown : forall name, name ∈ own -> name ∉ builtin_calls).
  { subst own. intros name H.
    destruct (str_eqb t (lit "call")); [|by apply elem_of_nil in H].
    apply list_elem_of_filter in H as [H _].
    intros Hin. apply str_in_spec in Hin.
    rewrite Hin in H. exact H. }
  clearbody own. revert own Hown calls.
  induction cs as [|c cs IHcs]; intros own Hown calls.
  - by intros [= <-].
  - destruct (find_calls room c) as [found|e] eqn:E; [|discriminate].
    apply IHcs. intros name Hin.
    apply elem_of_app in Hin as [Hin|Hin]; [by apply Hown|].
    by apply (IH c found E).
Qed.

(** [find_calls] returns exactly on the subtrees that are no deeper than
    its room, and raises [RecursionError] on the others. *)
Lemma find_calls_room (room : nat) (n : node) :
  match find_calls room n with
  | Ok _ => (height n <= room)%nat
  | Raise e => e = RecursionError /\ (room < height n)%nat
  end.
Proof.
  revert n. induction room as [|room IH]; intros [t b r1 r2 x cs].
  - cbn [find_calls height]. split; [reflexivity | lia].
  - cbn [find_calls height].
    set (own := if str_eqb t (lit "call") then _ else _). clearbody own.
    set (deepest := fix deepest (l : list node) : nat :=
                      match l with
                      | [] => 0%nat
                      | c :: l' => Nat.max (height c) (deepest l')
                      end).
    set (visit := fix visit (l : list node) (calls : list pystr)
                      : result (list pystr) :=
                    match l with
                    | [] => Ok calls
                    | child :: l' =>
                        match find_calls room child with
                        | Ok found => visit l' (calls ++ found)
                        | Raise e => Raise e
                        end
                    end).
    assert (H : match visit cs own with
                | Ok _ => (deepest cs <= room)%nat
                | Raise e => e = RecursionError /\ (room < deepest cs)%nat
                end).
    { revert own. induction cs as [|c cs IHcs]; intros own.
      - cbn. lia.
      - cbn [visit deepest]. fold visit. fold deepest.
        pose proof (IH c) as Hc.
        destruct (find_calls room c) as [found|e].
        + specialize (IHcs (own ++ found)).
          destruct (visit cs (own ++ found)) as [out|e]; [lia|].
          destruct IHcs as [-> Hlt]. split; [reflexivity | lia].
        + destruct Hc as [-> Hlt]. split; [reflexivity | lia]. }
    destruct (visit cs own) as [out|e]; [lia|].
    destruct H as [-> Hlt]. split; [reflexivity | lia].
Qed.

Lemma extract_function_node_info_ok (room : nat) (n : node)
    (f : FunctionInfo) :
  extract_function_node_info room n = Ok f -> function_ok f.
Proof.
  unfold extract_function_node_info.
  destruct (find_calls room n) as [calls|e] eqn:E; cbn [rbind];
    [|discriminate].
  intros [= <-]. unfold function_ok, FunctionInfo_init.
  cbn [f_complexity f_code f_calls].
  split; [reflexivity|]. split; [apply calculate_complexity_ge_1|].
  by apply (find_calls_no_builtin room n).
Qed.

Lemma extract_function_node_info_room (room : nat) (n : node) :
  match extract_function_node_info room n with
  | Ok _ => (height n <= room)%nat
  | Raise e => e = RecursionError /\ (room < height n)%nat
  end.
Proof.
  unfold extract_function_node_info.
  pose proof (find_calls_room room n) as H.
  destruct (find_calls room n) as [calls|e]; exact H.
Qed.

Lemma elem_of_rev {A} (x : A) (l : list A) : x ∈ rev l <-> x ∈ l.
Proof. rewrite !list_elem_of_In. symmetry. apply in_rev. Qed.

Lemma split_aux_no_sep (sep : N) (cur s : pystr) :
  sep ∉ cur -> Forall (fun piece => sep ∉ piece) (split_aux sep cur s).
Proof.
  revert cur. induction s as [|c s IH]; intros cur Hcur; simpl.
  - constructor; [|constructor]. by rewrite elem_of_rev.
  - destruct (N.eqb_spec c sep) as [->|Hne].
    + constructor; [by rewrite elem_of_rev|]. apply IH. apply not_elem_of_nil.
    + apply IH. rewrite not_elem_of_cons. split; [congruence | done].
Qed.

Lemma first_line_ok (txt : pystr) :
  snippet_ok (take 80 (hd [] (split_on txt nl))).
Proof.
  split.
  - rewrite length_take. lia.
  - pose proof (split_aux_no_sep nl [] txt (not_elem_of_nil _)) as H.
    unfold split_on. destruct (split_aux nl [] txt) as [|p ps]; simpl.
    + rewrite ?take_nil. apply not_elem_of_nil.
    + apply Forall_cons in H as [Hp _]. intros Hin. apply Hp.
      apply elem_of_take in Hin as (i & Hi & _).
      apply list_elem_of_lookup. by exists i.
Qed.

(** [traverse] keeps what holds of the lists it appends to. *)
Lemma traverse_ok (room : nat) (n : node) (depth : Z)
    (acc acc' : extraction) :
  traverse room n depth acc = Ok acc' ->
  Forall function_ok (x_functions acc) -> Forall snippet_ok (x_main_code acc) ->
  Forall function_ok (x_functions acc')
  /\ Forall snippet_ok (x_main_code acc').
Proof.
  revert depth acc acc'.
  induction n as [t b r1 r2 x cs IH] using node_ind_children.
  intros depth acc acc'. cbn [traverse].
  destruct (depth >? 20); [by intros [= <-]|].
  set (a0 := if str_in t _ then _ else _).
  intros Hrun Hf Hm.
  assert (Hacc : forall a, a0 = Ok a ->
                           Forall function_ok (x_functions a)
                           /\ Forall snippet_ok (x_main_code a)).
  { subst a0. intros a. destruct (str_in t _).
    - destruct (extract_function_node_info _ _) as [f|e] eqn:E;
        [|discriminate].
      intros [= <-]. cbn [x_functions x_main_code].
      split; [|done]. apply Forall_app. split; [done|].
      constructor; [by apply extract_function_node_info_ok in E | constructor].
    - destruct (str_in t _ && (depth <=? 2)); intros [= <-];
        cbn [x_functions x_main_code]; [|done].
      split; [done|]. apply Forall_app. split; [done|].
      constructor; [apply first_line_ok | constructor]. }
  clearbody a0. destruct a0 as [a|e]; [|discriminate].
  specialize (Hacc a eq_refl). revert a Hacc Hrun.
  clear Hf Hm acc.
  induction cs as [|c cs IHcs]; intros a Ha; [by intros [= <-]|].
  apply Forall_cons in IH as [Hc Hcs].
  destruct (is_named c).
  - destruct (traverse room c (depth + 1) a) as [a1|e] eqn:E; [|discriminate].
    apply IHcs; [done|]. destruct Ha as [Hf Hm]. by apply (Hc _ _ _ E).
  - by apply IHcs.
Qed.


(** What [analyze_code_structure] returned was walked from the two empty
    lists. *)
Lemma analyze_code_structure_lists (ps : parsers) (code lang : pystr)
    (st : structure) :
  analyze_code_structure ps code lang = Ok st ->
  Forall function_ok (functions st) /\ Forall snippet_ok (main_code st).
Proof.
  rewrite analyze_code_structure_eq.
  destruct (utf8_encode code) as [bs|e]; cbn [rbind]; [|discriminate].
  destruct (traverse _ _ _ _) as [r|e] eqn:E; cbn [rbind]; [|discriminate].
  intros [= <-]. cbn [functions main_code].
  apply (traverse_ok _ _ _ _ _ E); constructor.
Qed.

(** X2. Every top-level snippet in the report of [analyze_code_structure]
    has at most 80 characters and holds no line feed, whatever the parser
    returned. *)
Theorem analyze_code_structure_snippets (ps : parsers) (code lang : pystr)
    (st : structure) :
  analyze_code_structure ps code lang = Ok st ->
  Forall (fun snippet => (length snippet <= 80)%nat /\ nl ∉ snippet)
         (main_code st).
Proof.
  intros Hst. by apply (analyze_code_structure_lists ps code lang).
Qed.

Lemma analyze_code_structure_snippets_witness :
  Forall (fun snippet => (length snippet <= 80)%nat /\ nl ∉ snippet)
         [lit "y = f(1)"; lit "y = f(1)"].
Proof.
  apply (analyze_code_structure_snippets example_program_parsers
           example_program_code (lit "python")
           {| functions :=
                [ {| f_name := lit "f"; f_start_line := 0; f_end_line := 1;
                     f_code := lit "def f(x):" ++ [nl] ++ lit "    print(g(x))";
                     f_has_loops := false; f_has_conditionals := false;
                     f_calls := [lit "g"]; f_complexity := 1 |} ];
              main_code := [lit "y = f(1)"; lit "y = f(1)"];
              total_lines := 3; function_count := 1; chunks := None |}).
  vm_compute. reflexivity.
Defined.

(** X3. Every function in the report of [analyze_code_structure] has as
    complexity the estimate of its own code, which is at least 1, and none
    of the names [print], [len], [range], [str], [int], [float] among its
    calls. *)
Theorem analyze_code_structure_functions (ps : parsers) (code lang : pystr)
    (st : structure) :
  analyze_code_structure ps code lang = Ok st ->
  Forall (fun f =>
            f_complexity f = calculate_complexity (f_code f)
            /\ 1 <= f_complexity f
            /\ (forall name, name ∈ f_calls f -> name ∉ builtin_calls))
         (functions st).
Proof.
  intros Hst. by apply (analyze_code_structure_lists ps code lang).
Qed.

Lemma analyze_code_structure_functions_witness :
  Forall (fun f =>
            f_complexity f = calculate_complexity (f_code f)
            /\ 1 <= f_complexity f
            /\ (forall name, name ∈ f_calls f -> name ∉ builtin_calls))
         [ {| f_name := lit "f"; f_start_line := 0; f_end_line := 1;
              f_code := lit "def f(x):" ++ [nl] ++ lit "    print(g(x))";
              f_has_loops := false; f_has_conditionals := false;
              f_calls := [lit "g"]; f_complexity := 1 |} ].
Proof.
  apply (analyze_code_structure_functions example_program_parsers
           example_program_code (lit "python")
           {| functions :=
                [ {| f_name := lit "f"; f_start_line := 0; f_end_line := 1;
                     f_code := lit "def f(x):" ++ [nl] ++ lit "    print(g(x))";
                     f_has_loops := false; f_has_conditionals := false;
                     f_calls := [lit "g"]; f_complexity := 1 |} ];
              main_code := [lit "y = f(1)"; lit "y = f(1)"];
              total_lines := 3; function_count := 1; chunks := None |}).
  vm_compute. reflexivity.
Defined.

Lemma total_complexity_ge_length (fs : list FunctionInfo) :
  Forall function_ok fs -> len fs <= total_complexity fs.
Proof.
  unfold len. induction fs as [|f fs IH]; intros H; [simpl; lia|].
  apply Forall_cons in H as [(_ & Hf & _) Hfs]. specialize (IH Hfs).
  cbn [total_complexity length]. lia.
Qed.

(** X4. For a submission of at most 500 lines, the one chunk that the
    planner makes of the extractor's report has a complexity of at least the
    number of extracted functions; it is 0 exactly when no function was
    extracted, whatever keywords the text holds outside of functions. *)
Theorem full_chunk_complexity (ps : parsers) (code lang : pystr)
    (st : structure) :
  analyze_code_structure ps code lang = Ok st ->
  total_lines st <= 500 ->
  exists c,
    create_chunks st code default_max_chunk_size = [c]
    /\ function_count st <= c_complexity c
    /\ (c_complexity c = 0 <-> functions st = []).
Proof.
  intros Hst Hlines.
  assert (Hok : Forall function_ok (functions st)).
  { by apply (analyze_code_structure_lists ps code lang). }
  destruct (analyze_code_structure_report ps code lang st Hst) as (_ & Hcount & _).
  unfold create_chunks, default_max_chunk_size.
  apply Z.leb_le in Hlines. rewrite Hlines. cbn [app].
  eexists. split; [reflexivity|]. cbn [c_complexity].
  rewrite pysum_total_complexity, Hcount.
  pose proof (total_complexity_ge_length (functions st) Hok) as Hge.
  split; [exact Hge|]. split.
  - intros H0. destruct (functions st) as [|f fs]; [done|].
    unfold len in Hge. cbn [length] in Hge. lia.
  - intros ->. reflexivity.
Qed.

Lemma full_chunk_complexity_witness :
  exists c,
    create_chunks
      {| functions :=
           [ {| f_name := lit "f"; f_start_line := 0; f_end_line := 1;
                f_code := lit "def f(x):" ++ [nl] ++ lit "    print(g(x))";
                f_has_loops := false; f_has_conditionals := false;
                f_calls := [lit "g"]; f_complexity := 1 |} ];
         main_code := [lit "y = f(1)"; lit "y = f(1)"];
         total_lines := 3; function_count := 1; chunks := None |}
      example_program_code default_max_chunk_size = [c]
    /\ 1 <= c_complexity c
    /\ (c_complexity c = 0
        <-> [ {| f_name := lit "f"; f_start_line := 0; f_end_line := 1;
                 f_code := lit "def f(x):" ++ [nl] ++ lit "    print(g(x))";
                 f_has_loops := false; f_has_conditionals := false;
                 f_calls := [lit "g"]; f_complexity := 1 |} ] = []).
Proof.
  apply (full_chunk_complexity example_program_parsers
           example_program_code (lit "python")
           {| functions :=
                [ {| f_name := lit "f"; f_start_line := 0; f_end_line := 1;
                     f_code := lit "def f(x):" ++ [nl] ++ lit "    print(g(x))";
                     f_has_loops := false; f_has_conditionals := false;
                     f_calls := [lit "g"]; f_complexity := 1 |} ];
              main_code := [lit "y = f(1)"; lit "y = f(1)"];
              total_lines := 3; function_count := 1; chunks := None |}).
  - vm_compute. reflexivity.
  - simpl. lia.
Defined.

Lemma utf8_encode_Raise (s : pystr) (e : exn) :
  utf8_encode s = Raise e ->
  e = UnicodeEncodeError /\ forallb scalar_value s = false.
Proof.
  intros H. split.
  - revert H. induction s as [|c s IH]; simpl; [discriminate|].
    destruct (utf8_encode_cp c); [|by intros [= <-]].
    destruct (utf8_encode s); simpl; [discriminate|].
    intros [= <-]. by apply IH.
  - destruct (forallb scalar_value s) eqn:E; [|done].
    destruct (utf8_encode_total s E) as [bs Hbs]. congruence.
Qed.


(** [traverse] returns exactly when every function that it meets fits the
    room left at its depth, and raises [RecursionError] otherwise. *)
Lemma traverse_fit (room : nat) (n : node) (depth : Z) (acc : extraction) :
  match traverse room n depth acc with
  | Ok _ => functions_fit room n depth = true
  | Raise e => e = RecursionError /\ functions_fit room n depth = false
  end.
Proof.
  revert depth acc.
  induction n as [t b r1 r2 x cs IH] using node_ind_children.
  intros depth acc. cbn [traverse functions_fit].
  destruct (depth >? 20); [reflexivity|]. cbn [orb].
  set (all := fix all (l : list node) : bool :=
                match l with
                | [] => true
                | c :: l' =>
                    (negb (is_named c) || functions_fit room c (depth + 1))
                    && all l'
                end).
  set (a0 := if str_in t [_; _; _] then _ else _).
  set (own := negb (str_in t function_types) || _).
  assert (Hacc : match a0 with
                 | Ok _ => own = true
                 | Raise e => e = RecursionError /\ own = false
                 end).
  { subst a0 own. unfold function_types. destruct (str_in t [_; _; _]).
    - cbn [negb orb].
      pose proof (extract_function_node_info_room
                    (room - Z.to_nat depth) (Node t b r1 r2 x cs)) as H.
      destruct (extract_function_node_info _ _) as [f|e].
      + by apply Nat.leb_le.
      + destruct H as [-> Hlt]. split; [reflexivity|].
        by apply Nat.leb_gt.
    - by destruct (str_in t _ && (depth <=? 2)). }
  clearbody a0 own. destruct a0 as [a|e].
  2:{ destruct Hacc as [-> ->]. done. }
  rewrite Hacc. cbn [andb]. clear Hacc.
  revert a. induction cs as [|c cs IHcs]; intros a; [reflexivity|].
  apply Forall_cons in IH as [Hc Hcs].
  cbn [all]. fold all.
  destruct (is_named c); cbn [negb orb].
  - specialize (Hc (depth + 1) a).
    destruct (traverse room c (depth + 1) a) as [a1|e].
    + rewrite Hc. cbn [andb]. by apply IHcs.
    + destruct Hc as [-> ->]. done.
  - by apply IHcs.
Qed.




(** ** The clean-up of a model answer *)

Lemma rstrip_app_nonspace (a r : pystr) (c : N) :
  isspace c = false -> rstrip (a ++ c :: r) = a ++ c :: rstrip r.
Proof.
  intros Hc. unfold rstrip.
  rewrite rev_app_distr. simpl rev. rewrite <- app_assoc. simpl.
  rewrite lstrip_app_nonspace by done.
  rewrite rev_app_distr. simpl rev. rewrite rev_involutive.
  by rewrite <- app_assoc.
Qed.

(** A prefix that begins and ends with a character that is no white space
    is still a prefix after [strip]. *)
Lemma strip_keeps_prefix (c1 c2 : N) (mid s : pystr) :
  isspace c1 = false -> isspace c2 = false ->
  startswith (c1 :: mid ++ [c2]) s = true ->
  startswith (c1 :: mid ++ [c2]) (strip s) = true.
Proof.
  intros H1 H2 Hs. apply startswith_true in Hs as [r ->].
  apply startswith_true. exists (rstrip r).
  unfold strip. simpl. rewrite H1.
  change (c1 :: (mid ++ [c2]) ++ r) with ((c1 :: mid ++ [c2]) ++ r).
  replace ((c1 :: mid ++ [c2]) ++ r) with ((c1 :: mid) ++ c2 :: r)
    by (simpl; by rewrite <- app_assoc).
  rewrite rstrip_app_nonspace by done.
  simpl. by rewrite <- app_assoc.
Qed.

(** A text that begins and ends with a character that is no white space is
    its own [strip]. *)
Lemma strip_bounded (c1 c2 : N) (mid : pystr) :
  isspace c1 = false -> isspace c2 = false ->
  strip (c1 :: mid ++ [c2]) = c1 :: mid ++ [c2].
Proof.
  intros H1 H2. unfold strip. cbn [lstrip]. rewrite H1.
  change (c1 :: mid ++ [c2]) with ((c1 :: mid) ++ c2 :: []).
  by rewrite rstrip_app_nonspace.
Qed.

Lemma with_directive_starts (result : pystr) :
  startswith (lit "graph TD") (with_directive result)
  || startswith (lit "flowchart TD") (with_directive result) = true.
Proof.
  unfold with_directive.
  destruct (startswith (lit "graph TD") result) eqn:E1; cbn [negb andb];
    [by rewrite E1|].
  destruct (startswith (lit "flowchart TD") result) eqn:E2; cbn [negb andb].
  - by rewrite E1, E2.
  - reflexivity.
Qed.

Lemma extract_mermaid_with_directive (content : pystr) :
  exists result, extract_mermaid content = strip (with_directive result).
Proof. unfold extract_mermaid, with_directive. by eexists. Qed.

Lemma strip_directive_starts (s : pystr) :
  startswith (lit "graph TD") s || startswith (lit "flowchart TD") s = true ->
  startswith (lit "graph TD") (strip s)
  || startswith (lit "flowchart TD") (strip s) = true.
Proof.
  intros H. apply orb_true_iff in H as [H|H]; apply orb_true_iff.
  - left. by apply (strip_keeps_prefix 103 68 (lit "raph T")).
  - right. by apply (strip_keeps_prefix 102 68 (lit "lowchart T")).
Qed.

(** X6. Whatever the model answers, and when the model fails, the fragment
    that [generate_flowchart_for_chunk] returns begins with [graph TD] or
    [flowchart TD] and has no white space in front or behind. *)
Theorem generate_flowchart_for_chunk_directive (llm : llm_oracle) (c : chunk)
    (chunk_index total_chunks : Z) (out : pystr) :
  generate_flowchart_for_chunk llm c chunk_index total_chunks = Ok out ->
  startswith (lit "graph TD") out || startswith (lit "flowchart TD") out = true
  /\ strip out = out.
Proof.
  unfold generate_flowchart_for_chunk.
  destruct (build_prompt c chunk_index) as [prompt|e]; simpl; [|discriminate].
  destruct (llm prompt) as [content|e].
  - intros [= <-].
    destruct (extract_mermaid_with_directive content) as [result ->].
    split; [|apply strip_idempotent].
    apply strip_directive_starts, with_directive_starts.
  - intros [= <-]. split; [reflexivity|].
    assert (error_diagram (c_name c)
            = 103%N :: (lit "raph TD" ++ [nl] ++ lit "    ERR[Error: "
                          ++ c_name c) ++ [93%N]) as ->.
    { unfold error_diagram. rewrite <- !app_assoc. reflexivity. }
    by apply strip_bounded.
Qed.

Lemma generate_flowchart_for_chunk_directive_witness :
  startswith (lit "graph TD") (lit "graph TD" ++ [nl] ++ lit "A1 --> A2")
  || startswith (lit "flowchart TD") (lit "graph TD" ++ [nl] ++ lit "A1 --> A2")
     = true
  /\ strip (lit "graph TD" ++ [nl] ++ lit "A1 --> A2")
     = lit "graph TD" ++ [nl] ++ lit "A1 --> A2".
Proof.
  apply (generate_flowchart_for_chunk_directive
           (fun _ => Ok ([nl] ++ lit "  A1 --> A2  "))
           (example_chunk (lit "f")) 0 1).
  vm_compute. reflexivity.
Defined.

Lemma not_elem_of_forallb (h : N) (s : pystr) :
  forallb (fun c => negb (c =? h)%N) s = true -> h ∉ s.
Proof.
  induction s as [|c s IH]; simpl; [intros _; apply not_elem_of_nil|].
  intros H. apply andb_true_iff in H as [Hc Hs].
  apply not_elem_of_cons. split; [|by apply IH].
  apply negb_true_iff, N.eqb_neq in Hc. congruence.
Qed.

Lemma find_aux_cons (sub t : pystr) (c : N) (i : nat) :
  find_aux sub (c :: t) i
  = if startswith sub (c :: t) then Some i else find_aux sub t (S i).
Proof. reflexivity. Qed.

Lemma startswith_head_differs (h c : N) (sub t : pystr) :
  h <> c -> startswith (h :: sub) (c :: t) = false.
Proof.
  intros Hne. cbn [startswith].
  assert ((h =? c)%N = false) as -> by (by apply N.eqb_neq).
  reflexivity.
Qed.

Lemma find_aux_first (h : N) (sub pre rest : pystr) (i : nat) :
  h ∉ pre ->
  find_aux (h :: sub) (pre ++ (h :: sub) ++ rest) i = Some (i + length pre)%nat.
Proof.
  revert i. induction pre as [|c pre IH]; intros i Hpre.
  - change ([] ++ (h :: sub) ++ rest) with (h :: (sub ++ rest)).
    rewrite find_aux_cons.
    assert (startswith (h :: sub) (h :: sub ++ rest) = true) as ->
      by (apply startswith_true; by eexists).
    f_equal. simpl. lia.
  - apply not_elem_of_cons in Hpre as [Hne Hpre].
    change ((c :: pre) ++ (h :: sub) ++ rest)
      with (c :: (pre ++ (h :: sub) ++ rest)).
    rewrite find_aux_cons, startswith_head_differs by done.
    rewrite (IH (S i) Hpre). f_equal. simpl. lia.
Qed.

Lemma find_aux_absent (h : N) (sub s : pystr) (i : nat) :
  h ∉ s -> find_aux (h :: sub) s i = None.
Proof.
  revert i. induction s as [|c s IH]; intros i Hs; [reflexivity|].
  apply not_elem_of_cons in Hs as [Hne Hs].
  rewrite find_aux_cons, startswith_head_differs by done.
  by apply IH.
Qed.

Lemma str_find_from (s sub : pystr) (k : nat) :
  (k <= length s)%nat ->
  str_find s sub (Z.of_nat k)
  = match find_aux sub (drop k s) k with
    | Some i => Z.of_nat i
    | None => -1
    end.
Proof.
  intros Hk. unfold str_find, len.
  destruct (Z.ltb_spec (Z.of_nat k) 0); [lia|].
  destruct (Z.ltb_spec (Z.of_nat (length s)) (Z.of_nat k)); [lia|].
  by rewrite Nat2Z.id.
Qed.

(** X7. When the stripped answer of the model holds a fence opened with
    three backquotes and [mermaid] and closed with three backquotes, with no
    backquote in front of it or inside it, the fragment is what stands
    between the two fences, stripped, with the line [graph TD] put in front
    unless it begins with a directive; the text around the fences is
    dropped. *)
Theorem generate_flowchart_for_chunk_fenced (llm : llm_oracle) (c : chunk)
    (chunk_index total_chunks : Z) (prompt content pre body post : pystr) :
  build_prompt c chunk_index = Ok prompt -> llm prompt = Ok content ->
  strip content = pre ++ lit "```mermaid" ++ body ++ lit "```" ++ post ->
  backquote ∉ pre -> backquote ∉ body ->
  generate_flowchart_for_chunk llm c chunk_index total_chunks
  = Ok (strip (with_directive (strip body))).
Proof.
  intros Hp Hl Hs Hpre Hbody.
  unfold generate_flowchart_for_chunk. rewrite Hp. simpl. rewrite Hl.
  f_equal. unfold extract_mermaid. fold (with_directive).
  set (s := strip content) in *.
  assert (Hfind : find_aux (lit "```mermaid") s 0 = Some (length pre)).
  { rewrite Hs. change (lit "```mermaid") with (backquote :: lit "``mermaid").
    rewrite (find_aux_first backquote) by done. f_equal. }
  assert (contains (lit "```mermaid") s = true) as ->
    by (unfold contains; by rewrite Hfind).
  assert (Hlen : (length pre + 10 + length body <= length s)%nat).
  { rewrite Hs, !length_app. simpl. lia. }
  rewrite (str_find_from s _ 0) by lia. rewrite drop_0, Hfind.
  replace (Z.of_nat (length pre) + 10) with (Z.of_nat (length pre + 10)) by lia.
  rewrite (str_find_from s _ (length pre + 10)) by lia.
  assert (Hdrop : drop (length pre + 10) s = body ++ lit "```" ++ post).
  { rewrite Hs. rewrite <- drop_drop, drop_app_length.
    change 10%nat with (length (lit "```mermaid")).
    by rewrite drop_app_length. }
  rewrite Hdrop. change (lit "```") with (backquote :: lit "``").
  rewrite (find_aux_first backquote) by done.
  assert (negb (Z.of_nat (length pre + 10 + length body) =? -1) = true) as ->.
  { apply negb_true_iff, Z.eqb_neq. lia. }
  unfold slice. rewrite Nat2Z.id.
  replace (Z.to_nat (Z.of_nat (length pre + 10 + length body)
                     - Z.of_nat (length pre + 10))) with (length body) by lia.
  rewrite Hdrop, take_app_length. reflexivity.
Qed.

Lemma generate_flowchart_for_chunk_fenced_witness :
  generate_flowchart_for_chunk
    (fun _ => Ok (lit "Here it is: ```mermaid" ++ [nl] ++ lit "A1 --> A2"
                    ++ [nl] ++ lit "``` Enjoy!"))
    (example_chunk (lit "f")) 0 1
  = Ok (strip (with_directive (strip ([nl] ++ lit "A1 --> A2" ++ [nl])))).
Proof.
  destruct (build_prompt (example_chunk (lit "f")) 0) as [prompt|e] eqn:E;
    [|vm_compute in E; discriminate].
  apply (generate_flowchart_for_chunk_fenced _ _ 0 1 prompt
           (lit "Here it is: ```mermaid" ++ [nl] ++ lit "A1 --> A2"
              ++ [nl] ++ lit "``` Enjoy!")
           (lit "Here it is: ") ([nl] ++ lit "A1 --> A2" ++ [nl])
           (lit " Enjoy!")).
  - exact E.
  - reflexivity.
  - vm_compute. reflexivity.
  - apply not_elem_of_forallb. vm_compute. reflexivity.
  - apply not_elem_of_forallb. vm_compute. reflexivity.
Defined.

(** X8. When the stripped answer opens a fence with three backquotes and
    [mermaid] and holds no further backquote, so that the fence is never
    closed, nothing is cut out: the fragment is the whole stripped answer,
    fence marker included, with the line [graph TD] put in front unless the
    answer begins with a directive. *)
Theorem generate_flowchart_for_chunk_open_fence (llm : llm_oracle) (c : chunk)
    (chunk_index total_chunks : Z) (prompt content pre rest : pystr) :
  build_prompt c chunk_index = Ok prompt -> llm prompt = Ok content ->
  strip content = pre ++ lit "```mermaid" ++ rest ->
  backquote ∉ pre -> backquote ∉ rest ->
  generate_flowchart_for_chunk llm c chunk_index total_chunks
  = Ok (strip (with_directive (strip content))).
Proof.
  intros Hp Hl Hs Hpre Hrest.
  unfold generate_flowchart_for_chunk. rewrite Hp. simpl. rewrite Hl.
  f_equal. unfold extract_mermaid. fold (with_directive).
  set (s := strip content) in *.
  assert (Hfind : find_aux (lit "```mermaid") s 0 = Some (length pre)).
  { rewrite Hs. change (lit "```mermaid") with (backquote :: lit "``mermaid").
    rewrite (find_aux_first backquote) by done. f_equal. }
  assert (contains (lit "```mermaid") s = true) as ->
    by (unfold contains; by rewrite Hfind).
  assert (Hlen : (length pre + 10 <= length s)%nat).
  { rewrite Hs, !length_app. simpl. lia. }
  rewrite (str_find_from s _ 0) by lia. rewrite drop_0, Hfind.
  replace (Z.of_nat (length pre) + 10) with (Z.of_nat (length pre + 10)) by lia.
  rewrite (str_find_from s _ (length pre + 10)) by lia.
  assert (Hdrop : drop (length pre + 10) s = rest).
  { rewrite Hs. rewrite <- drop_drop, drop_app_length.
    change 10%nat with (length (lit "```mermaid")).
    by rewrite drop_app_length. }
  rewrite Hdrop. change (lit "```") with (backquote :: lit "``").
  rewrite (find_aux_absent backquote) by done.
  reflexivity.
Qed.

Lemma generate_flowchart_for_chunk_open_fence_witness :
  generate_flowchart_for_chunk
    (fun _ => Ok (lit "```mermaid" ++ [nl] ++ lit "A1 --> A2"))
    (example_chunk (lit "f")) 0 1
  = Ok (strip (with_directive
                 (strip (lit "```mermaid" ++ [nl] ++ lit "A1 --> A2")))).
Proof.
  destruct (build_prompt (example_chunk (lit "f")) 0) as [prompt|e] eqn:E;
    [|vm_compute in E; discriminate].
  apply (generate_flowchart_for_chunk_open_fence _ _ 0 1 prompt
           (lit "```mermaid" ++ [nl] ++ lit "A1 --> A2")
           [] ([nl] ++ lit "A1 --> A2")).
  - exact E.
  - reflexivity.
  - vm_compute. reflexivity.
  - apply not_elem_of_nil.
  - apply not_elem_of_forallb. vm_compute. reflexivity.
Defined.

(** ** The combiner on any number of fragments *)

Lemma chain_edges_length_any (n : Z) :
  length (chain_edges n) = S (Nat.max 1 (Z.to_nat n)).
Proof.
  unfold chain_edges. rewrite !length_app, length_map, range_length.
  simpl. lia.
Qed.

(** X9. For any number of fragments other than one, [combine_flowcharts]
    raises [KeyError] when the structure has no chunks.  Otherwise it
    returns the text of the two leading lines, the blocks and the chain,
    each line after the first one behind a line feed.  There are as many
    blocks as there are chunks or fragments, whichever are fewer, block [i]
    made of chunk [i] and fragment [i].  The chain follows the number of
    fragments alone: it has one edge more than there are fragments (two for
    no fragment), from the start node to subgraph 0, from each subgraph to
    the next one, and from the subgraph numbered one less than the number
    of fragments to the end node, whether these subgraphs have a block or
    not. *)
Theorem combine_flowcharts_any (fcs : list pystr) (st : structure) :
  length fcs <> 1%nat ->
  match chunks st with
  | None => combine_flowcharts fcs st = Raise (KeyError (lit "chunks"))
  | Some cs =>
      exists blocks edges,
        combine_flowcharts fcs st
        = Ok (lit "graph TD"
              ++ concat (map (cons nl)
                           (lit "    START([Program Start])"
                            :: concat blocks ++ edges)))
        /\ length blocks = Nat.min (length cs) (length fcs)
        /\ (forall (i : nat) (c : chunk) (f : pystr),
              cs !! i = Some c -> fcs !! i = Some f ->
              blocks !! i
              = Some ([lit "    subgraph SUB" ++ str_of_Z (Z.of_nat i)
                         ++ lit "[" ++ c_name c ++ lit "]"]
                      ++ map (fun line => lit "    " ++ line)
                           (chunk_lines_of f)
                      ++ [lit "    end"]))
        /\ length edges = S (Nat.max 1 (length fcs))
        /\ edges !! 0%nat = Some (lit "    START --> SUB0")
        /\ (forall i : nat,
              (S i < length fcs)%nat ->
              edges !! S i
              = Some (lit "    SUB" ++ str_of_Z (Z.of_nat i) ++ lit " --> SUB"
                        ++ str_of_Z (Z.of_nat i + 1)))
        /\ last edges
           = Some (lit "    SUB" ++ str_of_Z (len fcs - 1)
                     ++ lit " --> END([Program End])")
  end.
Proof.
  intros Hlen. destruct (chunks st) as [cs|] eqn:Hcs.
  - exists (blocks_from 0 (zip cs fcs)), (chain_edges (len fcs)).
    split; [by apply combine_flowcharts_text|].
    split; [by rewrite blocks_from_length, length_zip_with|].
    split; [intros i c f Hc Hf; by apply blocks_from_lookup_0|].
    split; [rewrite chain_edges_length_any; unfold len; by rewrite Nat2Z.id|].
    split; [apply chain_edges_first|].
    split; [|apply chain_edges_final].
    intros i Hi. apply chain_edges_middle. unfold len. lia.
  - unfold combine_flowcharts. rewrite Hcs.
    destruct fcs as [|f1 [|f2 fcs]]; simpl in Hlen; done.
Qed.

Lemma combine_flowcharts_any_witness :
  combine_flowcharts example_fragments
    {| functions := []; main_code := []; total_lines := 600;
       function_count := 0;
       chunks := Some [example_chunk (lit "load data")] |}
  = Ok (lit "graph TD" ++ [nl]
        ++ lit "    START([Program Start])" ++ [nl]
        ++ lit "    subgraph SUB0[load data]" ++ [nl]
        ++ lit "        A1([Start]) --> A2[Load]" ++ [nl]
        ++ lit "    end" ++ [nl]
        ++ lit "    START --> SUB0" ++ [nl]
        ++ lit "    SUB0 --> SUB1" ++ [nl]
        ++ lit "    SUB1 --> END([Program End])").
Proof.
  pose proof (combine_flowcharts_any example_fragments
                {| functions := []; main_code := []; total_lines := 600;
                   function_count := 0;
                   chunks := Some [example_chunk (lit "load data")] |}) as H.
  cbn [chunks] in H.
  destruct H as (blocks & edges & Hout & Hb & Hblock & He & He0 & Hmid & Hlast).
  - simpl. lia.
  - rewrite Hout.
    destruct blocks as [|b0 [|b1 blocks]]; try discriminate Hb.
    destruct edges as [|e0 [|e1 [|e2 [|e3 edges]]]]; try discriminate He.
    pose proof (Hblock 0%nat _ _ eq_refl eq_refl) as H0.
    pose proof (Hmid 0%nat ltac:(simpl; lia)) as Hm.
    injection H0 as ->. injection He0 as ->. injection Hm as ->.
    injection Hlast as ->.
    vm_compute. reflexivity.
Defined.

(** ** What a successful run returns *)

Lemma fragment_directive (llm : llm_oracle) (c : chunk)
    (chunk_index total_chunks : Z) (out : pystr) :
  generate_flowchart_for_chunk llm c chunk_index total_chunks = Ok out ->
  startswith (lit "graph TD") out || startswith (lit "flowchart TD") out = true.
Proof.
  unfold generate_flowchart_for_chunk.
  destruct (build_prompt c chunk_index) as [prompt|e]; simpl; [|discriminate].
  destruct (llm prompt) as [content|e]; intros [= <-]; [|reflexivity].
  destruct (extract_mermaid_with_directive content) as [result ->].
  apply strip_directive_starts, with_directive_starts.
Qed.

Lemma generate_all_directive (llm : Z -> llm_oracle) (cs : list chunk)
    (i total : Z) (acc out : list pystr) :
  Forall (fun f => startswith (lit "graph TD") f
                   || startswith (lit "flowchart TD") f = true) acc ->
  generate_all llm cs i total acc = Ok out ->
  Forall (fun f => startswith (lit "graph TD") f
                   || startswith (lit "flowchart TD") f = true) out.
Proof.
  revert i acc. induction cs as [|c cs IH]; intros i acc Hacc; simpl.
  - by intros [= <-].
  - destruct (generate_flowchart_for_chunk (llm i) c i total) as [fc|e] eqn:E;
      simpl; [|discriminate].
    apply IH. apply Forall_app. split; [done|].
    constructor; [|constructor]. by apply fragment_directive in E.
Qed.

Lemma resolve_language_not_auto (code language : pystr) :
  resolve_language code language <> lit "auto".
Proof.
  unfold resolve_language, str_eqb.
  destruct (bool_decide_reflect (language = lit "auto")) as [->|Hne]; simpl.
  - unfold detect_language.
    repeat match goal with
           | |- context [if ?b then _ else _] => destruct b
           end; discriminate.
  - exact Hne.
Qed.

(** What [build_diagram] leaves when it returns. *)
Lemma build_diagram_Ok (ps : parsers) (llm : Z -> llm_oracle)
    (code language : pystr) (b : built) :
  build_diagram ps llm code language = Ok b ->
  exists st,
    analyze_code_structure ps code (resolve_language code language) = Ok st
    /\ b_lang b = resolve_language code language
    /\ b_chunks b = create_chunks st code default_max_chunk_size
    /\ b_structure b = set_chunks st (b_chunks b)
    /\ b_chunks b <> []
    /\ startswith (lit "graph TD") (b_final_mermaid b)
       || startswith (lit "flowchart TD") (b_final_mermaid b) = true.
Proof.
  unfold build_diagram.
  destruct (analyze_code_structure ps code _) as [st|e]; simpl; [|discriminate].
  set (cs := create_chunks st code default_max_chunk_size).
  destruct (generate_all llm cs 0 (len cs) []) as [fcs|e] eqn:Hgen; simpl;
    [|discriminate].
  pose proof (generate_all_directive llm cs 0 (len cs) [] fcs
                (List.Forall_nil _) Hgen) as Hdir.
  pose proof (generate_all_length llm cs 0 (len cs) [] fcs Hgen) as Hlen.
  simpl in Hlen.
  destruct (Z.gtb_spec (len cs) 1) as [Hmany|Hfew].
  - rewrite (combine_flowcharts_many fcs cs (set_chunks st cs) eq_refl)
      by (unfold len in Hmany; lia).
    cbn [rbind]. intros [= <-]. exists st.
    cbn [b_lang b_chunks b_structure b_final_mermaid].
    split; [done|]. split; [done|]. split; [done|]. split; [done|]. split.
    + intros Hnil. unfold len in Hmany. rewrite Hnil in Hmany.
      simpl in Hmany. lia.
    + reflexivity.
  - destruct fcs as [|f fcs]; simpl; [discriminate|].
    intros [= <-]. exists st.
    cbn [b_lang b_chunks b_structure b_final_mermaid].
    split; [done|]. split; [done|]. split; [done|]. split; [done|]. split.
    + intros Hnil. rewrite Hnil in Hlen. discriminate.
    + by apply Forall_cons in Hdir as [Hf _].
Qed.

Lemma pysum_app (l : list Z) (x : Z) : pysum (l ++ [x]) = pysum l + x.
Proof. unfold pysum. by rewrite fold_left_app. Qed.

Lemma function_chunks_complexity (fs : list FunctionInfo) (out : list chunk) :
  Forall2 is_function_chunk fs out ->
  map c_complexity out = map f_complexity fs.
Proof.
  induction 1 as [|f c fs out Hfc _ IH]; [reflexivity|].
  destruct Hfc as (_ & _ & _ & Hc & _). simpl. by rewrite Hc, IH.
Qed.

(** The number of chunks of a plan and the sum of their complexities. *)
Lemma create_chunks_numbers (st : structure) (code : pystr) :
  let cs := create_chunks st code default_max_chunk_size in
  len cs = (if total_lines st <=? 500 then 1
            else len (functions st)
                 + (if truthy (main_code st) then 1 else 0))
  /\ pysum (map c_complexity cs)
     = total_complexity (functions st)
       + (if (500 <? total_lines st) && truthy (main_code st) then 1 else 0).
Proof.
  unfold create_chunks, default_max_chunk_size.
  destruct (Z.leb_spec (total_lines st) 500) as [Hle|Hgt].
  - assert ((500 <? total_lines st) = false) as -> by (apply Z.ltb_ge; lia).
    cbn [app map andb]. split; [reflexivity|].
    unfold pysum at 1. cbn [fold_left c_complexity].
    rewrite pysum_total_complexity. lia.
  - assert ((500 <? total_lines st) = true) as -> by (apply Z.ltb_lt; lia).
    destruct (function_chunks_fold (functions st) []) as (pf & -> & Hall).
    cbn [app andb].
    pose proof (Forall2_length _ _ _ Hall) as Hlen.
    pose proof (function_chunks_complexity _ _ Hall) as Hmap.
    destruct (truthy (main_code st)).
    + unfold len. rewrite length_app, map_app, Hmap. cbn [length map].
      rewrite pysum_app, pysum_total_complexity. cbn [c_complexity].
      split; lia.
    + unfold len. rewrite Hmap, pysum_total_complexity. split; lia.
Qed.

(** X10. A run of [process_code_internal] that returns has built a diagram
    that begins with [graph TD] or [flowchart TD]; its HTML is the image box
    of the very URL it returns, never the error box; the language it reports
    is the resolved one and never [auto]; it reports at least one chunk; and
    it leaves the session store as it was and the URL global of thisworks.py
    at the same URL. *)
Theorem process_code_internal_success (ps : parsers) (llm : Z -> llm_oracle)
    (code language : pystr) (s s' : api_state) (r : flowchart_response) :
  process_code_internal ps llm code language s = (Ok r, s') ->
  fr_success r = true
  /\ startswith (lit "graph TD") (fr_mermaid_code r)
     || startswith (lit "flowchart TD") (fr_mermaid_code r) = true
  /\ fr_html_svg r = HtmlImage (fr_svg_url r)
  /\ a_language (fr_analysis r) = resolve_language code language
  /\ a_language (fr_analysis r) <> lit "auto"
  /\ 1 <= a_chunks (fr_analysis r)
  /\ code_storage s' = code_storage s
  /\ tw_current_svg_url (tw_globals s') = fr_svg_url r.
Proof.
  unfold process_code_internal.
  destruct (build_diagram ps llm code language) as [b|e] eqn:Hb;
    [|discriminate].
  destruct (build_diagram_Ok ps llm code language b Hb)
    as (st & _ & Hlang & _ & _ & Hne & Hdir).
  unfold mermaid_to_svg, svg_url_of.
  destruct (utf8_encode (b_final_mermaid b)) as [bs|e]; cbn [rbind];
    [|discriminate].
  intros [= <- <-]. cbn.
  split; [done|]. split; [exact Hdir|]. split; [done|]. split; [exact Hlang|].
  split; [rewrite Hlang; apply resolve_language_not_auto|].
  split; [|done].
  unfold len. destruct (b_chunks b); [done|]. cbn [length]. lia.
Qed.

Lemma process_code_internal_success_witness :
  exists r,
    fst (process_code_internal example_assignment_parsers example_llm
           example_assignment_code (lit "auto") initial_state) = Ok r
    /\ fr_html_svg r = HtmlImage (fr_svg_url r)
    /\ a_language (fr_analysis r) = lit "python"
    /\ 1 <= a_chunks (fr_analysis r).
Proof.
  destruct (process_code_internal example_assignment_parsers example_llm
              example_assignment_code (lit "auto") initial_state)
    as [[r|e] s'] eqn:E; [|vm_compute in E; discriminate].
  destruct (process_code_internal_success _ _ _ _ _ _ _ E)
    as (_ & _ & Hhtml & Hlang & _ & Hchunks & _).
  exists r. split; [reflexivity|]. split; [exact Hhtml|].
  split; [exact Hlang | exact Hchunks].
Defined.

(** X11. The numbers in the analysis of a run that returns are those of the
    extractor's report: its line and function counts; one chunk up to 500
    lines, and one per function plus one for recorded snippets above; and as
    total complexity the sum of the complexities of the functions, plus one
    for the aggregate chunk when there is one. *)
Theorem process_code_internal_analysis (ps : parsers) (llm : Z -> llm_oracle)
    (code language : pystr) (s s' : api_state) (r : flowchart_response) :
  process_code_internal ps llm code language s = (Ok r, s') ->
  exists st,
    analyze_code_structure ps code (resolve_language code language) = Ok st
    /\ a_total_lines (fr_analysis r) = total_lines st
    /\ a_function_count (fr_analysis r) = function_count st
    /\ a_chunks (fr_analysis r)
       = (if total_lines st <=? 500 then 1
          else len (functions st) + (if truthy (main_code st) then 1 else 0))
    /\ a_total_complexity (fr_analysis r)
       = total_complexity (functions st)
         + (if (500 <? total_lines st) && truthy (main_code st) then 1 else 0).
Proof.
  unfold process_code_internal.
  destruct (build_diagram ps llm code language) as [b|e] eqn:Hb;
    [|discriminate].
  destruct (build_diagram_Ok ps llm code language b Hb)
    as (st & Hst & _ & Hcs & Hstruct & _ & _).
  destruct (mermaid_to_svg (b_final_mermaid b) _) as [h g].
  destruct (utf8_encode (b_final_mermaid b)) as [bs|e]; [|discriminate].
  intros [= <- <-]. exists st. cbn.
  destruct (create_chunks_numbers st code) as [Hlen Hsum].
  rewrite Hstruct, Hcs. cbn. by rewrite Hlen, Hsum.
Qed.

Lemma process_code_internal_analysis_witness :
  exists (r : flowchart_response) (st : structure),
    fst (process_code_internal example_program_parsers example_llm
           example_program_code (lit "python") initial_state) = Ok r
    /\ a_total_lines (fr_analysis r) = total_lines st
    /\ a_function_count (fr_analysis r) = function_count st.
Proof.
  destruct (process_code_internal example_program_parsers example_llm
              example_program_code (lit "python") initial_state)
    as [[r|e] s'] eqn:E; [|vm_compute in E; discriminate].
  destruct (process_code_internal_analysis _ _ _ _ _ _ _ E)
    as (st & _ & Hl & Hf & _).
  exists r, st. split; [reflexivity|]. split; [exact Hl | exact Hf].
Defined.

(** ** What a failed run raises *)

Lemma generate_all_Raise (llm : Z -> llm_oracle) (cs : list chunk)
    (i total : Z) (acc : list pystr) (e : exn) :
  generate_all llm cs i total acc = Raise e -> e = ValueError.
Proof.
  revert i acc. induction cs as [|c cs IH]; intros i acc; simpl;
    [discriminate|].
  unfold generate_flowchart_for_chunk at 1, build_prompt.
  destruct (chr (65 + i)) as [letter|]; cbn [rbind].
  - destruct (llm i _); apply IH.
  - by intros [= <-].
Qed.

Lemma build_diagram_Raise (ps : parsers) (llm : Z -> llm_oracle)
    (code language : pystr) (e : exn) :
  build_diagram ps llm code language = Raise e -> run_error e.
Proof.
  unfold build_diagram, run_error.
  destruct (analyze_code_structure ps code _) as [st|e0] eqn:Hst; cbn [rbind].
  - set (cs := create_chunks st code default_max_chunk_size).
    destruct (generate_all llm cs 0 (len cs) []) as [fcs|e1] eqn:Hgen;
      cbn [rbind].
    + destruct (Z.gtb_spec (len cs) 1) as [Hmany|Hfew].
      * pose proof (generate_all_length llm cs 0 (len cs) [] fcs Hgen) as Hlen.
        rewrite (combine_flowcharts_many fcs cs (set_chunks st cs) eq_refl)
          by (unfold len in Hmany; simpl in Hlen; lia).
        discriminate.
      * destruct fcs as [|f fcs]; cbn; [|discriminate].
        intros [= <-]. auto.
    + intros [= <-]. apply generate_all_Raise in Hgen. auto.
  - intros [= <-]. rewrite analyze_code_structure_eq in Hst.
    destruct (utf8_encode code) as [bs|e1] eqn:E; cbn [rbind] in Hst.
    + pose proof (traverse_fit (recursion_room ps)
                    (parsed_tree ps (resolve_language code language) bs) 0
                    {| x_functions := []; x_main_code := [] |}) as Hfit.
      destruct (traverse _ _ _ _) as [r|e1]; cbn [rbind] in Hst;
        [discriminate|].
      injection Hst as <-. destruct Hfit as [-> _]. auto.
    + injection Hst as <-. apply utf8_encode_Raise in E as [-> _]. auto.
Qed.

Lemma process_code_internal_Raise (ps : parsers) (llm : Z -> llm_oracle)
    (code language : pystr) (s s' : api_state) (e : exn) :
  process_code_internal ps llm code language s = (Raise e, s') -> run_error e.
Proof.
  unfold process_code_internal.
  destruct (build_diagram ps llm code language) as [b|e0] eqn:Hb.
  - destruct (mermaid_to_svg (b_final_mermaid b) _) as [h g].
    destruct (utf8_encode (b_final_mermaid b)) as [bs|e1] eqn:E;
      [discriminate|].
    intros [= <- _]. apply utf8_encode_Raise in E as [-> _].
    unfold run_error. auto.
  - intros [= <- _]. by apply build_diagram_Raise in Hb.
Qed.

(** X12. [/generate] answers with status 400 exactly for a code text that is
    empty or all white space, and then changes nothing; every other failure
    is answered with status 500; no other exception leaves the handler. *)
Theorem generate_flowchart_statuses (ps : parsers) (llm : Z -> llm_oracle)
    (code language : pystr) (s : api_state) :
  (forallb isspace code = true ->
   generate_flowchart ps llm code language s
   = (Raise (HTTPException 400 (lit "Code cannot be empty")), s))
  /\ (forall (e : exn) (s' : api_state),
        generate_flowchart ps llm code language s = (Raise e, s') ->
        (exists detail,
           e = HTTPException 400 detail /\ forallb isspace code = true)
        \/ (exists detail,
              e = HTTPException 500 detail /\ forallb isspace code = false)).
Proof.
  split.
  - intros Hsp. apply generate_flowchart_blank. by apply is_blank_spec.
  - intros e s'. unfold generate_flowchart.
    destruct (is_blank code) eqn:Hb.
    + cbn. intros [= <- <-]. left. eexists. split; [reflexivity|].
      by apply is_blank_spec.
    + assert (Hsp : forallb isspace code = false).
      { destruct (forallb isspace code) eqn:E; [|done].
        apply is_blank_spec in E. congruence. }
      destruct (process_code_internal ps llm code language s)
        as [[r|e0] s0] eqn:Hp; [discriminate|].
      apply process_code_internal_Raise in Hp.
      destruct Hp as [-> | [-> | [-> | ->]]]; cbn; intros [= <- <-]; right;
        eexists; (split; [reflexivity | exact Hsp]).
Qed.

Lemma generate_flowchart_statuses_witness :
  generate_flowchart example_parsers example_llm [32%N; nl] (lit "auto")
    initial_state
  = (Raise (HTTPException 400 (lit "Code cannot be empty")), initial_state)
  /\ ((exists detail,
         HTTPException 500 (lit "Error processing code: list index out of range")
         = HTTPException 400 detail
         /\ forallb isspace example_comment_code = true)
      \/ (exists detail,
            HTTPException 500
              (lit "Error processing code: list index out of range")
            = HTTPException 500 detail
            /\ forallb isspace example_comment_code = false)).
Proof.
  split.
  - apply (proj1 (generate_flowchart_statuses example_parsers example_llm
                    [32%N; nl] (lit "auto") initial_state)).
    reflexivity.
  - apply (proj2 (generate_flowchart_statuses example_parsers example_llm
                    example_comment_code (lit "auto") initial_state)
             _ initial_state).
    vm_compute. reflexivity.
Defined.

(** X13. Generation for a stored session does what the direct endpoint does
    for the stored code and language: when the stored code is not blank,
    both return, with the same state and with responses that differ in the
    session identifier only, or both fail with status 500 and the same
    state. *)
Theorem generate_flowchart_by_session_direct (ps : parsers)
    (llm : Z -> llm_oracle) (session_id : pystr) (s : api_state)
    (entry : session) :
  code_storage s !! session_id = Some entry ->
  is_blank (s_code entry) = false ->
  match generate_flowchart_by_session ps llm session_id s,
        generate_flowchart ps llm (s_code entry) (s_language entry) s with
  | (Ok r1, s1), (Ok r2, s2) =>
      s1 = s2 /\ r1 = set_session_id r2 session_id
      /\ fr_session_id r1 = session_id /\ fr_session_id r2 = lit "direct"
  | (Raise (HTTPException 500 _), s1), (Raise (HTTPException 500 _), s2) =>
      s1 = s2
  | _, _ => False
  end.
Proof.
  intros Hentry Hblank.
  unfold generate_flowchart_by_session, generate_flowchart.
  rewrite Hentry, Hblank.
  destruct (process_code_internal ps llm (s_code entry) (s_language entry) s)
    as [[r|e] s0] eqn:Hp.
  - cbn. done.
  - apply process_code_internal_Raise in Hp.
    destruct Hp as [-> | [-> | [-> | ->]]]; cbn; done.
Qed.

Lemma generate_flowchart_by_session_direct_witness :
  match generate_flowchart_by_session example_assignment_parsers example_llm
          (lit "id-1")
          (snd (submit_code (lit "id-1") example_assignment_code initial_state)),
        generate_flowchart example_assignment_parsers example_llm
          example_assignment_code (lit "auto")
          (snd (submit_code (lit "id-1") example_assignment_code initial_state))
  with
  | (Ok r1, s1), (Ok r2, s2) =>
      s1 = s2 /\ r1 = set_session_id r2 (lit "id-1")
      /\ fr_session_id r1 = lit "id-1" /\ fr_session_id r2 = lit "direct"
  | (Raise (HTTPException 500 _), s1), (Raise (HTTPException 500 _), s2) =>
      s1 = s2
  | _, _ => False
  end.
Proof.
  apply (generate_flowchart_by_session_direct example_assignment_parsers
           example_llm (lit "id-1")
           (snd (submit_code (lit "id-1") example_assignment_code initial_state))
           {| s_code := example_assignment_code; s_language := lit "auto" |}).
  - reflexivity.
  - reflexivity.
Defined.

(** ** The session store over requests *)

Lemma step_code_storage (s : api_state) (r : request) :
  code_storage (step s r) = storage_after (code_storage s) r.
Proof.
  destruct r as [fid code|sid lang|ps llm sid|ps llm code language|sid|sid|];
    cbn [step storage_after].
  - unfold submit_code. by destruct (is_blank code).
  - unfold set_language. destruct (code_storage s !! sid); [|done].
    by destruct (str_in lang valid_languages).
  - unfold generate_flowchart_by_session.
    destruct (code_storage s !! sid) as [e|]; [|done].
    pose proof (process_code_internal_globals ps llm (s_code e)
                  (s_language e) s) as H.
    destruct (process_code_internal ps llm (s_code e) (s_language e) s)
      as [[r|x] s']; cbn; tauto.
  - unfold generate_flowchart. destruct (is_blank code); [done|].
    pose proof (process_code_internal_globals ps llm code language s) as H.
    destruct (process_code_internal ps llm code language s) as [[r|x] s'];
      cbn; [tauto|]. destruct x; cbn; tauto.
  - unfold get_session. by destruct (code_storage s !! sid).
  - unfold delete_session. destruct (code_storage s !! sid) eqn:E; [done|].
    cbn. by rewrite delete_id.
  - unfold get_current. by destruct (negb _).
Qed.

Lemma storage_after_ok (m : gmap pystr session) (r : request) :
  map_Forall (fun _ e => session_ok e) m ->
  map_Forall (fun _ e => session_ok e) (storage_after m r).
Proof.
  intros Hm.
  destruct r as [fid code|sid lang|ps llm sid|ps llm code language|sid|sid|];
    cbn [storage_after]; try done.
  - destruct (is_blank code) eqn:Hb; [done|].
    apply map_Forall_insert_2; [|done]. split; [done|].
    unfold valid_languages. set_solver.
  - destruct (m !! sid) as [e|] eqn:He; [|done].
    destruct (str_in lang valid_languages) eqn:Hl; [|done].
    apply map_Forall_insert_2; [|done]. split.
    + by destruct (Hm sid e He).
    + by apply str_in_spec.
  - by apply map_Forall_delete.
Qed.

(** X14. In every state that the server reaches from its start, whatever
    the requests were, each stored session holds code that is not blank and
    one of the languages [auto], [python], [javascript], [c]. *)
Theorem stored_sessions_valid (rs : list request) (session_id : pystr)
    (e : session) :
  code_storage (run initial_state rs) !! session_id = Some e ->
  is_blank (s_code e) = false /\ s_language e ∈ valid_languages.
Proof.
  assert (H : forall s, map_Forall (fun _ e => session_ok e) (code_storage s) ->
                        map_Forall (fun _ e => session_ok e)
                                   (code_storage (run s rs))).
  { induction rs as [|r rs IH]; intros s Hs; [done|].
    cbn [run fold_left]. apply IH.
    rewrite step_code_storage. by apply storage_after_ok. }
  intros He. apply (H initial_state (map_Forall_empty _) session_id e He).
Qed.

Lemma stored_sessions_valid_witness :
  is_blank (lit "x = 1") = false /\ lit "c" ∈ valid_languages.
Proof.
  apply (stored_sessions_valid
           [SubmitCode (lit "id-1") (lit "x = 1");
            SetLanguage (lit "id-1") (lit "rust");
            SetLanguage (lit "id-1") (lit "c");
            GetCurrent]
           (lit "id-1")
           {| s_code := lit "x = 1"; s_language := lit "c" |}).
  reflexivity.
Defined.

(** X15. A stored session stays stored, with the code it was created with,
    through every sequence of requests that neither delete it nor submit
    code under its identifier: generation, reads, [/current] and the
    requests on other sessions leave it alone, and only set-language
    changes its language. *)
Theorem session_persists (rs : list request) (s : api_state)
    (session_id : pystr) (e : session) :
  code_storage s !! session_id = Some e ->
  Forall (keeps_session session_id) rs ->
  exists e',
    code_storage (run s rs) !! session_id = Some e'
    /\ s_code e' = s_code e
    /\ (Forall (fun r => forall language,
                  r <> SetLanguage session_id language) rs ->
        e' = e).
Proof.
  revert s e. induction rs as [|r rs IH]; intros s e He Hkeep.
  - exists e. done.
  - apply Forall_cons in Hkeep as [Hr Hrs]. cbn [run fold_left].
    assert (Hstep : exists e1,
               code_storage (step s r) !! session_id = Some e1
               /\ s_code e1 = s_code e
               /\ ((forall language, r <> SetLanguage session_id language) ->
                   e1 = e)).
    { rewrite step_code_storage.
      destruct r as [fid code|sid lang|ps llm sid|ps llm code language|sid|sid|];
        cbn [storage_after keeps_session] in *; try (by exists e).
      - destruct (is_blank code); [by exists e|].
        exists e. by rewrite lookup_insert_ne.
      - destruct (decide (sid = session_id)) as [->|Hne].
        + rewrite He. destruct (str_in lang valid_languages); [|by exists e].
          eexists. rewrite lookup_insert_eq. split; [done|]. split; [done|].
          intros Hno. by destruct (Hno lang).
        + destruct (code_storage s !! sid); [|by exists e].
          destruct (str_in lang valid_languages); [|by exists e].
          exists e. by rewrite lookup_insert_ne.
      - exists e. by rewrite lookup_delete_ne. }
    destruct Hstep as (e1 & He1 & Hc1 & Hsame1).
    destruct (IH (step s r) e1 He1 Hrs) as (e' & He' & Hc' & Hsame').
    exists e'. split; [exact He'|]. split; [congruence|].
    intros Hno. apply Forall_cons in Hno as [Hno1 Hno2].
    rewrite (Hsame' Hno2). by apply Hsame1.
Qed.

Lemma session_persists_witness :
  exists e',
    code_storage
      (run (snd (submit_code (lit "id-1") (lit "x = 1") initial_state))
         [SetLanguage (lit "id-1") (lit "python");
          SubmitCode (lit "id-2") (lit "y = 2");
          DeleteSession (lit "id-2");
          GetCurrent])
    !! lit "id-1" = Some e'
    /\ s_code e' = lit "x = 1".
Proof.
  destruct (session_persists
              [SetLanguage (lit "id-1") (lit "python");
               SubmitCode (lit "id-2") (lit "y = 2");
               DeleteSession (lit "id-2");
               GetCurrent]
              (snd (submit_code (lit "id-1") (lit "x = 1") initial_state))
              (lit "id-1")
              {| s_code := lit "x = 1"; s_language := lit "auto" |})
    as (e' & He' & Hc & _).
  - reflexivity.
  - repeat constructor; discriminate.
  - exists e'. split; [exact He' | exact Hc].
Defined.

(** X16. The number of active sessions that [/health] reports changes with
    a request by exactly this much: plus one for a submission of code that
    is not blank under an identifier not yet stored, minus one for the
    deletion of a stored session, and not at all otherwise; and [/health]
    itself changes nothing. *)
Theorem health_check_active_sessions (s : api_state) (r : request) :
  health_check (step s r)
  = (Ok {| hr_status := lit "healthy"; hr_version := lit "4.0.0";
           hr_active_sessions :=
             Z.of_nat (size (code_storage s))
             + sessions_delta (code_storage s) r |}, step s r)
  /\ snd (health_check s) = s.
Proof.
  split; [|reflexivity]. unfold health_check. do 3 f_equal.
  rewrite step_code_storage.
  destruct r as [fid code|sid lang|ps llm sid|ps llm code language|sid|sid|];
    cbn [storage_after sessions_delta]; try lia.
  - destruct (is_blank code); [lia|].
    destruct (code_storage s !! fid) as [e|] eqn:E.
    + rewrite map_size_insert_Some by done. lia.
    + rewrite map_size_insert_None by done. lia.
  - destruct (code_storage s !! sid) as [e|] eqn:E; [|lia].
    destruct (str_in lang valid_languages); [|lia].
    rewrite map_size_insert_Some by done. lia.
  - destruct (code_storage s !! sid) as [e|] eqn:E.
    + rewrite map_size_delete_Some by done.
      assert (size (code_storage s) <> 0%nat).
      { intros H0. apply map_size_empty_inv in H0. rewrite H0 in E.
        by rewrite lookup_empty in E. }
      lia.
    + rewrite map_size_delete_None by done. lia.
Qed.

(** ** Escaping code for JSON *)

Lemma flat_map_flat_map {A B C} (f : A -> list B) (g : B -> list C)
    (l : list A) :
  flat_map g (flat_map f l) = flat_map (fun x => flat_map g (f x)) l.
Proof.
  induction l as [|x l IH]; simpl; [done|].
  by rewrite flat_map_app, IH.
Qed.

Lemma flat_map_ext_all {A B} (f g : A -> list B) (l : list A) :
  (forall x, f x = g x) -> flat_map f l = flat_map g l.
Proof. intros H. induction l as [|x l IH]; simpl; [done|]. by rewrite H, IH. Qed.

Lemma sanitize_one_pass (raw_code : pystr) :
  sanitize_code_to_json_string raw_code = flat_map json_escape raw_code.
Proof.
  unfold sanitize_code_to_json_string, replace_with.
  rewrite !flat_map_flat_map. apply flat_map_ext_all. intros c.
  unfold json_escape.
  destruct (N.eqb_spec c 92) as [->|H92]; [reflexivity|].
  destruct (N.eqb_spec c 34) as [->|H34]; [reflexivity|].
  destruct (N.eqb_spec c 10) as [->|H10]; [reflexivity|].
  destruct (N.eqb_spec c 13) as [->|H13]; [reflexivity|].
  destruct (N.eqb_spec c 9) as [->|H9]; [reflexivity|].
  cbn [flat_map app].
  repeat match goal with
         | |- context [(c =? ?k)%N] =>
             let E := fresh in
             destruct (N.eqb_spec c k) as [E|E]; [congruence|];
             cbn [flat_map app]
         end.
  reflexivity.
Qed.

Lemma json_escape_no_control (c x : N) :
  x ∈ json_escape c -> x <> 10%N /\ x <> 13%N /\ x <> 9%N.
Proof.
  unfold json_escape. intros H.
  repeat match goal with
         | H : _ ∈ (if ?b then _ else _) |- _ => destruct b eqn:?
         end;
    repeat (apply elem_of_cons in H as [-> | H]; [done|]);
    try (by apply elem_of_nil in H).
  all: apply elem_of_cons in H as [-> | H]; [|by apply elem_of_nil in H].
  all: repeat match goal with
              | E : (_ =? _)%N = false |- _ => apply N.eqb_neq in E
              end; done.
Qed.

(** X17. The five replacements of [sanitize_code_to_json_string] act as
    one pass over the text: each backslash, double quote, line feed,
    carriage return and tab is replaced by its two-character escape and
    every other character is kept, so no replacement touches what an earlier
    one wrote.  The result holds no line feed, carriage return or tab. *)
Theorem sanitize_code_to_json_string_escapes (raw_code : pystr) :
  sanitize_code_to_json_string raw_code = flat_map json_escape raw_code
  /\ (10%N ∉ sanitize_code_to_json_string raw_code)
  /\ (13%N ∉ sanitize_code_to_json_string raw_code)
  /\ (9%N ∉ sanitize_code_to_json_string raw_code).
Proof.
  split; [apply sanitize_one_pass|].
  rewrite sanitize_one_pass.
  assert (H : forall x, x ∈ flat_map json_escape raw_code ->
                        x <> 10%N /\ x <> 13%N /\ x <> 9%N).
  { intros x Hx. apply list_elem_of_In, in_flat_map in Hx as (c & _ & Hc).
    apply list_elem_of_In in Hc. by apply json_escape_no_control in Hc. }
  repeat split; intros Hin; apply H in Hin; tauto.
Qed.

Lemma json_unescape_escape (c : N) (rest : pystr) :
  json_unescape (json_escape c ++ rest)
  = if json_plain c then r ← json_unescape rest; Some (c :: r) else None.
Proof.
  unfold json_escape, json_plain.
  destruct (N.eqb_spec c 92) as [->|H92]; [reflexivity|].
  destruct (N.eqb_spec c 34) as [->|H34]; [reflexivity|].
  destruct (N.eqb_spec c 10) as [->|H10]; [reflexivity|].
  destruct (N.eqb_spec c 13) as [->|H13]; [reflexivity|].
  destruct (N.eqb_spec c 9) as [->|H9]; [reflexivity|].
  cbn [app json_unescape].
  destruct (N.eqb_spec c 92); [done|].
  destruct (N.eqb_spec c 34); [done|].
  rewrite !orb_false_r. cbn [orb].
  destruct (N.ltb_spec c 32), (N.leb_spec 32 c); try lia; reflexivity.
Qed.

(** X18. Read back as the inside of a JSON string, the result of
    [sanitize_code_to_json_string] is the text it was made from, provided
    the text holds no control character besides tab, line feed and carriage
    return; any other control character is left unescaped, and the result
    is then no JSON string at all. *)
Theorem sanitize_code_to_json_string_reads_back (raw_code : pystr) :
  json_unescape (sanitize_code_to_json_string raw_code)
  = if forallb json_plain raw_code then Some raw_code else None.
Proof.
  rewrite sanitize_one_pass.
  induction raw_code as [|c s IH]; [reflexivity|].
  cbn [flat_map forallb]. rewrite json_unescape_escape, IH.
  destruct (json_plain c); [|reflexivity].
  by destruct (forallb json_plain s).
Qed.

(** ** The interface of thisworks.py *)

(** X19. What [process_production_code] returns and leaves in the globals
    of its module.  Code that is empty or all white space, and no other,
    gets the notice and changes nothing.  A run that fails before a diagram
    exists, with one of the four run errors, gets an error message and
    changes nothing.  A run whose diagram can be encoded shows the image of
    its URL, stores diagram and URL, and [open_in_browser] then opens that
    URL.  A run whose diagram cannot be encoded still returns its diagram,
    with the error box in place of the image, and stores the diagram while
    the URL global stays as it was. *)
Theorem process_production_code_outcome (ps : parsers) (llm : Z -> llm_oracle)
    (code lang_choice : pystr) (g : tw_state) :
  (forallb isspace code = true ->
   process_production_code ps llm code lang_choice g = (NoCode, g))
  /\ match process_production_code ps llm code lang_choice g with
     | (NoCode, g') => g' = g /\ forallb isspace code = true
     | (Failed error_msg, g') =>
         g' = g
         /\ forallb isspace code = false
         /\ exists e, run_error e
                      /\ build_diagram ps llm code lang_choice = Raise e
     | (Produced (HtmlImage url) final_mermaid, g') =>
         forallb isspace code = false
         /\ (exists b, build_diagram ps llm code lang_choice = Ok b
                       /\ b_final_mermaid b = final_mermaid)
         /\ svg_url_of final_mermaid = Ok url
         /\ tw_current_svg_url g' = url
         /\ tw_current_mermaid_code g' = final_mermaid
         /\ snd (open_in_browser g') = Some url
     | (Produced (HtmlError _) final_mermaid, g') =>
         forallb isspace code = false
         /\ (exists b, build_diagram ps llm code lang_choice = Ok b
                       /\ b_final_mermaid b = final_mermaid)
         /\ forallb scalar_value final_mermaid = false
         /\ tw_current_svg_url g' = tw_current_svg_url g
         /\ tw_current_mermaid_code g' = final_mermaid
     end.
Proof.
  assert (Hsp : truthy (strip code) = negb (forallb isspace code)).
  { destruct (forallb isspace code) eqn:E.
    - apply strip_nil in E. by rewrite E.
    - destruct (strip code) eqn:Hs; [|reflexivity].
      assert (forallb isspace code = true) by (by apply strip_nil).
      congruence. }
  unfold process_production_code. rewrite Hsp.
  destruct (forallb isspace code) eqn:Hs; cbn [negb].
  - done.
  - split; [discriminate|].
    destruct (build_diagram ps llm code lang_choice) as [b|e] eqn:Hb.
    + unfold mermaid_to_svg, svg_url_of.
      destruct (utf8_encode (b_final_mermaid b)) as [bs|e] eqn:E; cbn.
      * split; [done|]. split; [by exists b|]. split; [by rewrite E|]. done.
      * apply utf8_encode_Raise in E as [_ E].
        split; [done|]. split; [by exists b|]. done.
    + split; [done|]. split; [done|]. exists e. split; [|done].
      by apply build_diagram_Raise in Hb.
Qed.

Lemma process_production_code_outcome_witness :
  process_production_code example_assignment_parsers example_llm
    [32%N; nl] (lit "auto")
    {| tw_current_svg_url := []; tw_current_mermaid_code := [] |}
  = (NoCode, {| tw_current_svg_url := []; tw_current_mermaid_code := [] |})
  /\ forallb isspace example_assignment_code = false
  /\ (exists b,
        build_diagram example_assignment_parsers example_llm
          example_assignment_code (lit "auto") = Ok b
        /\ b_final_mermaid b = lit "graph TD" ++ [nl] ++ lit "    A1([Start])")
  /\ svg_url_of (lit "graph TD" ++ [nl] ++ lit "    A1([Start])")
     = Ok (lit "https://mermaid.ink/svg/Z3JhcGggVEQKICAgIEExKFtTdGFydF0p").
Proof.
  split.
  - apply (proj1 (process_production_code_outcome example_assignment_parsers
                    example_llm [32%N; nl] (lit "auto")
                    {| tw_current_svg_url := [];
                       tw_current_mermaid_code := [] |})).
    reflexivity.
  - pose proof (proj2 (process_production_code_outcome
                         example_assignment_parsers example_llm
                         example_assignment_code (lit "auto")
                         {| tw_current_svg_url := [];
                            tw_current_mermaid_code := [] |})) as H.
    hnf in H. destruct H as (Hsp & Hb & Hurl & _).
    split; [exact Hsp|]. split; [exact Hb | exact Hurl].
Defined.

(** ** The renderer URL and the diagram *)

Lemma utf8_encode_cp_prefix_free (c d : N) (a b r1 r2 : pybytes) :
  utf8_encode_cp c = Some a -> utf8_encode_cp d = Some b ->
  a ++ r1 = b ++ r2 -> c = d /\ r1 = r2.
Proof.
  unfold utf8_encode_cp.
  destruct (N.ltb_spec c 128); [|destruct (N.ltb_spec c 2048);
    [|destruct (N.ltb_spec c 65536);
      [destruct ((55296 <=? c)%N && (c <=? 57343)%N); [discriminate|]
      |destruct (N.ltb_spec c 1114112); [|discriminate]]]];
  (destruct (N.ltb_spec d 128); [|destruct (N.ltb_spec d 2048);
    [|destruct (N.ltb_spec d 65536);
      [destruct ((55296 <=? d)%N && (d <=? 57343)%N); [discriminate|]
      |destruct (N.ltb_spec d 1114112); [|discriminate]]]]);
  intros [= <-] [= <-] Heq; cbn [app] in Heq;
  injection Heq as ?; subst;
  repeat match goal with
         | H : _ :: _ = _ :: _ |- _ => injection H as ?
         end; subst; split; (reflexivity || lia).
Qed.

(** Two texts with the same UTF-8 encoding are the same text. *)
Lemma utf8_encode_injective (s t : pystr) (bs : pybytes) :
  utf8_encode s = Ok bs -> utf8_encode t = Ok bs -> s = t.
Proof.
  revert t bs. induction s as [|c s IH]; intros t bs; simpl.
  - intros [= <-]. destruct t as [|d t]; [done|]. simpl.
    destruct (utf8_encode_cp d) as [b|] eqn:Ed; [|discriminate].
    destruct (utf8_encode t); simpl; [|discriminate].
    intros [= H]. exfalso. revert Ed H. unfold utf8_encode_cp.
    repeat match goal with
           | |- context [if ?x then _ else _] => destruct x
           end; intros [= <-]; discriminate.
  - destruct (utf8_encode_cp c) as [a|] eqn:Ec; [|discriminate].
    destruct (utf8_encode s) as [r1|] eqn:Es; simpl; [|discriminate].
    intros [= <-]. destruct t as [|d t]; simpl.
    + intros [= H]. exfalso. revert Ec H. unfold utf8_encode_cp.
      repeat match goal with
             | |- context [if ?x then _ else _] => destruct x
             end; intros [= <-]; discriminate.
    + destruct (utf8_encode_cp d) as [b|] eqn:Ed; [|discriminate].
      destruct (utf8_encode t) as [r2|] eqn:Et; simpl; [|discriminate].
      intros [= H].
      destruct (utf8_encode_cp_prefix_free c d a b r1 r2 Ec Ed) as [-> ->];
        [done|].
      f_equal. by apply (IH t r2).
Qed.

(** X22. The renderer URL determines the diagram: two diagram texts with
    the same URL are the same text. *)
Theorem svg_url_of_injective (text text' url : pystr) :
  svg_url_of text = Ok url -> svg_url_of text' = Ok url -> text = text'.
Proof.
  intros H1 H2.
  apply svg_url_of_roundtrip in H1 as (p1 & b1 & Hp1 & Hb1 & Hd1).
  apply svg_url_of_roundtrip in H2 as (p2 & b2 & Hp2 & Hb2 & Hd2).
  assert (p1 = p2) as -> by congruence.
  assert (b1 = b2) as -> by congruence.
  by apply (utf8_encode_injective text text' b2).
Qed.

Lemma svg_url_of_injective_witness :
  lit "graph TD" = [103; 114; 97; 112; 104; 32; 84; 68]%N.
Proof.
  apply (svg_url_of_injective (lit "graph TD")
           [103; 114; 97; 112; 104; 32; 84; 68]%N
           (lit "https://mermaid.ink/svg/Z3JhcGggVEQ=")); reflexivity.
Defined.

Lemma b64_char_url_safe (i : N) : (i < 64)%N -> url_safe_char (b64_char i) = true.
Proof.
  intros Hi.
  assert (H : forallb (fun k => url_safe_char (b64_char (N.of_nat k)))
                (seq 0 64) = true) by (vm_compute; reflexivity).
  rewrite forallb_forall in H. specialize (H (N.to_nat i)).
  rewrite N2Nat.id in H. apply H, in_seq. lia.
Qed.

Lemma urlsafe_b64encode_shape (bs : pybytes) :
  Forall (fun b => (b < 256)%N) bs ->
  forallb url_safe_char (urlsafe_b64encode bs) = true
  /\ (length (urlsafe_b64encode bs) = 4 * ((length bs + 2) / 3))%nat.
Proof.
  induction bs as [|b0|b0 b1|b0 b1 b2 rest IH] using list_ind3; intros Hall.
  - done.
  - apply Forall_cons in Hall as [H0 _]. cbn [urlsafe_b64encode forallb length].
    rewrite !b64_char_url_safe by lia. done.
  - apply Forall_cons in Hall as [H0 Hall].
    apply Forall_cons in Hall as [H1 _].
    cbn [urlsafe_b64encode forallb length].
    rewrite !b64_char_url_safe by lia. done.
  - apply Forall_cons in Hall as [H0 Hall].
    apply Forall_cons in Hall as [H1 Hall].
    apply Forall_cons in Hall as [H2 Hall].
    destruct (IH Hall) as [IH1 IH2].
    cbn [urlsafe_b64encode forallb length].
    rewrite !b64_char_url_safe by lia. rewrite IH1, IH2. split; [done|].
    replace (S (S (S (length rest))) + 2)%nat with (length rest + 2 + 1 * 3)%nat
      by lia.
    rewrite Nat.div_add by lia. lia.
Qed.

(** X23. The URL of a diagram is the service prefix followed by a payload
    made only of letters, digits, [-], [_] and [=], four characters for
    every three bytes of the UTF-8 encoding, the last group padded. *)
Theorem svg_url_of_payload (text url : pystr) :
  svg_url_of text = Ok url ->
  exists payload bs,
    url = lit "https://mermaid.ink/svg/" ++ payload
    /\ utf8_encode text = Ok bs
    /\ forallb url_safe_char payload = true
    /\ (length payload = 4 * ((length bs + 2) / 3))%nat.
Proof.
  unfold svg_url_of.
  destruct (utf8_encode text) as [bs|e] eqn:E; cbn [rbind]; [|discriminate].
  intros [= <-]. exists (urlsafe_b64encode bs), bs.
  split; [reflexivity|]. split; [reflexivity|].
  apply urlsafe_b64encode_shape. by apply utf8_encode_bytes in E.
Qed.

Lemma svg_url_of_payload_witness :
  exists payload bs,
    lit "https://mermaid.ink/svg/Z3JhcGggVEQ="
    = lit "https://mermaid.ink/svg/" ++ payload
    /\ utf8_encode (lit "graph TD") = Ok bs
    /\ forallb url_safe_char payload = true
    /\ (length payload = 4 * ((length bs + 2) / 3))%nat.
Proof.
  apply (svg_url_of_payload (lit "graph TD")
           (lit "https://mermaid.ink/svg/Z3JhcGggVEQ=")).
  reflexivity.
Defined.

(** ** The page and the server together *)

(** The three requests of a click, carried out: a submission that is not
    blank is always stored, the new session is always found, and what the
    page ends with is decided by the language and by the run. *)
Lemma generate_btn_steps (fresh_id : pystr) (ps : parsers)
    (llm : Z -> llm_oracle) (code_input language : pystr)
    (st : frontbe4.session_state) (s : api_state) (bs : pybytes) :
  truthy (strip code_input) = true ->
  utf8_encode code_input = Ok bs ->
  let st1 := {| frontbe4.st_session_id := Some fresh_id;
                frontbe4.st_flowchart_generated :=
                  frontbe4.st_flowchart_generated st;
                frontbe4.st_svg_url := frontbe4.st_svg_url st;
                frontbe4.st_mermaid_code := frontbe4.st_mermaid_code st;
                frontbe4.st_analysis := frontbe4.st_analysis st |} in
  let s1 := set_code_storage s
              (<[fresh_id := {| s_code := code_input;
                                s_language := lit "auto" |}]>
                 (code_storage s)) in
  let s2 := set_code_storage s
              (<[fresh_id := {| s_code := code_input;
                                s_language := language |}]>
                 (code_storage s)) in
  frontbe4.generate_btn fresh_id ps llm code_input language st s
  = if str_in language valid_languages then
      match process_code_internal ps llm code_input language s2 with
      | (Ok r, s3) =>
          (frontbe4.GeneratedSuccessfully,
           {| frontbe4.st_session_id := Some fresh_id;
              frontbe4.st_flowchart_generated := true;
              frontbe4.st_svg_url := Some (fr_svg_url r);
              frontbe4.st_mermaid_code := Some (fr_mermaid_code r);
              frontbe4.st_analysis := Some (fr_analysis r) |}, s3)
      | (Raise _, s3) => (frontbe4.FailedToGenerateFlowchart, st1, s3)
      end
    else (frontbe4.FailedToSetLanguage, st1, s1).
Proof.
  intros Hne Henc st1 s1 s2.
  unfold frontbe4.generate_btn. rewrite Hne. cbn [negb].
  unfold frontbe4.submit_code. rewrite Henc.
  unfold submit_code.
  assert (Hb : is_blank code_input = false).
  { unfold is_blank. rewrite Hne. destruct code_input; [discriminate|reflexivity]. }
  rewrite Hb. cbn [except_Exception_500 frontbe4.json_or_None sr_success sr_session_id].
  unfold frontbe4.set_language, set_language.
  cbn [code_storage set_code_storage]. rewrite lookup_insert_eq.
  destruct (str_in language valid_languages); cbn [negb frontbe4.json_or_None];
    [|reflexivity].
  cbn [lr_success s_code].
  unfold frontbe4.generate_flowchart, generate_flowchart_by_session.
  cbn [code_storage set_code_storage]. rewrite lookup_insert_eq.
  cbn [s_code s_language].
  rewrite insert_insert_eq. fold s2.
  replace (set_code_storage _ _) with s2 by (by destruct s).
  destruct (process_code_internal ps llm code_input language s2) as [[r|e] s3] eqn:E;
    cbn [except_Exception_500 frontbe4.json_or_None]; [|reflexivity].
  assert (fr_success r = true) as Hs.
  { revert E. unfold process_code_internal.
    destruct (build_diagram ps llm code_input language) as [b|e]; [|discriminate].
    destruct (mermaid_to_svg (b_final_mermaid b) _) as [h g].
    destruct (utf8_encode (b_final_mermaid b)) as [bs'|e]; [|discriminate].
    by intros [= <- <-]. }
  unfold set_session_id. cbn [fr_success fr_svg_url fr_mermaid_code fr_analysis].
  rewrite Hs. reflexivity.
Qed.

(** X24. A click on the generate button with code that is not blank and
    with one of the five languages of the select box ends in
    [Failed to set language] exactly when the language is [typescript], the
    one option that the server does not accept.  The click then leaves the
    submission stored on the server under the new identifier with the
    language [auto], the page holding that identifier, and what the page
    displayed unchanged. *)
Theorem generate_btn_typescript (fresh_id : pystr) (ps : parsers)
    (llm : Z -> llm_oracle) (code_input language : pystr)
    (st : frontbe4.session_state) (s : api_state) (bs : pybytes) :
  truthy (strip code_input) = true ->
  utf8_encode code_input = Ok bs ->
  In language frontbe4.language_options ->
  match frontbe4.generate_btn fresh_id ps llm code_input language st s with
  | (m, st', s') =>
      (m = frontbe4.FailedToSetLanguage <-> language = lit "typescript")
      /\ (language = lit "typescript" ->
          s' = set_code_storage s
                 (<[fresh_id := {| s_code := code_input;
                                   s_language := lit "auto" |}]>
                    (code_storage s))
          /\ frontbe4.st_session_id st' = Some fresh_id
          /\ frontbe4.st_flowchart_generated st'
             = frontbe4.st_flowchart_generated st
          /\ frontbe4.st_svg_url st' = frontbe4.st_svg_url st
          /\ frontbe4.st_mermaid_code st' = frontbe4.st_mermaid_code st
          /\ frontbe4.st_analysis st' = frontbe4.st_analysis st)
  end.
Proof.
  intros Hne Henc Hin.
  rewrite (generate_btn_steps _ _ _ _ _ _ _ _ Hne Henc).
  cbn in Hin.
  destruct Hin as [<-|[<-|[<-|[<-|[<-|[]]]]]];
    match goal with
    | |- context [str_in ?l valid_languages] =>
        let b := eval vm_compute in (str_in l valid_languages) in
        change (str_in l valid_languages) with b; cbv iota
    end;
    try (destruct (process_code_internal _ _ _ _ _) as [[r|e] s3];
         (split; [split; [discriminate|intros H; vm_compute in H; discriminate]
                 |intros H; vm_compute in H; discriminate])).
  split; [split; reflexivity|]. intros _. repeat split.
Qed.

Lemma generate_btn_typescript_witness :
  match frontbe4.generate_btn (lit "0001") example_assignment_parsers
          example_llm example_assignment_code (lit "typescript")
          {| frontbe4.st_session_id := None;
             frontbe4.st_flowchart_generated := false;
             frontbe4.st_svg_url := None;
             frontbe4.st_mermaid_code := None;
             frontbe4.st_analysis := None |} initial_state with
  | (m, st', s') =>
      (m = frontbe4.FailedToSetLanguage
       <-> lit "typescript" = lit "typescript")
      /\ (lit "typescript" = lit "typescript" ->
          s' = set_code_storage initial_state
                 (<[lit "0001" := {| s_code := example_assignment_code;
                                     s_language := lit "auto" |}]>
                    (code_storage initial_state))
          /\ frontbe4.st_session_id st' = Some (lit "0001")
          /\ frontbe4.st_flowchart_generated st' = false
          /\ frontbe4.st_svg_url st' = None
          /\ frontbe4.st_mermaid_code st' = None
          /\ frontbe4.st_analysis st' = None)
  end.
Proof.
  apply (generate_btn_typescript (lit "0001") example_assignment_parsers
           example_llm example_assignment_code (lit "typescript")
           {| frontbe4.st_session_id := None;
              frontbe4.st_flowchart_generated := false;
              frontbe4.st_svg_url := None;
              frontbe4.st_mermaid_code := None;
              frontbe4.st_analysis := None |} initial_state
           [120; 32; 61; 32; 49]%N).
  - reflexivity.
  - reflexivity.
  - simpl. tauto.
Defined.

(** X25. A click on the generate button with code that is not blank and a
    language that the server accepts stores the submission under the new
    identifier with that language and ends in one of two ways.  It succeeds
    exactly when the diagram of the code can be built and encoded; the page
    then shows the URL and the diagram text that the server's [/current]
    returns afterwards.  Otherwise it ends in [Failed to generate
    flowchart] and what the page displayed is unchanged. *)
Theorem generate_btn_shows_current (fresh_id : pystr) (ps : parsers)
    (llm : Z -> llm_oracle) (code_input language : pystr)
    (st : frontbe4.session_state) (s : api_state) (bs : pybytes) :
  truthy (strip code_input) = true ->
  utf8_encode code_input = Ok bs ->
  In language valid_languages ->
  match frontbe4.generate_btn fresh_id ps llm code_input language st s with
  | (m, st', s') =>
      code_storage s'
      = <[fresh_id := {| s_code := code_input; s_language := language |}]>
          (code_storage s)
      /\ frontbe4.st_session_id st' = Some fresh_id
      /\ (m = frontbe4.GeneratedSuccessfully
          \/ m = frontbe4.FailedToGenerateFlowchart)
      /\ (m = frontbe4.GeneratedSuccessfully
          <-> exists b bs',
                build_diagram ps llm code_input language = Ok b
                /\ utf8_encode (b_final_mermaid b) = Ok bs')
      /\ (m = frontbe4.GeneratedSuccessfully ->
          frontbe4.st_flowchart_generated st' = true
          /\ exists url text,
               frontbe4.st_svg_url st' = Some url
               /\ frontbe4.st_mermaid_code st' = Some text
               /\ get_current s'
                  = (Ok {| cr_svg_url := url; cr_mermaid_code := text |}, s'))
      /\ (m = frontbe4.FailedToGenerateFlowchart ->
          frontbe4.st_flowchart_generated st'
          = frontbe4.st_flowchart_generated st
          /\ frontbe4.st_svg_url st' = frontbe4.st_svg_url st
          /\ frontbe4.st_mermaid_code st' = frontbe4.st_mermaid_code st
          /\ frontbe4.st_analysis st' = frontbe4.st_analysis st)
  end.
Proof.
  intros Hne Henc Hin.
  rewrite (generate_btn_steps _ _ _ _ _ _ _ _ Hne Henc).
  assert (Hv : str_in language valid_languages = true).
  { apply str_in_spec, list_elem_of_In, Hin. }
  rewrite Hv.
  set (s2 := set_code_storage s _).
  pose proof (process_code_internal_globals ps llm code_input language s2) as G.
  destruct (process_code_internal ps llm code_input language s2)
    as [[r|e] s3] eqn:E.
  - destruct G as (Hu & Hm & Hnz & Hst).
    split; [by rewrite Hst|]. split; [reflexivity|].
    split; [by left|]. split.
    + split; [intros _|reflexivity].
      revert E. unfold process_code_internal.
      destruct (build_diagram ps llm code_input language) as [b|e] eqn:Eb;
        [|discriminate].
      destruct (mermaid_to_svg (b_final_mermaid b) _) as [h g].
      destruct (utf8_encode (b_final_mermaid b)) as [bs'|e] eqn:E';
        [|discriminate].
      intros _. by exists b, bs'.
    + split; [|discriminate]. intros _. split; [reflexivity|].
      exists (fr_svg_url r), (fr_mermaid_code r).
      split; [reflexivity|]. split; [reflexivity|].
      unfold get_current. rewrite Hu, Hm.
      destruct (fr_svg_url r); [done|reflexivity].
  - destruct G as (_ & Hst & Hno & _).
    split; [by rewrite Hst|]. split; [reflexivity|].
    split; [by right|]. split.
    + split; [discriminate|]. intros (b & bs' & Hb & He).
      exfalso. apply (Hno b Hb). by exists bs'.
    + split; [discriminate|]. intros _. repeat split.
Qed.

Lemma generate_btn_shows_current_witness :
  match frontbe4.generate_btn (lit "0001") example_assignment_parsers
          example_llm example_assignment_code (lit "python")
          {| frontbe4.st_session_id := None;
             frontbe4.st_flowchart_generated := false;
             frontbe4.st_svg_url := None;
             frontbe4.st_mermaid_code := None;
             frontbe4.st_analysis := None |} initial_state with
  | (m, st', s') =>
      code_storage s'
      = <[lit "0001" := {| s_code := example_assignment_code;
                           s_language := lit "python" |}]>
          (code_storage initial_state)
      /\ frontbe4.st_session_id st' = Some (lit "0001")
      /\ (m = frontbe4.GeneratedSuccessfully
          \/ m = frontbe4.FailedToGenerateFlowchart)
      /\ (m = frontbe4.GeneratedSuccessfully
          <-> exists b bs',
                build_diagram example_assignment_parsers example_llm
                  example_assignment_code (lit "python") = Ok b
                /\ utf8_encode (b_final_mermaid b) = Ok bs')
      /\ (m = frontbe4.GeneratedSuccessfully ->
          frontbe4.st_flowchart_generated st' = true
          /\ exists url text,
               frontbe4.st_svg_url st' = Some url
               /\ frontbe4.st_mermaid_code st' = Some text
               /\ get_current s'
                  = (Ok {| cr_svg_url := url; cr_mermaid_code := text |}, s'))
      /\ (m = frontbe4.FailedToGenerateFlowchart ->
          frontbe4.st_flowchart_generated st' = false
          /\ frontbe4.st_svg_url st' = None
          /\ frontbe4.st_mermaid_code st' = None
          /\ frontbe4.st_analysis st' = None)
  end.
Proof.
  apply (generate_btn_shows_current (lit "0001") example_assignment_parsers
           example_llm example_assignment_code (lit "python")
           {| frontbe4.st_session_id := None;
              frontbe4.st_flowchart_generated := false;
              frontbe4.st_svg_url := None;
              frontbe4.st_mermaid_code := None;
              frontbe4.st_analysis := None |} initial_state
           [120; 32; 61; 32; 49]%N).
  - reflexivity.
  - reflexivity.
  - simpl. tauto.
Defined.
